(** * EasyPay autonomous kiosk: money movement and three-factor login

    A shallow embedding of the backend's request handlers
    ([src/routes/auth.js], [src/routes/deposits.js], [src/routes/bills.js],
    [src/routes/admin.js]), of the session middleware
    ([src/middleware/auth.js]), of the payment-processor client
    ([src/services/easypay-service.js]), of the database helper
    ([config/database.js]) and of the EGN validator
    ([middleware/validation.js]).

    Conventions of the embedding.
    - An SQL table is the list of its rows in insertion order; [INSERT]
      appends, [UPDATE ... WHERE] maps over the matching rows, [SELECT ...
      WHERE] filters.  The store is taken to be reachable.
    - What the store refuses is in [Schema]: the widths of the columns of
      [transactions], its [CHECK] constraints, its primary and foreign
      key, and the [CHECK] on the balance of [users].  A deposit goes
      through all of it.  A transfer and a bill payment go through it
      where they write what the processor returned; their [INSERT] and
      their debit, which write the values of the request and of the
      balance check, are taken to succeed.  Registration goes through the
      primary key of [users].
    - A value of a [DECIMAL(15,2)] column is an integer counting
      hundredths of the currency unit.  The amount of a deposit is any
      decimal number ([Money.decimal]) and is rounded as the store rounds
      it.  The amount of a transfer or of a bill payment is a whole number
      of hundredths: the handlers compare it with the balance as doubles
      ([parseFloat(a) < parseFloat(b)]), which on such amounts is the
      order of the integers.
    - Identifiers written to the store come from [uuidv4()] and from the
      verified token; the short names of the samples stand for them.  An
      identifier taken from the path of a request is any text, and is read
      as the store reads a UUID ([Uuid]).
    - A handler is a function from the request and the store to the answer
      and the new store: a request handled to its answer before the next
      one starts.  [Overlap] has the login handler cut at its [await]s,
      for requests that the server handles at the same time.
    - [NOW()], [uuidv4()] and the answers of the remote services are inputs
      of a request.  bcrypt, SHA-256 and the JWT library are an abstract
      record of functions ([Externals]).
    - The rate limiters and the validation chains mounted in front of a
      handler are not part of the handler and are not modelled, apart from
      [validateEGN]. *)

From Stdlib Require Import ZArith List String Ascii Bool Lia DecimalString
  Sorted.
Import ListNotations.
Open Scope string_scope.
Open Scope Z_scope.

(* ===================================================================== *)
(** * Definitions                                                         *)
(* ===================================================================== *)

(** ** [validateEGN] (middleware/validation.js) *)

Module Validation.

(** [\d] of a JavaScript regular expression: the ten ASCII digits. *)
Definition is_digit (c : ascii) : bool :=
  let n := nat_of_ascii c in ((48 <=? n) && (n <=? 57))%nat.

(** [/^\d{10}$/.test(egn)] *)
Definition ten_digits (egn : string) : bool :=
  (String.length egn =? 10)%nat && forallb is_digit (list_ascii_of_string egn).

(** [parseInt(egn[i])] for a character that passed [\d]. *)
Definition parseInt_digit (c : ascii) : Z := Z.of_nat (nat_of_ascii c) - 48.

(** [egn[i]]; the default is never used once [ten_digits] holds. *)
Definition char_at (egn : string) (i : nat) : ascii :=
  nth i (list_ascii_of_string egn) "0"%char.

Definition weights : list Z := [2; 4; 8; 5; 10; 9; 7; 3; 6].

(** [for (let i = 0; i < 9; i++) sum += parseInt(egn[i]) * weights[i]] *)
Definition weighted_sum (egn : string) : Z :=
  fold_left
    (fun sum i => sum + parseInt_digit (char_at egn i) * nth i weights 0)
    (seq 0 9) 0.

(** [let checksum = sum % 11; if (checksum === 10) checksum = 0] *)
Definition checksum (egn : string) : Z :=
  let c := weighted_sum egn mod 11 in
  if c =? 10 then 0 else c.

Definition validateEGN (egn : string) : bool :=
  if negb (ten_digits egn) then false
  else checksum egn =? parseInt_digit (char_at egn 9).

(** The decimal digits of a string, as numbers. *)
Definition digits_of (egn : string) : list Z :=
  map parseInt_digit (list_ascii_of_string egn).

(** The check digit written from the rule itself: the sum of the
    products digit-by-weight over the given digits, modulo 11, with a
    remainder of 10 mapped to 0.  Compared with the code in the
    round-trip theorem. *)
Fixpoint dot (ds ws : list Z) : Z :=
  match ds, ws with
  | d :: ds', w :: ws' => d * w + dot ds' ws'
  | _, _ => 0
  end.

Definition recompute_check_digit (first9 : list Z) : Z :=
  let r := dot first9 weights mod 11 in
  if r =? 10 then 0 else r.

(** The string with its tenth character replaced by [c]. *)
Definition with_check_digit (egn : string) (c : ascii) : string :=
  String.substring 0 9 egn ++ String c EmptyString.

End Validation.

(** ** The payment-processor client (services/easypay-service.js) *)

Module EasyPay.

Definition MAX_RETRIES : nat := 3.
Definition RETRY_DELAY : Z := 1000.

(** Values of the fields of a request body. *)
Inductive json :=
| JString (s : string)
| JNumber (hundredths : Z).

(** A JavaScript object literal: its keys with their values, in order. *)
Definition payload := list (string * json).

(** What [easyPayClient.post(url, data)] sends.  The request interceptor
    adds the [X-Timestamp] and [X-Signature] headers, computed from the
    time, the method and the URL only; they are left out. *)
Record request := {
  method : string;
  url : string;
  data : payload
}.

(** [response.data] of an answer with a 2xx status. *)
Record response_data := {
  transaction_id : string;
  status : string;
  reference_number : string;
  timestamp : string;
  fee : option Z;
  provider_name : string
}.

(** A rejected axios promise: [error.response] is set when the processor
    answered with a status outside 2xx (4xx, 5xx) and absent on a timeout
    or a network failure. *)
Record error_response := {
  http_status : Z;
  data_message : option string
}.

Record axios_error := {
  response : option error_response;
  message : string
}.

Inductive outcome :=
| Fulfilled (d : response_data)
| Failed (e : axios_error).

(** The processor as the handler sees it: its answer to the [k]-th
    attempt (from 0) at a request. *)
Definition processor := nat -> request -> outcome.

(** How an [await]ed call ends. *)
Inductive settled (A E : Type) :=
| Returned (a : A)
| Thrown (e : E)
| ReturnedUndefined.
Arguments Returned {A E} a.
Arguments Thrown {A E} e.
Arguments ReturnedUndefined {A E}.

(** One run of [retryRequest]: how it ended, how many times [requestFn]
    was called, and the delays slept through, in milliseconds. *)
Record retry_run := {
  ended : settled response_data axios_error;
  calls : nat;
  sleeps : list Z
}.

(** [RETRY_DELAY * Math.pow(2, i)] *)
Definition backoff (i : nat) : Z := RETRY_DELAY * 2 ^ Z.of_nat i.

(** The [for] loop of [retryRequest] from index [i], with [rounds]
    iterations left ([rounds = retries - i]). *)
Fixpoint retry_loop (requestFn : nat -> outcome) (retries i rounds : nat)
  : retry_run :=
  match rounds with
  | O => {| ended := ReturnedUndefined; calls := i; sleeps := [] |}
  | S rounds' =>
      match requestFn i with
      | Fulfilled d => {| ended := Returned d; calls := S i; sleeps := [] |}
      | Failed e =>
          if (i =? retries - 1)%nat
          then {| ended := Thrown e; calls := S i; sleeps := [] |}
          else
            let delay := backoff i in
            let rest := retry_loop requestFn retries (S i) rounds' in
            {| ended := ended rest;
               calls := calls rest;
               sleeps := delay :: sleeps rest |}
      end
  end.

Definition retryRequest (requestFn : nat -> outcome) (retries : nat)
  : retry_run :=
  retry_loop requestFn retries 0 retries.

(** [x || fallback] on a string that may be undefined. *)
Definition or_default (x : option string) (fallback : string) : string :=
  match x with
  | Some EmptyString | None => fallback
  | Some s => s
  end.

(** What the service functions return. *)
Record result := {
  success : bool;
  transactionId : string;
  r_status : string;
  reference : string;
  r_timestamp : string;
  r_fee : Z;
  providerName : option string
}.

(** One call of a service function: its result or the message of the
    [Error] it throws, the requests that left for the processor (one per
    attempt) and the delays between them. *)
Record service_call := {
  answer : result + string;
  sent : list request;
  waited : list Z
}.

Record sepa_args := {
  sa_fromAccount : string;
  sa_toAccount : string;
  sa_amount : Z;
  sa_currency : option string;
  sa_recipientName : string;
  sa_description : option string;
  sa_reference : option string
}.

Definition default_to (fallback : string) (x : option string) : string :=
  match x with Some s => s | None => fallback end.

Definition createSepaTransfer (remote : processor) (now_iso : string)
    (a : sepa_args) : service_call :=
  let transferData : payload :=
    [ ("from_account", JString (sa_fromAccount a));
      ("to_account", JString (sa_toAccount a));
      ("amount", JNumber (sa_amount a));
      ("currency", JString (default_to "BGN" (sa_currency a)));
      ("recipient_name", JString (sa_recipientName a));
      ("description", JString (default_to "" (sa_description a)));
      ("reference", JString (default_to "" (sa_reference a)));
      ("transaction_type", JString "SEPA_TRANSFER");
      ("timestamp", JString now_iso) ] in
  let req := {| method := "post"; url := "/transfers/sepa";
                data := transferData |} in
  let run := retryRequest (fun k => remote k req) MAX_RETRIES in
  {| answer :=
       match ended run with
       | Returned d =>
           inl {| success := true;
                  transactionId := transaction_id d;
                  r_status := status d;
                  reference := reference_number d;
                  r_timestamp := timestamp d;
                  r_fee := match fee d with Some f => f | None => 0 end;
                  providerName := None |}
       | Thrown e =>
           match response e with
           | Some r => inr (or_default (data_message r) "Transfer failed")
           | None => inr "Failed to create transfer. Please try again."
           end
       | ReturnedUndefined =>
           (* [response.data] on [undefined] throws a TypeError, which
              has no [response] *)
           inr "Failed to create transfer. Please try again."
       end;
     sent := repeat req (calls run);
     waited := sleeps run |}.

Record bill_args := {
  ba_fromAccount : string;
  ba_providerCode : string;
  ba_billAccountNumber : string;
  ba_amount : Z;
  ba_currency : option string;
  ba_description : option string
}.

Definition processBillPayment (remote : processor) (now_iso : string)
    (a : bill_args) : service_call :=
  let paymentData : payload :=
    [ ("from_account", JString (ba_fromAccount a));
      ("provider_code", JString (ba_providerCode a));
      ("bill_account_number", JString (ba_billAccountNumber a));
      ("amount", JNumber (ba_amount a));
      ("currency", JString (default_to "BGN" (ba_currency a)));
      ("description", JString (default_to "" (ba_description a)));
      ("transaction_type", JString "BILL_PAYMENT");
      ("timestamp", JString now_iso) ] in
  let req := {| method := "post"; url := "/bills/pay";
                data := paymentData |} in
  let run := retryRequest (fun k => remote k req) MAX_RETRIES in
  {| answer :=
       match ended run with
       | Returned d =>
           inl {| success := true;
                  transactionId := transaction_id d;
                  r_status := status d;
                  reference := reference_number d;
                  r_timestamp := timestamp d;
                  r_fee := match fee d with Some f => f | None => 0 end;
                  providerName := Some (provider_name d) |}
       | Thrown e =>
           match response e with
           | Some r => inr (or_default (data_message r) "Payment failed")
           | None => inr "Failed to process payment. Please try again."
           end
       | ReturnedUndefined =>
           inr "Failed to process payment. Please try again."
       end;
     sent := repeat req (calls run);
     waited := sleeps run |}.

(** The value a request body has under a key. *)
Fixpoint field (key : string) (p : payload) : option json :=
  match p with
  | [] => None
  | (k, v) :: p' => if String.eqb k key then Some v else field key p'
  end.

Definition json_eqb (a b : json) : bool :=
  match a, b with
  | JString x, JString y => String.eqb x y
  | JNumber x, JNumber y => x =? y
  | _, _ => false
  end.

(** Whether some field of the body of a request holds the string [v]. *)
Definition carries (v : string) (q : request) : bool :=
  existsb (fun kv => json_eqb (snd kv) (JString v)) (data q).

(** A failure is transient when it is a timeout (no answer at all) or an
    answer with a 5xx status; an answer with a 4xx status is not. *)
Definition transient (e : axios_error) : bool :=
  match response e with
  | None => true
  | Some r => 500 <=? http_status r
  end.

End EasyPay.

(** ** The store (db/schema.sql, config/database.js, utils/audit.js) *)

Module Db.

Record user_row := {
  u_id : string;
  u_egn : string;
  u_full_name : string;
  u_pin_hash : string;
  u_balance : Z;
  u_account_number : string;
  u_is_active : bool;
  u_failed_login_attempts : Z;
  u_last_login_at : option Z
}.

Record transaction_row := {
  t_id : string;
  t_user_id : string;
  t_transaction_type : string;
  t_amount : Z;
  t_currency : string;
  t_status : string;
  t_easypay_transaction_id : option string;
  t_reference_number : option string;
  t_recipient_account : option string;
  t_recipient_name : option string;
  t_bill_provider : option string;
  t_bill_account_number : option string;
  t_description : option string;
  t_error_message : option string;
  t_ip_address : string;
  t_device_id : string;
  t_created_at : Z;
  t_completed_at : option Z
}.

Record session_row := {
  s_id : string;
  s_user_id : string;
  s_token_hash : string;
  s_ip_address : string;
  s_user_agent : string;
  s_expires_at : Z;
  s_created_at : Z;
  s_last_activity_at : Z
}.

Record provider_row := {
  p_provider_code : string;
  p_provider_name : string;
  p_is_active : bool
}.

Record audit_row := {
  a_user_id : option string;
  a_action : string;
  a_resource : string;
  a_resource_id : option string;
  a_status : string;
  a_amount : option Z;
  a_error_message : option string
}.

(** The tables, and the requests that have left for the payment
    processor so far ([wire], oldest first). *)
Record state := {
  users : list user_row;
  transactions : list transaction_row;
  sessions : list session_row;
  bill_providers : list provider_row;
  audit_logs : list audit_row;
  wire : list EasyPay.request
}.

Definition with_users (f : list user_row -> list user_row) (s : state) :=
  {| users := f (users s); transactions := transactions s;
     sessions := sessions s; bill_providers := bill_providers s;
     audit_logs := audit_logs s; wire := wire s |}.

Definition with_transactions
    (f : list transaction_row -> list transaction_row) (s : state) :=
  {| users := users s; transactions := f (transactions s);
     sessions := sessions s; bill_providers := bill_providers s;
     audit_logs := audit_logs s; wire := wire s |}.

Definition with_sessions (f : list session_row -> list session_row)
    (s : state) :=
  {| users := users s; transactions := transactions s;
     sessions := f (sessions s); bill_providers := bill_providers s;
     audit_logs := audit_logs s; wire := wire s |}.

Definition put_on_wire (rs : list EasyPay.request) (s : state) :=
  {| users := users s; transactions := transactions s;
     sessions := sessions s; bill_providers := bill_providers s;
     audit_logs := audit_logs s; wire := (wire s ++ rs)%list |}.

(** [UPDATE t SET ... WHERE <cond>] *)
Definition update {A} (cond : A -> bool) (set : A -> A) (rows : list A)
  : list A :=
  map (fun r => if cond r then set r else r) rows.

(** [SELECT ... WHERE <cond>] followed by [rows[0]] *)
Definition first_where {A} (cond : A -> bool) (rows : list A) : option A :=
  find cond rows.

Definition user_by_id (uid : string) (s : state) : option user_row :=
  first_where (fun u => String.eqb (u_id u) uid) (users s).

Definition user_by_egn (egn : string) (s : state) : option user_row :=
  first_where (fun u => String.eqb (u_egn u) egn) (users s).

Definition transaction_by_id (tid : string) (s : state)
  : option transaction_row :=
  first_where (fun t => String.eqb (t_id t) tid) (transactions s).

Definition set_balance (b : Z) (u : user_row) : user_row :=
  {| u_id := u_id u; u_egn := u_egn u; u_full_name := u_full_name u;
     u_pin_hash := u_pin_hash u; u_balance := b;
     u_account_number := u_account_number u;
     u_is_active := u_is_active u;
     u_failed_login_attempts := u_failed_login_attempts u;
     u_last_login_at := u_last_login_at u |}.

Definition set_failed_login_attempts (n : Z) (u : user_row) : user_row :=
  {| u_id := u_id u; u_egn := u_egn u; u_full_name := u_full_name u;
     u_pin_hash := u_pin_hash u; u_balance := u_balance u;
     u_account_number := u_account_number u;
     u_is_active := u_is_active u;
     u_failed_login_attempts := n;
     u_last_login_at := u_last_login_at u |}.

Definition set_last_login_at (t : Z) (u : user_row) : user_row :=
  {| u_id := u_id u; u_egn := u_egn u; u_full_name := u_full_name u;
     u_pin_hash := u_pin_hash u; u_balance := u_balance u;
     u_account_number := u_account_number u;
     u_is_active := u_is_active u;
     u_failed_login_attempts := u_failed_login_attempts u;
     u_last_login_at := Some t |}.

(** [SET status = $1, easypay_transaction_id = $2, reference_number = $3,
    completed_at = NOW()] *)
Definition set_processed (status easypay_id reference : string) (now : Z)
    (t : transaction_row) : transaction_row :=
  {| t_id := t_id t; t_user_id := t_user_id t;
     t_transaction_type := t_transaction_type t;
     t_amount := t_amount t; t_currency := t_currency t;
     t_status := status;
     t_easypay_transaction_id := Some easypay_id;
     t_reference_number := Some reference;
     t_recipient_account := t_recipient_account t;
     t_recipient_name := t_recipient_name t;
     t_bill_provider := t_bill_provider t;
     t_bill_account_number := t_bill_account_number t;
     t_description := t_description t;
     t_error_message := t_error_message t;
     t_ip_address := t_ip_address t; t_device_id := t_device_id t;
     t_created_at := t_created_at t;
     t_completed_at := Some now |}.

(** [SET status = $1, error_message = $2] *)
Definition set_status_error (status error : string)
    (t : transaction_row) : transaction_row :=
  {| t_id := t_id t; t_user_id := t_user_id t;
     t_transaction_type := t_transaction_type t;
     t_amount := t_amount t; t_currency := t_currency t;
     t_status := status;
     t_easypay_transaction_id := t_easypay_transaction_id t;
     t_reference_number := t_reference_number t;
     t_recipient_account := t_recipient_account t;
     t_recipient_name := t_recipient_name t;
     t_bill_provider := t_bill_provider t;
     t_bill_account_number := t_bill_account_number t;
     t_description := t_description t;
     t_error_message := Some error;
     t_ip_address := t_ip_address t; t_device_id := t_device_id t;
     t_created_at := t_created_at t;
     t_completed_at := t_completed_at t |}.

(** [createAuditLog]: one more row in [audit_logs].  It goes through the
    pool's [query], not through the client of an open transaction. *)
Definition createAuditLog (row : audit_row) (s : state) : state :=
  {| users := users s; transactions := transactions s;
     sessions := sessions s; bill_providers := bill_providers s;
     audit_logs := (audit_logs s ++ [row])%list; wire := wire s |}.

(** [logTransaction(userId, transactionType, transactionId, status,
    amount, errorMessage)]; [upper] is the type in upper case. *)
Definition logTransaction (userId upper transactionId status : string)
    (amount : Z) (errorMessage : option string) : state -> state :=
  createAuditLog
    {| a_user_id := Some userId;
       a_action := "TRANSACTION_" ++ upper;
       a_resource := "transaction";
       a_resource_id := Some transactionId;
       a_status := status;
       a_amount := Some amount;
       a_error_message := errorMessage |}.

(** [logAuthAttempt(egn, success, ip, agent, errorMessage)] *)
Definition logAuthAttempt (egn : string) (ok : bool)
    (errorMessage : option string) : state -> state :=
  createAuditLog
    {| a_user_id := None;
       a_action := "AUTH_ATTEMPT";
       a_resource := "authentication";
       a_resource_id := Some egn;
       a_status := if ok then "SUCCESS" else "FAILURE";
       a_amount := None;
       a_error_message := errorMessage |}.

(** [ROLLBACK]: what was written on the transaction's client (the rows of
    [users], [transactions], [sessions], [bill_providers]) is undone.  The
    audit rows were committed on another connection and stay, and so does
    what was sent to the processor. *)
Definition rollback (before now : state) : state :=
  {| users := users before; transactions := transactions before;
     sessions := sessions before; bill_providers := bill_providers before;
     audit_logs := audit_logs now; wire := wire now |}.

(** [transaction(callback)]: [BEGIN]; run the callback; [COMMIT] and
    return its result, or, when it throws, [ROLLBACK] and throw again.
    A thrown error is the right injection, with its message. *)
Definition transaction {A} (callback : state -> (A + string) * state)
    (s : state) : (A + string) * state :=
  match callback s with
  | (inl result, s') => (inl result, s')
  | (inr error, s') => (inr error, rollback s s')
  end.

End Db.

(** ** Amounts as the store reads and keeps them *)

Module Money.

(** A number as it reaches the store in a query parameter: [digits]
    divided by ten to the [scale].  100.505 is
    [{| digits := 100505; scale := 3 |}]. *)
Record decimal := {
  digits : Z;
  scale : nat
}.

Definition pow10 (n : nat) : Z := 10 ^ Z.of_nat n.

(** The value a [DECIMAL(15,2)] column keeps, in hundredths: the number
    rounded to two decimals, a tie going away from zero. *)
Definition round2 (a : decimal) : Z :=
  if (scale a <=? 2)%nat then digits a * pow10 (2 - scale a)
  else
    let unit := pow10 (scale a - 2) in
    Z.sgn (digits a) * ((2 * Z.abs (digits a) + unit) / (2 * unit)).

(** [balance + $1]: the exact sum of a stored amount, in hundredths, and
    a number. *)
Definition plus (hundredths : Z) (a : decimal) : decimal :=
  if (scale a <=? 2)%nat
  then {| digits := hundredths + digits a * pow10 (2 - scale a);
          scale := 2 |}
  else {| digits := hundredths * pow10 (scale a - 2) + digits a;
          scale := scale a |}.

(** [DECIMAL(15,2)] holds at most thirteen digits before the point. *)
Definition fits (hundredths : Z) : bool := Z.abs hundredths <? 10 ^ 15.

(** The number in hundredths, when it is a whole number of them. *)
Definition whole_hundredths (a : decimal) : option Z :=
  if (scale a <=? 2)%nat then Some (digits a * pow10 (2 - scale a))
  else if digits a mod pow10 (scale a - 2) =? 0
       then Some (digits a / pow10 (scale a - 2))
       else None.

End Money.

(** ** What the store refuses (db/schema.sql) *)

Module Schema.
Import Db.

(** A statement gives its result or throws, with the store's message. *)
Definition and_then {A B} (x : A + string) (f : A -> B + string)
  : B + string :=
  match x with
  | inl a => f a
  | inr error => inr error
  end.

Notation "x <- e ;; k" := (and_then e (fun x => k))
  (at level 61, e at next level, right associativity).

(** The double quote of the store's messages. *)
Definition quote : string := String (ascii_of_nat 34) EmptyString.

Definition violates (table constraint : string) : string :=
  "new row for relation " ++ quote ++ table ++ quote ++
  " violates check constraint " ++ quote ++ constraint ++ quote.

Definition too_long : string := "value too long for type character varying".

Definition overflow : string := "numeric field overflow".

Definition duplicate_key : string :=
  "duplicate key value violates unique constraint " ++ quote ++
  "transactions_pkey" ++ quote.

Definition foreign_key : string :=
  "insert or update on table " ++ quote ++ "transactions" ++ quote ++
  " violates foreign key constraint " ++ quote ++
  "transactions_user_id_fkey" ++ quote.

(** The error of every statement that follows a failed one between
    [BEGIN] and [ROLLBACK]. *)
Definition aborted : string :=
  "current transaction is aborted, commands ignored until end of transaction block".

(** Text is UTF-8: a byte from 128 to 191 continues a character. *)
Definition is_continuation (c : ascii) : bool :=
  let n := nat_of_ascii c in ((128 <=? n) && (n <? 192))%nat.

Definition is_space (c : ascii) : bool := Ascii.eqb c " ".

(** The count of characters of a text. *)
Definition chars (text : string) : nat :=
  List.length
    (filter (fun c => negb (is_continuation c)) (list_ascii_of_string text)).

(** The bytes of the first [n] characters, and the bytes after them. *)
Fixpoint split_chars (n : nat) (cs : list ascii) : list ascii * list ascii :=
  match cs with
  | [] => ([], [])
  | c :: rest =>
      if is_continuation c then
        let '(kept, excess) := split_chars n rest in (c :: kept, excess)
      else
        match n with
        | O => ([], cs)
        | S n' =>
            let '(kept, excess) := split_chars n' rest in (c :: kept, excess)
        end
  end.

(** A value written to a [VARCHAR(n)] column: kept when it has at most
    [n] characters, cut to [n] when only spaces lie beyond, refused
    otherwise. *)
Definition varchar (n : nat) (text : string) : string + string :=
  let '(kept, excess) := split_chars n (list_ascii_of_string text) in
  if forallb is_space excess then inl (string_of_list_ascii kept)
  else inr too_long.

(** The same for a value that may be [NULL]. *)
Definition varchar_or_null (n : nat) (text : option string)
  : option string + string :=
  match text with
  | None => inl None
  | Some t => kept <- varchar n t ;; inl (Some kept)
  end.

(** A value written to a [DECIMAL(15,2)] column. *)
Definition numeric (hundredths : Z) : Z + string :=
  if Money.fits hundredths then inl hundredths else inr overflow.

(** [CONSTRAINT valid_status] *)
Definition valid_status (status : string) : bool :=
  existsb (String.eqb status) ["PENDING"; "COMPLETED"; "FAILED"; "CANCELLED"].

(** [CONSTRAINT valid_transaction_type] *)
Definition valid_transaction_type (type : string) : bool :=
  existsb (String.eqb type)
    ["DEPOSIT"; "WITHDRAWAL"; "TRANSFER"; "BILL_PAYMENT"].

(** A row of [transactions] as its columns keep it. *)
Definition fit (t : transaction_row) : transaction_row + string :=
  type <- varchar 50 (t_transaction_type t) ;;
  amount <- numeric (t_amount t) ;;
  currency <- varchar 3 (t_currency t) ;;
  status <- varchar 50 (t_status t) ;;
  easypay_id <- varchar_or_null 255 (t_easypay_transaction_id t) ;;
  reference <- varchar_or_null 100 (t_reference_number t) ;;
  account <- varchar_or_null 34 (t_recipient_account t) ;;
  name <- varchar_or_null 255 (t_recipient_name t) ;;
  provider <- varchar_or_null 100 (t_bill_provider t) ;;
  bill_account <- varchar_or_null 100 (t_bill_account_number t) ;;
  ip <- varchar 45 (t_ip_address t) ;;
  device <- varchar 100 (t_device_id t) ;;
  inl {| t_id := t_id t; t_user_id := t_user_id t;
         t_transaction_type := type; t_amount := amount;
         t_currency := currency; t_status := status;
         t_easypay_transaction_id := easypay_id;
         t_reference_number := reference;
         t_recipient_account := account; t_recipient_name := name;
         t_bill_provider := provider;
         t_bill_account_number := bill_account;
         t_description := t_description t;
         t_error_message := t_error_message t;
         t_ip_address := ip; t_device_id := device;
         t_created_at := t_created_at t;
         t_completed_at := t_completed_at t |}.

(** The [CHECK] constraints of [transactions]. *)
Definition check (t : transaction_row) : unit + string :=
  if t_amount t <=? 0 then inr (violates "transactions" "amount_positive")
  else if negb (valid_status (t_status t))
  then inr (violates "transactions" "valid_status")
  else if negb (valid_transaction_type (t_transaction_type t))
  then inr (violates "transactions" "valid_transaction_type")
  else inl tt.

(** [INSERT INTO transactions]: the row must fit its columns and pass the
    checks, its [id] must be new (primary key) and its [user_id] must be
    that of a user (foreign key). *)
Definition insert_transaction (t : transaction_row) (s : state)
  : state + string :=
  row <- fit t ;;
  _ <- check row ;;
  if existsb (fun x => String.eqb (t_id x) (t_id row)) (transactions s)
  then inr duplicate_key
  else if negb (existsb (fun u => String.eqb (u_id u) (t_user_id row))
                  (users s))
  then inr foreign_key
  else inl (with_transactions (fun ts => (ts ++ [row])%list) s).

(** The balance after [balance + $1], as the column keeps it. *)
Definition new_balance (a : Money.decimal) (u : user_row) : Z :=
  Money.round2 (Money.plus (u_balance u) a).

(** [UPDATE users SET balance = balance + $1 WHERE id = $2]: every new
    balance must fit the column and pass [CONSTRAINT balance_positive]. *)
Definition add_to_balance (uid : string) (a : Money.decimal) (s : state)
  : state + string :=
  let touched := filter (fun u => String.eqb (u_id u) uid) (users s) in
  if negb (forallb (fun u => Money.fits (new_balance a u)) touched)
  then inr overflow
  else if negb (forallb (fun u => 0 <=? new_balance a u) touched)
  then inr (violates "users" "balance_positive")
  else inl (with_users
              (update (fun u => String.eqb (u_id u) uid)
                 (fun u => set_balance (new_balance a u) u)) s).

(** The values of [SET status = $1, easypay_transaction_id = $2,
    reference_number = $3] as the columns keep them. *)
Definition processed (status easypay_id reference : string)
  : (string * string * string) + string :=
  status <- varchar 50 status ;;
  easypay_id <- varchar 255 easypay_id ;;
  reference <- varchar 100 reference ;;
  if valid_status status then inl (status, easypay_id, reference)
  else inr (violates "transactions" "valid_status").

(** The value of [SET status = $1] as the column keeps it. *)
Definition new_status (status : string) : string + string :=
  status <- varchar 50 status ;;
  if valid_status status then inl status
  else inr (violates "transactions" "valid_status").

End Schema.

(** ** [POST /api/transfers/send] (routes, transfers part) *)

Module Transfers.
Import Db.

(** The body of the request, [req.user.id] as set by [verifyToken], and
    what the handler draws from its environment: the fresh [uuidv4()],
    the clock, the caller's address and device.  [amount] counts
    hundredths. *)
Record request := {
  userId : string;
  amount : Z;
  recipient_account : string;
  recipient_name : string;
  description : option string;
  currency : option string;
  transactionId : string;
  ipAddress : string;
  deviceId : string;
  now : Z;
  now_iso : string
}.

Inductive response :=
| Completed (tx : transaction_row) (newBalance : Z)  (* 200, success: true *)
| Error (status : Z) (error : string).               (* success: false *)

Definition has_id (uid : string) (u : user_row) : bool :=
  String.eqb (u_id u) uid.

Definition is_tx (tid : string) (t : transaction_row) : bool :=
  String.eqb (t_id t) tid.

Definition pending_row (r : request) : transaction_row :=
  {| t_id := transactionId r; t_user_id := userId r;
     t_transaction_type := "TRANSFER";
     t_amount := amount r;
     t_currency := EasyPay.default_to "BGN" (currency r);
     t_status := "PENDING";
     t_easypay_transaction_id := None;
     t_reference_number := None;
     t_recipient_account := Some (recipient_account r);
     t_recipient_name := Some (recipient_name r);
     t_bill_provider := None;
     t_bill_account_number := None;
     t_description := Some (EasyPay.default_to "" (description r));
     t_error_message := None;
     t_ip_address := ipAddress r; t_device_id := deviceId r;
     t_created_at := now r;
     t_completed_at := None |}.

(** The callback handed to [transaction].  The [INSERT] and the debit
    write the values of a request that has passed the balance check, and
    are taken to succeed; the [UPDATE] that follows the call writes what
    the processor returned, and the store may refuse it. *)
Definition send_callback (remote : EasyPay.processor) (r : request)
    (user : user_row) (s : state) : (unit + string) * state :=
  (* Create pending transaction *)
  let s := with_transactions (fun ts => (ts ++ [pending_row r])%list) s in
  (* Deduct from user balance immediately *)
  let s := with_users
             (update (has_id (userId r))
                (fun u => set_balance (u_balance u - amount r) u)) s in
  (* Process transfer via EasyPay *)
  let call :=
    EasyPay.createSepaTransfer remote (now_iso r)
      {| EasyPay.sa_fromAccount := u_account_number user;
         EasyPay.sa_toAccount := recipient_account r;
         EasyPay.sa_amount := amount r;
         EasyPay.sa_currency :=
           Some (EasyPay.default_to "BGN" (currency r));
         EasyPay.sa_recipientName := recipient_name r;
         EasyPay.sa_description :=
           Some (EasyPay.default_to "" (description r));
         EasyPay.sa_reference := Some (transactionId r) |} in
  let s := put_on_wire (EasyPay.sent call) s in
  match EasyPay.answer call with
  | inl transferResult =>
      (* Update transaction with EasyPay details *)
      match Schema.processed (EasyPay.r_status transferResult)
              (EasyPay.transactionId transferResult)
              (EasyPay.reference transferResult) with
      | inl (status, easypay_id, reference) =>
          let s := with_transactions
                     (update (is_tx (transactionId r))
                        (set_processed status easypay_id reference (now r)))
                     s in
          let s := logTransaction (userId r) "TRANSFER" (transactionId r)
                     "SUCCESS" (amount r) None s in
          (inl tt, s)
      | inr _ =>
          (* the UPDATE throws inside the try block; the catch block
             runs, and its first statement, on the same client, throws in
             its turn *)
          (inr Schema.aborted, s)
      end
  | inr easypayError =>
      (* Rollback balance if EasyPay fails *)
      let s := with_users
                 (update (has_id (userId r))
                    (fun u => set_balance (u_balance u + amount r) u)) s in
      let s := with_transactions
                 (update (is_tx (transactionId r))
                    (set_status_error "FAILED" easypayError)) s in
      let s := logTransaction (userId r) "TRANSFER" (transactionId r)
                 "FAILURE" (amount r) (Some easypayError) s in
      (* throw easypayError *)
      (inr easypayError, s)
  end.

Definition send (remote : EasyPay.processor) (r : request) (s : state)
  : response * state :=
  match user_by_id (userId r) s with
  | None => (Error 404 "User not found", s)
  | Some user =>
      (* Check sufficient balance *)
      if u_balance user <? amount r then
        (Error 400 "Insufficient balance",
         logTransaction (userId r) "TRANSFER" (transactionId r) "FAILURE"
           (amount r) (Some "Insufficient balance") s)
      else
        match transaction (send_callback remote r user) s with
        | (inr error, s') =>
            (Error 500
               (EasyPay.or_default (Some error)
                  "Transfer failed. Please try again."), s')
        | (inl _, s') =>
            match user_by_id (userId r) s',
                  transaction_by_id (transactionId r) s' with
            | Some u, Some tx => (Completed tx (u_balance u), s')
            | None, _ =>
                (Error 500
                   "Cannot read properties of undefined (reading 'balance')",
                 s')
            | Some _, None =>
                (Error 500
                   "Cannot read properties of undefined (reading 'id')",
                 s')
            end
        end
  end.

End Transfers.

(** ** [POST /api/bills/pay] (routes/bills.js) *)

Module Bills.
Import Db.

Record request := {
  userId : string;
  amount : Z;
  provider_code : string;
  bill_account_number : string;
  description : option string;
  currency : option string;
  transactionId : string;
  ipAddress : string;
  deviceId : string;
  now : Z;
  now_iso : string
}.

Inductive response :=
| Completed (tx : transaction_row) (provider : string) (newBalance : Z)
| Error (status : Z) (error : string).

Definition has_id (uid : string) (u : user_row) : bool :=
  String.eqb (u_id u) uid.

Definition is_tx (tid : string) (t : transaction_row) : bool :=
  String.eqb (t_id t) tid.

Definition pending_row (r : request) : transaction_row :=
  {| t_id := transactionId r; t_user_id := userId r;
     t_transaction_type := "BILL_PAYMENT";
     t_amount := amount r;
     t_currency := EasyPay.default_to "BGN" (currency r);
     t_status := "PENDING";
     t_easypay_transaction_id := None;
     t_reference_number := None;
     t_recipient_account := None;
     t_recipient_name := None;
     t_bill_provider := Some (provider_code r);
     t_bill_account_number := Some (bill_account_number r);
     t_description := Some (EasyPay.default_to "" (description r));
     t_error_message := None;
     t_ip_address := ipAddress r; t_device_id := deviceId r;
     t_created_at := now r;
     t_completed_at := None |}.

(** The callback handed to [transaction]; as for a transfer, the
    [INSERT] and the debit are taken to succeed, and the store may refuse
    what the processor returned. *)
Definition pay_callback (remote : EasyPay.processor) (r : request)
    (user : user_row) (s : state) : (unit + string) * state :=
  (* Create pending transaction *)
  let s := with_transactions (fun ts => (ts ++ [pending_row r])%list) s in
  (* Deduct from user balance immediately *)
  let s := with_users
             (update (has_id (userId r))
                (fun u => set_balance (u_balance u - amount r) u)) s in
  (* Process bill payment via EasyPay *)
  let call :=
    EasyPay.processBillPayment remote (now_iso r)
      {| EasyPay.ba_fromAccount := u_account_number user;
         EasyPay.ba_providerCode := provider_code r;
         EasyPay.ba_billAccountNumber := bill_account_number r;
         EasyPay.ba_amount := amount r;
         EasyPay.ba_currency :=
           Some (EasyPay.default_to "BGN" (currency r));
         EasyPay.ba_description :=
           Some (EasyPay.default_to "" (description r)) |} in
  let s := put_on_wire (EasyPay.sent call) s in
  match EasyPay.answer call with
  | inl paymentResult =>
      match Schema.processed (EasyPay.r_status paymentResult)
              (EasyPay.transactionId paymentResult)
              (EasyPay.reference paymentResult) with
      | inl (status, easypay_id, reference) =>
          let s := with_transactions
                     (update (is_tx (transactionId r))
                        (set_processed status easypay_id reference (now r)))
                     s in
          let s := logTransaction (userId r) "BILL_PAYMENT"
                     (transactionId r) "SUCCESS" (amount r) None s in
          (inl tt, s)
      | inr _ =>
          (* the UPDATE throws inside the try block; the catch block
             runs, and its first statement, on the same client, throws in
             its turn *)
          (inr Schema.aborted, s)
      end
  | inr easypayError =>
      (* Rollback balance if EasyPay fails *)
      let s := with_users
                 (update (has_id (userId r))
                    (fun u => set_balance (u_balance u + amount r) u)) s in
      let s := with_transactions
                 (update (is_tx (transactionId r))
                    (set_status_error "FAILED" easypayError)) s in
      let s := logTransaction (userId r) "BILL_PAYMENT" (transactionId r)
                 "FAILURE" (amount r) (Some easypayError) s in
      (inr easypayError, s)
  end.

(** [WHERE provider_code = $1 AND is_active = true] *)
Definition active_provider (code : string) (p : provider_row) : bool :=
  String.eqb (p_provider_code p) code && p_is_active p.

Definition pay (remote : EasyPay.processor) (r : request) (s : state)
  : response * state :=
  match user_by_id (userId r) s with
  | None => (Error 404 "User not found", s)
  | Some user =>
      if u_balance user <? amount r then
        (Error 400 "Insufficient balance",
         logTransaction (userId r) "BILL_PAYMENT" (transactionId r)
           "FAILURE" (amount r) (Some "Insufficient balance") s)
      else
        match first_where (active_provider (provider_code r))
                (bill_providers s) with
        | None => (Error 404 "Bill provider not found or inactive", s)
        | Some provider =>
            match transaction (pay_callback remote r user) s with
            | (inr error, s') =>
                (Error 500
                   (EasyPay.or_default (Some error)
                      "Bill payment failed. Please try again."), s')
            | (inl _, s') =>
                match user_by_id (userId r) s',
                      transaction_by_id (transactionId r) s' with
                | Some u, Some tx =>
                    (Completed tx (p_provider_name provider) (u_balance u),
                     s')
                | None, _ =>
                    (Error 500
                       "Cannot read properties of undefined (reading 'balance')",
                     s')
                | Some _, None =>
                    (Error 500
                       "Cannot read properties of undefined (reading 'id')",
                     s')
                end
            end
        end
  end.

End Bills.

(** ** Libraries and services the handlers call *)

(** What [jwt.verify(token, JWT_SECRET)] does: it returns the payload, or
    throws one of the library's two errors. *)
Inductive jwt_outcome :=
| Decoded (userId egn : string)
| TokenExpiredError
| JsonWebTokenError.

(** bcryptjs, [crypto.createHash('sha256')] and jsonwebtoken, with the
    secrets they are keyed with; [jwt_sign] and [jwt_verify] read the
    clock. *)
Record Externals := {
  bcrypt_hash : string -> string -> string;      (* pin, salt *)
  bcrypt_compare : string -> string -> bool;     (* pin, hash *)
  sha256_hex : string -> string;
  jwt_sign : string -> string -> Z -> string;    (* userId, egn, now *)
  jwt_verify : string -> Z -> jwt_outcome        (* token, now *)
}.

(** The face-recognition service (services/ai-service, a remote call):
    [verifyFace(userId, image)] answers [{verified, confidence}] or throws;
    [enrollFace(userId, image)] succeeds or throws. *)
Inductive face_outcome :=
| FaceAnswer (verified : bool) (confidence : Z)
| FaceThrows.

Record FaceService := {
  verifyFace : string -> string -> face_outcome;
  enrollFace : string -> string -> bool
}.

(** [if (x)] on a string that may be undefined: the empty string is
    falsy. *)
Definition truthy (x : option string) : bool :=
  match x with
  | Some (String _ _) => true
  | _ => false
  end.

(** ** Sessions (middleware/auth.js) *)

Module Session.
Import Db.

(** [generateToken(userId, egn)] *)
Definition generateToken (X : Externals) (userId egn : string) (now : Z)
  : string :=
  jwt_sign X userId egn now.

(** [authHeader.substring(7)] when the header is there and starts with
    ["Bearer "]. *)
Definition bearer (authorization : option string) : option string :=
  match authorization with
  | Some h =>
      if String.prefix "Bearer " h
      then Some (String.substring 7 (String.length h - 7) h)
      else None
  | None => None
  end.

(** [req.user] *)
Record user_context := {
  id : string;
  egn : string;
  fullName : string
}.

Inductive response :=
| Next (user : user_context)
| Rejected (status : Z) (error : string).

(** [ORDER BY created_at DESC LIMIT 1] *)
Fixpoint newest (rows : list session_row) : option session_row :=
  match rows with
  | [] => None
  | r :: rest =>
      match newest rest with
      | Some r' => if s_created_at r <? s_created_at r' then Some r' else Some r
      | None => Some r
      end
  end.

(** [WHERE s.user_id = $1 AND s.expires_at > NOW()] *)
Definition live_for (userId : string) (now : Z) (r : session_row) : bool :=
  String.eqb (s_user_id r) userId && (now <? s_expires_at r).

Definition touch (now : Z) (r : session_row) : session_row :=
  {| s_id := s_id r; s_user_id := s_user_id r;
     s_token_hash := s_token_hash r; s_ip_address := s_ip_address r;
     s_user_agent := s_user_agent r; s_expires_at := s_expires_at r;
     s_created_at := s_created_at r; s_last_activity_at := now |}.

Definition verifyToken (X : Externals) (authorization : option string)
    (now : Z) (s : state) : response * state :=
  match bearer authorization with
  | None => (Rejected 401 "No token provided", s)
  | Some token =>
      (* Verify token *)
      match jwt_verify X token now with
      | TokenExpiredError => (Rejected 401 "Token expired", s)
      | JsonWebTokenError => (Rejected 401 "Invalid token", s)
      | Decoded userId _ =>
          (* Check if session exists and is valid: sessions joined with
             their user *)
          match user_by_id userId s,
                newest (filter (live_for userId now) (sessions s)) with
          | Some u, Some session =>
              if negb (u_is_active u) then
                (Rejected 403 "Account is deactivated", s)
              else
                (* Update last activity *)
                (Next {| id := userId; egn := u_egn u;
                         fullName := u_full_name u |},
                 with_sessions
                   (update (fun r => String.eqb (s_id r) (s_id session))
                      (touch now)) s)
          | _, _ => (Rejected 401 "Session expired or invalid", s)
          end
      end
  end.

Definition hour : Z := 3600000.

(** [createSession(userId, token, ipAddress, userAgent)]; [sid] is the
    identifier the store gives the new row. *)
Definition createSession (X : Externals) (sid userId token ip agent : string)
    (now : Z) (s : state) : state :=
  let tokenHash := sha256_hex X token in
  let expiresAt := now + hour in
  with_sessions
    (fun rows =>
       (rows ++ [ {| s_id := sid; s_user_id := userId;
                     s_token_hash := tokenHash; s_ip_address := ip;
                     s_user_agent := agent; s_expires_at := expiresAt;
                     s_created_at := now; s_last_activity_at := now |} ])%list)
    s.

(** [logout(userId)]: [DELETE FROM sessions WHERE user_id = $1] *)
Definition logout (userId : string) (s : state) : state :=
  with_sessions
    (filter (fun r => negb (String.eqb (s_user_id r) userId))) s.

End Session.

(** ** The authentication routes (routes/auth.js) *)

Module Auth.
Import Db.

Definition LOCK_THRESHOLD : Z := 5.

(** [POST /api/auth/verify] *)
Record login_request := {
  egn : string;
  pin : string;
  face_image : option string;
  ipAddress : string;
  userAgent : string;
  now : Z;
  session_id : string
}.

Record user_summary := {
  id : string;
  sum_egn : string;
  fullName : string;
  accountNumber : string;
  balance : Z
}.

Inductive response :=
| LoggedIn (token : string) (user : user_summary)            (* 200 *)
| Refused (status : Z) (error : string) (confidence : option Z).

Definition locked_message : string :=
  "Account locked due to too many failed attempts. Please contact support.".

Definition has_id (uid : string) (u : user_row) : bool :=
  String.eqb (u_id u) uid.

(** [UPDATE users SET failed_login_attempts = failed_login_attempts + 1
    WHERE id = $1] *)
Definition count_failure (uid : string) : state -> state :=
  with_users
    (update (has_id uid)
       (fun u => set_failed_login_attempts (u_failed_login_attempts u + 1) u)).

(** [UPDATE users SET failed_login_attempts = 0, last_login_at = NOW()
    WHERE id = $1] *)
Definition reset_failures (uid : string) (now : Z) : state -> state :=
  with_users
    (update (has_id uid)
       (fun u => set_last_login_at now (set_failed_login_attempts 0 u))).

(** The steps after every factor has passed. *)
Definition grant (X : Externals) (r : login_request) (user : user_row)
    (s : state) : response * state :=
  (* Reset failed attempts on successful login *)
  let s := reset_failures (u_id user) (now r) s in
  (* Generate JWT token *)
  let token := Session.generateToken X (u_id user) (u_egn user) (now r) in
  (* Create session *)
  let s := Session.createSession X (session_id r) (u_id user) token
             (ipAddress r) (userAgent r) (now r) s in
  let s := logAuthAttempt (egn r) true None s in
  (LoggedIn token
     {| id := u_id user; sum_egn := u_egn user;
        fullName := u_full_name user;
        accountNumber := u_account_number user;
        balance := u_balance user |}, s).

Definition verify (X : Externals) (F : FaceService) (r : login_request)
    (s : state) : response * state :=
  (* Get user by EGN *)
  match user_by_egn (egn r) s with
  | None =>
      (Refused 401 "Invalid credentials" None,
       logAuthAttempt (egn r) false (Some "User not found") s)
  | Some user =>
      (* Check if account is active *)
      if negb (u_is_active user) then
        (Refused 403 "Account is deactivated" None,
         logAuthAttempt (egn r) false (Some "Account deactivated") s)
      (* Check failed login attempts *)
      else if LOCK_THRESHOLD <=? u_failed_login_attempts user then
        (Refused 403 locked_message None,
         logAuthAttempt (egn r) false (Some "Account locked") s)
      (* Factor 1: Verify PIN *)
      else if negb (bcrypt_compare X (pin r) (u_pin_hash user)) then
        (Refused 401 "Invalid credentials" None,
         logAuthAttempt (egn r) false (Some "Invalid PIN")
           (count_failure (u_id user) s))
      (* Factor 2: Verify Face (if image provided) *)
      else if truthy (face_image r) then
        match verifyFace F (u_id user)
                (EasyPay.default_to "" (face_image r)) with
        | FaceAnswer false confidence =>
            (Refused 401 "Face verification failed" (Some confidence),
             logAuthAttempt (egn r) false (Some "Face verification failed")
               (count_failure (u_id user) s))
        | FaceAnswer true _ => grant X r user s
        | FaceThrows =>
            (* Don't fail login if face verification service is down *)
            grant X r user s
        end
      else grant X r user s
  end.

(** [POST /api/auth/register] *)
Record register_request := {
  reg_egn : string;
  reg_full_name : string;
  reg_pin : string;
  reg_account_number : string;
  reg_face_image : option string;
  reg_userId : string;      (* uuidv4() *)
  reg_salt : string
}.

Inductive plain_response :=
| Sent (status : Z) (success : bool) (text : string).

(** [INSERT INTO users]: [id] is the primary key, so a row whose [id] is
    taken is refused. *)
Definition insert_user (row : user_row) (s : state) : option state :=
  if existsb (has_id (u_id row)) (users s) then None
  else Some (with_users (fun rows => (rows ++ [row])%list) s).

Definition register_callback (F : FaceService) (r : register_request)
    (pinHash : string) (s : state) : (unit + string) * state :=
  match insert_user
          {| u_id := reg_userId r; u_egn := reg_egn r;
             u_full_name := reg_full_name r; u_pin_hash := pinHash;
             u_balance := 0; u_account_number := reg_account_number r;
             u_is_active := true; u_failed_login_attempts := 0;
             u_last_login_at := None |} s with
  | None =>
      (inr "duplicate key value violates unique constraint", s)
  | Some s =>
      (* Enroll face if provided *)
      if truthy (reg_face_image r) then
        if enrollFace F (reg_userId r)
             (EasyPay.default_to "" (reg_face_image r))
        then (inl tt, s)
        else (inr "Face enrollment failed. Please try again.", s)
      else (inl tt, s)
  end.

Definition register (X : Externals) (F : FaceService)
    (r : register_request) (s : state) : plain_response * state :=
  (* Check if user already exists *)
  if existsb
       (fun u => String.eqb (u_egn u) (reg_egn r)
                 || String.eqb (u_account_number u) (reg_account_number r))
       (users s)
  then (Sent 400 false
          "User with this EГН or account number already exists", s)
  else
    let pinHash := bcrypt_hash X (reg_pin r) (reg_salt r) in
    match transaction (register_callback F r pinHash) s with
    | (inl _, s') =>
        (Sent 201 true "User registered successfully",
         logAuthAttempt (reg_egn r) true None s')
    | (inr error, s') =>
        (Sent 500 false (EasyPay.or_default (Some error) "Registration failed"),
         logAuthAttempt (reg_egn r) false (Some error) s')
    end.

(** [POST /api/auth/logout] *)
Definition logout (X : Externals) (authorization : option string)
    (now : Z) (s : state) : plain_response * state :=
  (Sent 200 true "Logged out successfully",
   match Session.bearer authorization with
   | Some token =>
       match jwt_verify X token now with
       | Decoded userId _ => Session.logout userId s
       | _ => s
       end
   | None => s
   end).

(** [POST /api/auth/enroll-face] *)
Record enroll_request := {
  en_egn : option string;
  en_pin : option string;
  en_face_image : option string
}.

Definition enroll_face (X : Externals) (F : FaceService)
    (r : enroll_request) (s : state) : plain_response * state :=
  if negb (truthy (en_egn r)) || negb (truthy (en_pin r))
     || negb (truthy (en_face_image r))
  then (Sent 400 false "Missing required fields", s)
  else
    match user_by_egn (EasyPay.default_to "" (en_egn r)) s with
    | None => (Sent 401 false "Invalid credentials", s)
    | Some user =>
        if negb (bcrypt_compare X (EasyPay.default_to "" (en_pin r))
                   (u_pin_hash user))
        then (Sent 401 false "Invalid credentials", s)
        else if enrollFace F (u_id user)
                  (EasyPay.default_to "" (en_face_image r))
        then (Sent 200 true "Face enrolled successfully", s)
        else (Sent 500 false "Face enrollment failed", s)
    end.

Definition issues_token (a : response) : bool :=
  match a with
  | LoggedIn _ _ => true
  | Refused _ _ _ => false
  end.

(** The condition for a token in the words of the specification:
    the PIN matches the stored hash, and no face image was supplied or the
    verifier returned [verified = true], and the account is active, and the
    counter is below the threshold. *)
Definition gate_as_stated (X : Externals) (F : FaceService)
    (r : login_request) (s : state) : Prop :=
  exists user,
    user_by_egn (egn r) s = Some user /\
    bcrypt_compare X (pin r) (u_pin_hash user) = true /\
    (truthy (face_image r) = false \/
     exists confidence,
       verifyFace F (u_id user) (EasyPay.default_to "" (face_image r)) =
         FaceAnswer true confidence) /\
    u_is_active user = true /\
    u_failed_login_attempts user < LOCK_THRESHOLD.

(** The same condition with the third way past the face factor that the
    handler has: the verifier could not be reached. *)
Definition gate (X : Externals) (F : FaceService)
    (r : login_request) (s : state) : Prop :=
  exists user,
    user_by_egn (egn r) s = Some user /\
    bcrypt_compare X (pin r) (u_pin_hash user) = true /\
    (truthy (face_image r) = false \/
     (exists confidence,
        verifyFace F (u_id user) (EasyPay.default_to "" (face_image r)) =
          FaceAnswer true confidence) \/
     verifyFace F (u_id user) (EasyPay.default_to "" (face_image r)) =
       FaceThrows) /\
    u_is_active user = true /\
    u_failed_login_attempts user < LOCK_THRESHOLD.

(** A call of one of the four routes, and its effect on the store. *)
Inductive call :=
| CallRegister (r : register_request)
| CallVerify (r : login_request)
| CallLogout (authorization : option string) (now : Z)
| CallEnrollFace (r : enroll_request).

Inductive reply :=
| Login (a : response)
| Plain (a : plain_response).

Definition step (X : Externals) (F : FaceService) (c : call) (s : state)
  : reply * state :=
  match c with
  | CallRegister r => let '(a, s') := register X F r s in (Plain a, s')
  | CallVerify r => let '(a, s') := verify X F r s in (Login a, s')
  | CallLogout h t => let '(a, s') := logout X h t s in (Plain a, s')
  | CallEnrollFace r => let '(a, s') := enroll_face X F r s in (Plain a, s')
  end.

(** The calls of a list one after the other, each one handled to its
    answer before the next one starts: their replies, in order, and the
    final store.  Requests that the server handles at the same time are
    in [Overlap]. *)
Fixpoint run (X : Externals) (F : FaceService) (cs : list call) (s : state)
  : list reply * state :=
  match cs with
  | [] => ([], s)
  | c :: cs' =>
      let '(a, s1) := step X F c s in
      let '(rest, s2) := run X F cs' s1 in
      (a :: rest, s2)
  end.

(** Login attempts one after the other; the final store. *)
Definition attempts (X : Externals) (F : FaceService)
    (rs : list login_request) (s : state) : state :=
  fold_left (fun s r => snd (verify X F r s)) rs s.

End Auth.

(** ** [POST /api/auth/verify], one awaited operation at a time *)

Module Overlap.
Import Db.

(** Where the handler of a login request stands.  Every [await] of the
    handler is a point at which the server may go on with another
    request; between two of them the handler runs alone.  [user] is the
    row the handler read with its [SELECT] and keeps in a local
    variable. *)
Inductive stage :=
| Selecting                                  (* await query(SELECT ...) *)
| Comparing (user : user_row)                (* await bcrypt.compare *)
| CheckingFace (user : user_row)             (* await verifyFace *)
| Counting (user : user_row) (reason : string) (a : Auth.response)
                                             (* await query(UPDATE ... + 1) *)
| Resetting (user : user_row)                (* await query(UPDATE ... = 0) *)
| OpeningSession (user : user_row)           (* await createSession *)
| Logging (ok : bool) (reason : option string) (a : Auth.response)
                                             (* await logAuthAttempt *)
| Answered (a : Auth.response).              (* res.json *)

(** From one [await] to the next. *)
Definition advance (X : Externals) (F : FaceService)
    (r : Auth.login_request) (at_stage : stage) (s : state)
  : stage * state :=
  match at_stage with
  | Selecting =>
      (* Get user by EGN *)
      match user_by_egn (Auth.egn r) s with
      | None =>
          (Logging false (Some "User not found")
             (Auth.Refused 401 "Invalid credentials" None), s)
      | Some user =>
          (* Check if account is active *)
          if negb (u_is_active user) then
            (Logging false (Some "Account deactivated")
               (Auth.Refused 403 "Account is deactivated" None), s)
          (* Check failed login attempts *)
          else if Auth.LOCK_THRESHOLD <=? u_failed_login_attempts user then
            (Logging false (Some "Account locked")
               (Auth.Refused 403 Auth.locked_message None), s)
          else (Comparing user, s)
      end
  | Comparing user =>
      (* Factor 1: Verify PIN *)
      if negb (bcrypt_compare X (Auth.pin r) (u_pin_hash user)) then
        (Counting user "Invalid PIN"
           (Auth.Refused 401 "Invalid credentials" None), s)
      (* Factor 2: Verify Face (if image provided) *)
      else if truthy (Auth.face_image r) then (CheckingFace user, s)
      else (Resetting user, s)
  | CheckingFace user =>
      match verifyFace F (u_id user)
              (EasyPay.default_to "" (Auth.face_image r)) with
      | FaceAnswer false confidence =>
          (Counting user "Face verification failed"
             (Auth.Refused 401 "Face verification failed" (Some confidence)),
           s)
      | FaceAnswer true _ => (Resetting user, s)
      | FaceThrows => (Resetting user, s)
      end
  | Counting user reason a =>
      (Logging false (Some reason) a, Auth.count_failure (u_id user) s)
  | Resetting user =>
      (* Reset failed attempts on successful login *)
      (OpeningSession user, Auth.reset_failures (u_id user) (Auth.now r) s)
  | OpeningSession user =>
      let token :=
        Session.generateToken X (u_id user) (u_egn user) (Auth.now r) in
      (Logging true None
         (Auth.LoggedIn token
            {| Auth.id := u_id user; Auth.sum_egn := u_egn user;
               Auth.fullName := u_full_name user;
               Auth.accountNumber := u_account_number user;
               Auth.balance := u_balance user |}),
       Session.createSession X (Auth.session_id r) (u_id user) token
         (Auth.ipAddress r) (Auth.userAgent r) (Auth.now r) s)
  | Logging ok reason a =>
      (Answered a, logAuthAttempt (Auth.egn r) ok reason s)
  | Answered a => (Answered a, s)
  end.

(** A request that nothing interrupts: [n] operations in a row. *)
Fixpoint alone (X : Externals) (F : FaceService) (r : Auth.login_request)
    (n : nat) (at_stage : stage) (s : state) : stage * state :=
  match n with
  | O => (at_stage, s)
  | S n' =>
      let '(next, s') := advance X F r at_stage s in alone X F r n' next s'
  end.

(** The requests that the server is handling. *)
Record task := {
  request : Auth.login_request;
  standing : stage
}.

Definition arrive (r : Auth.login_request) : task :=
  {| request := r; standing := Selecting |}.

(** The server goes on with the request of index [i]. *)
Fixpoint turn (X : Externals) (F : FaceService) (i : nat)
    (pool : list task) (s : state) : list task * state :=
  match pool, i with
  | [], _ => ([], s)
  | t :: rest, O =>
      let '(next, s') := advance X F (request t) (standing t) s in
      ({| request := request t; standing := next |} :: rest, s')
  | t :: rest, S i' =>
      let '(rest', s') := turn X F i' rest s in (t :: rest', s')
  end.

(** A schedule names, turn after turn, the request that goes on. *)
Fixpoint interleave (X : Externals) (F : FaceService) (schedule : list nat)
    (pool : list task) (s : state) : list task * state :=
  match schedule with
  | [] => (pool, s)
  | i :: later =>
      let '(pool', s') := turn X F i pool s in
      interleave X F later pool' s'
  end.

Definition counter (egn : string) (s : state) : option Z :=
  option_map u_failed_login_attempts (user_by_egn egn s).

End Overlap.

(** ** Concrete stores, requests and remote services *)

Module Samples.
Import Db.

Definition alice : user_row :=
  {| u_id := "u-1"; u_egn := "6101057509"; u_full_name := "Alice";
     u_pin_hash := "bcrypt:1234"; u_balance := 100000;
     u_account_number := "BG80BNBG96611020345678";
     u_is_active := true; u_failed_login_attempts := 0;
     u_last_login_at := None |}.

Definition cez : provider_row :=
  {| p_provider_code := "CEZ"; p_provider_name := "CEZ Electro";
     p_is_active := true |}.

Definition store : state :=
  {| users := [alice]; transactions := []; sessions := [];
     bill_providers := [cez]; audit_logs := []; wire := [] |}.

(** A processor that never answers in time. *)
Definition timeout : EasyPay.axios_error :=
  {| EasyPay.response := None;
     EasyPay.message := "timeout of 30000ms exceeded" |}.

Definition never_answers : EasyPay.processor :=
  fun _ _ => EasyPay.Failed timeout.

(** A processor that refuses with a 400. *)
Definition bad_request : EasyPay.axios_error :=
  {| EasyPay.response :=
       Some {| EasyPay.http_status := 400;
               EasyPay.data_message := Some "Insufficient funds" |};
     EasyPay.message := "Request failed with status code 400" |}.

Definition refuses : EasyPay.processor :=
  fun _ _ => EasyPay.Failed bad_request.

(** A processor that accepts at once. *)
Definition accepts : EasyPay.processor :=
  fun _ _ =>
    EasyPay.Fulfilled
      {| EasyPay.transaction_id := "EP-1"; EasyPay.status := "COMPLETED";
         EasyPay.reference_number := "REF-1";
         EasyPay.timestamp := "2024-01-01T00:00:00.000Z";
         EasyPay.fee := None; EasyPay.provider_name := "CEZ Electro" |}.

(** Alice, with 1000.00, sends 250.00. *)
Definition transfer : Transfers.request :=
  {| Transfers.userId := "u-1"; Transfers.amount := 25000;
     Transfers.recipient_account := "BG80BNBG96611020222222";
     Transfers.recipient_name := "Bob"; Transfers.description := None;
     Transfers.currency := None; Transfers.transactionId := "tx-1";
     Transfers.ipAddress := "10.0.0.1"; Transfers.deviceId := "unknown";
     Transfers.now := 1000;
     Transfers.now_iso := "2024-01-01T00:00:00.000Z" |}.

(** Alice, with 1000.00, tries to send 2000.00. *)
Definition large_transfer : Transfers.request :=
  {| Transfers.userId := "u-1"; Transfers.amount := 200000;
     Transfers.recipient_account := "BG80BNBG96611020222222";
     Transfers.recipient_name := "Bob"; Transfers.description := None;
     Transfers.currency := None; Transfers.transactionId := "tx-2";
     Transfers.ipAddress := "10.0.0.1"; Transfers.deviceId := "unknown";
     Transfers.now := 1000;
     Transfers.now_iso := "2024-01-01T00:00:00.000Z" |}.

(** Alice pays a bill of 85.50. *)
Definition bill : Bills.request :=
  {| Bills.userId := "u-1"; Bills.amount := 8550;
     Bills.provider_code := "CEZ";
     Bills.bill_account_number := "1234567890";
     Bills.description := None; Bills.currency := None;
     Bills.transactionId := "tx-3";
     Bills.ipAddress := "10.0.0.1"; Bills.deviceId := "unknown";
     Bills.now := 1000;
     Bills.now_iso := "2024-01-01T00:00:00.000Z" |}.

(** Stand-ins for the libraries: a "hash" that tags its input, and
    tokens that name the user and whether they were signed early or late;
    both tokens are valid for user ["u-1"] during the first hour. *)
Definition early_token : string := "u-1.6101057509.early".
Definition late_token : string := "u-1.6101057509.late".

Definition toy : Externals :=
  {| bcrypt_hash := fun pin _ => "bcrypt:" ++ pin;
     bcrypt_compare := fun pin hash => String.eqb ("bcrypt:" ++ pin) hash;
     sha256_hex := fun t => "sha256:" ++ t;
     jwt_sign := fun userId egn now =>
       userId ++ "." ++ egn ++ (if now <? 5000 then ".early" else ".late");
     jwt_verify := fun token now =>
       if String.eqb token early_token || String.eqb token late_token
       then if now <? Session.hour then Decoded "u-1" "6101057509"
            else TokenExpiredError
       else JsonWebTokenError |}.

Definition face_down : FaceService :=
  {| verifyFace := fun _ _ => FaceThrows; enrollFace := fun _ _ => false |}.

Definition face_up : FaceService :=
  {| verifyFace := fun _ _ => FaceAnswer true 97;
     enrollFace := fun _ _ => true |}.

(** A login of Alice with her PIN at time [t]; [image] is the face image,
    if any, and [sid] the id of the session row. *)
Definition login (pin : string) (image : option string) (t : Z)
    (sid : string) : Auth.login_request :=
  {| Auth.egn := "6101057509"; Auth.pin := pin; Auth.face_image := image;
     Auth.ipAddress := "10.0.0.1"; Auth.userAgent := "kiosk";
     Auth.now := t; Auth.session_id := sid |}.

(** Bob registers, with an account of his own. *)
Definition bob : Auth.register_request :=
  {| Auth.reg_egn := "7501020018"; Auth.reg_full_name := "Bob";
     Auth.reg_pin := "4321";
     Auth.reg_account_number := "BG80BNBG96611020222222";
     Auth.reg_face_image := None; Auth.reg_userId := "u-2";
     Auth.reg_salt := "salt" |}.

(** The store after Alice has mistyped her PIN five times. *)
Definition locked_store : state :=
  Auth.attempts toy face_up
    [login "0000" None 1 "s-1"; login "1111" None 2 "s-2";
     login "2222" None 3 "s-3"; login "3333" None 4 "s-4";
     login "4444" None 5 "s-5"] store.

Definition locked_alice : user_row := set_failed_login_attempts 5 alice.

(** Calls of the authentication routes after the lock: a login with the
    right PIN, a registration, a logout, a face enrolment, and a login
    with the right PIN and a face image. *)
Definition later_calls : list Auth.call :=
  [ Auth.CallVerify (login "1234" None 6 "s-6");
    Auth.CallRegister bob;
    Auth.CallLogout (Some ("Bearer " ++ early_token)) 7;
    Auth.CallEnrollFace
      {| Auth.en_egn := Some "6101057509"; Auth.en_pin := Some "1234";
         Auth.en_face_image := Some "image" |};
    Auth.CallVerify (login "1234" (Some "image") 8 "s-7") ].

(** Alice logs in at time 1000, logs out at 2000 and logs in again at
    6000. *)
Definition after_first_login : state :=
  snd (Auth.verify toy face_up (login "1234" None 1000 "s-1") store).

Definition after_logout : state :=
  snd (Auth.logout toy (Some ("Bearer " ++ early_token)) 2000
         after_first_login).

Definition after_second_login : state :=
  snd (Auth.verify toy face_up (login "1234" None 6000 "s-2") after_logout).

End Samples.

(** ** [POST /api/deposits/record] (routes/deposits.js) *)

Module Deposits.
Import Db.

(** [amount] is the number of the body as the store will read it; the
    validation chain in front of the handler lets every number from 0.01
    to 10000 through, with any count of decimals. *)
Record request := {
  userId : string;
  amount : Money.decimal;
  currency : option string;
  reference : option string;
  description : option string;
  transactionId : string;
  ipAddress : string;
  deviceId : string;
  now : Z
}.

Inductive response :=
| Recorded (id : string) (amount : Money.decimal) (currency : string)
    (newBalance : Z)
| Error (status : Z) (error : string).

Definition has_id (uid : string) (u : user_row) : bool :=
  String.eqb (u_id u) uid.

Definition is_tx (tid : string) (t : transaction_row) : bool :=
  String.eqb (t_id t) tid.

(** A number inside a template literal. *)
Definition show (n : Z) : string := NilZero.string_of_int (Z.to_int n).

(** [reference || `DEP${Date.now()}`] *)
Definition reference_or_default (r : request) : string :=
  EasyPay.or_default (reference r) ("DEP" ++ show (now r)).

(** The values of the [INSERT]; the amount is the one the column keeps. *)
Definition completed_row (r : request) : transaction_row :=
  {| t_id := transactionId r; t_user_id := userId r;
     t_transaction_type := "DEPOSIT";
     t_amount := Money.round2 (amount r);
     t_currency := EasyPay.default_to "BGN" (currency r);
     t_status := "COMPLETED";
     t_easypay_transaction_id := None;
     t_reference_number := Some (reference_or_default r);
     t_recipient_account := None;
     t_recipient_name := None;
     t_bill_provider := None;
     t_bill_account_number := None;
     t_description := description r;
     t_error_message := None;
     t_ip_address := ipAddress r; t_device_id := deviceId r;
     t_created_at := now r;
     t_completed_at := None |}.

(** [SET completed_at = NOW()] *)
Definition set_completed_at (now : Z) (t : transaction_row)
  : transaction_row :=
  {| t_id := t_id t; t_user_id := t_user_id t;
     t_transaction_type := t_transaction_type t;
     t_amount := t_amount t; t_currency := t_currency t;
     t_status := t_status t;
     t_easypay_transaction_id := t_easypay_transaction_id t;
     t_reference_number := t_reference_number t;
     t_recipient_account := t_recipient_account t;
     t_recipient_name := t_recipient_name t;
     t_bill_provider := t_bill_provider t;
     t_bill_account_number := t_bill_account_number t;
     t_description := t_description t;
     t_error_message := t_error_message t;
     t_ip_address := t_ip_address t; t_device_id := t_device_id t;
     t_created_at := t_created_at t;
     t_completed_at := Some now |}.

(** The callback handed to [transaction]; a statement that the store
    refuses throws, and the statements after it are not reached. *)
Definition record_callback (r : request) (s : state)
  : (unit + string) * state :=
  (* Create transaction record *)
  match Schema.insert_transaction (completed_row r) s with
  | inr error => (inr error, s)
  | inl s =>
      (* Update user balance *)
      match Schema.add_to_balance (userId r) (amount r) s with
      | inr error => (inr error, s)
      | inl s =>
          (* Set completion timestamp *)
          let s := with_transactions
                     (update (is_tx (transactionId r))
                        (set_completed_at (now r))) s in
          (inl tt, s)
      end
  end.

(** [logTransaction(userId, 'DEPOSIT', transactionId, status, amount,
    errorMessage)].  The audit row names the user, so the store takes it
    only for a user that exists; [createAuditLog] swallows the refusal.
    The row has the amount when it is a whole number of hundredths. *)
Definition log (r : request) (transactionId status : string)
    (errorMessage : option string) (s : state) : state :=
  if existsb (has_id (userId r)) (users s) then
    createAuditLog
      {| a_user_id := Some (userId r);
         a_action := "TRANSACTION_DEPOSIT";
         a_resource := "transaction";
         a_resource_id := Some transactionId;
         a_status := status;
         a_amount := Money.whole_hundredths (amount r);
         a_error_message := errorMessage |} s
  else s.

Definition record (r : request) (s : state) : response * state :=
  match transaction (record_callback r) s with
  | (inr error, s') =>
      (Error 500 "Deposit failed. Please try again.",
       log r "N/A" "FAILURE" (Some error) s')
  | (inl _, s') =>
      let s' := log r (transactionId r) "SUCCESS" None s' in
      (* Get updated balance *)
      match user_by_id (userId r) s' with
      | Some u =>
          (Recorded (transactionId r) (amount r)
             (EasyPay.default_to "BGN" (currency r)) (u_balance u), s')
      | None =>
          (Error 500 "Deposit failed. Please try again.",
           log r "N/A" "FAILURE"
             (Some "Cannot read properties of undefined (reading 'balance')")
             s')
      end
  end.

End Deposits.

(** ** Money-movement calls one after the other *)

Module Ledger.
Import Db.

Inductive op :=
| Deposit (r : Deposits.request)
| Transfer (remote : EasyPay.processor) (r : Transfers.request)
| Bill (remote : EasyPay.processor) (r : Bills.request).

Inductive reply :=
| DepositReply (a : Deposits.response)
| TransferReply (a : Transfers.response)
| BillReply (a : Bills.response).

Definition step (o : op) (s : state) : reply * state :=
  match o with
  | Deposit r => let '(a, s') := Deposits.record r s in (DepositReply a, s')
  | Transfer remote r =>
      let '(a, s') := Transfers.send remote r s in (TransferReply a, s')
  | Bill remote r =>
      let '(a, s') := Bills.pay remote r s in (BillReply a, s')
  end.

Fixpoint run (os : list op) (s : state) : list reply * state :=
  match os with
  | [] => ([], s)
  | o :: os' =>
      let '(a, s1) := step o s in
      let '(rest, s2) := run os' s1 in
      (a :: rest, s2)
  end.

Definition balance_of (uid : string) (s : state) : option Z :=
  option_map u_balance (user_by_id uid s).

(** What a call that was answered [a] is worth to the account [uid]: the
    amount, as the store rounds it, of a deposit of [uid] that was
    recorded, minus the amount of a transfer or bill payment of [uid] that
    was completed, nothing otherwise. *)
Definition worth (uid : string) (o : op) (a : reply) : Z :=
  match o, a with
  | Deposit r, DepositReply (Deposits.Recorded _ _ _ _) =>
      if String.eqb (Deposits.userId r) uid
      then Money.round2 (Deposits.amount r) else 0
  | Transfer _ r, TransferReply (Transfers.Completed _ _) =>
      if String.eqb (Transfers.userId r) uid then - Transfers.amount r else 0
  | Bill _ r, BillReply (Bills.Completed _ _ _) =>
      if String.eqb (Bills.userId r) uid then - Bills.amount r else 0
  | _, _ => 0
  end.

Fixpoint total_worth (uid : string) (os : list op) (rs : list reply) : Z :=
  match os, rs with
  | o :: os', a :: rs' => worth uid o a + total_worth uid os' rs'
  | _, _ => 0
  end.

(** The amount a call asks to add to the caller's balance. *)
Definition deposit_amount_ok (o : op) : Prop :=
  match o with
  | Deposit r => 0 <= Money.digits (Deposits.amount r)
  | _ => True
  end.

(** The id that [uuidv4()] gave the call. *)
Definition id_of (o : op) : string :=
  match o with
  | Deposit r => Deposits.transactionId r
  | Transfer _ r => Transfers.transactionId r
  | Bill _ r => Bills.transactionId r
  end.

(** The row that a transfer or a bill payment inserts is one that the
    store takes: its amount is more than nothing and it fits its columns.
    (The row of a deposit goes through [Schema.insert_transaction].) *)
Definition row_ok (o : op) : Prop :=
  match o with
  | Deposit _ => True
  | Transfer _ r =>
      0 < Transfers.amount r /\
      Schema.fit (Transfers.pending_row r) = inl (Transfers.pending_row r)
  | Bill _ r =>
      0 < Bills.amount r /\
      Schema.fit (Bills.pending_row r) = inl (Bills.pending_row r)
  end.

(** The ids of the calls are new: they differ from one another and from
    the ids in the store. *)
Definition fresh_ids (os : list op) (s : state) : Prop :=
  NoDup (map id_of os ++ map t_id (transactions s))%list.

End Ledger.

(** ** Rows that the authentication routes write *)

Module AuthEffects.
Import Db.

(** The row that [createSession] adds for a login of user [u]. *)
Definition session_of (X : Externals) (r : Auth.login_request)
    (u : user_row) : session_row :=
  {| s_id := Auth.session_id r; s_user_id := u_id u;
     s_token_hash :=
       sha256_hex X (jwt_sign X (u_id u) (u_egn u) (Auth.now r));
     s_ip_address := Auth.ipAddress r; s_user_agent := Auth.userAgent r;
     s_expires_at := Auth.now r + Session.hour;
     s_created_at := Auth.now r; s_last_activity_at := Auth.now r |}.

(** The row that [register] inserts. *)
Definition user_of (X : Externals) (r : Auth.register_request) : user_row :=
  {| u_id := Auth.reg_userId r; u_egn := Auth.reg_egn r;
     u_full_name := Auth.reg_full_name r;
     u_pin_hash := bcrypt_hash X (Auth.reg_pin r) (Auth.reg_salt r);
     u_balance := 0; u_account_number := Auth.reg_account_number r;
     u_is_active := true; u_failed_login_attempts := 0;
     u_last_login_at := None |}.

(** The columns of a session that [verifyToken] never writes. *)
Definition fixed_part (r : session_row)
  : string * string * string * Z * Z :=
  (s_id r, s_user_id r, s_token_hash r, s_expires_at r, s_created_at r).

End AuthEffects.

(** ** Account administration (routes/admin.js) *)

Module Admin.
Import Db.

Definition has_id (uid : string) (u : user_row) : bool :=
  String.eqb (u_id u) uid.

(** [SET is_active = false] *)
Definition set_inactive (u : user_row) : user_row :=
  {| u_id := u_id u; u_egn := u_egn u; u_full_name := u_full_name u;
     u_pin_hash := u_pin_hash u; u_balance := u_balance u;
     u_account_number := u_account_number u;
     u_is_active := false;
     u_failed_login_attempts := u_failed_login_attempts u;
     u_last_login_at := u_last_login_at u |}.

(** [SET is_active = true, failed_login_attempts = 0] *)
Definition set_active_unlocked (u : user_row) : user_row :=
  {| u_id := u_id u; u_egn := u_egn u; u_full_name := u_full_name u;
     u_pin_hash := u_pin_hash u; u_balance := u_balance u;
     u_account_number := u_account_number u;
     u_is_active := true;
     u_failed_login_attempts := 0;
     u_last_login_at := u_last_login_at u |}.

(** [logAdminAction(userId, action, resourceId, ip, agent)]; [upper] is
    the action in upper case. *)
Definition logAdminAction (userId upper resourceId : string)
  : state -> state :=
  createAuditLog
    {| a_user_id := Some userId;
       a_action := "ADMIN_" ++ upper;
       a_resource := "admin";
       a_resource_id := Some resourceId;
       a_status := "SUCCESS";
       a_amount := None;
       a_error_message := None |}.

(** [POST /api/admin/users/:id/deactivate], behind [verifyToken] and
    [isAdmin]; [isAdmin] calls [next()] for every request. *)
Definition deactivate (X : Externals) (authorization : option string)
    (now : Z) (id : string) (s : state) : Auth.plain_response * state :=
  match Session.verifyToken X authorization now s with
  | (Session.Rejected status error, s') => (Auth.Sent status false error, s')
  | (Session.Next user, s') =>
      let s' := with_users (update (has_id id) set_inactive) s' in
      let s' := logAdminAction (Session.id user) "DEACTIVATE_USER" id s' in
      (Auth.Sent 200 true "User deactivated successfully", s')
  end.

(** [POST /api/admin/users/:id/activate] *)
Definition activate (X : Externals) (authorization : option string)
    (now : Z) (id : string) (s : state) : Auth.plain_response * state :=
  match Session.verifyToken X authorization now s with
  | (Session.Rejected status error, s') => (Auth.Sent status false error, s')
  | (Session.Next user, s') =>
      let s' := with_users (update (has_id id) set_active_unlocked) s' in
      let s' := logAdminAction (Session.id user) "ACTIVATE_USER" id s' in
      (Auth.Sent 200 true "User activated successfully", s')
  end.

End Admin.

(** ** The cache (config/redis.js) *)

Module Redis.

(** A key with its value and the time, in milliseconds, at which it
    expires.  Values are kept as they are: [JSON.parse] gives back what
    [JSON.stringify] was given for the objects stored here.  The server is
    taken to be reachable. *)
Record entry (V : Type) := {
  key : string;
  value : V;
  expires_at : Z
}.
Arguments key {V} e.
Arguments value {V} e.
Arguments expires_at {V} e.

Definition cache (V : Type) := list (entry V).

(** [redisClient.setex(key, expirationSeconds, JSON.stringify(value))] *)
Definition setCache {V} (k : string) (v : V) (expirationSeconds : Z)
    (now : Z) (c : cache V) : cache V :=
  {| key := k; value := v; expires_at := now + expirationSeconds * 1000 |}
  :: filter (fun e => negb (String.eqb (key e) k)) c.

(** [redisClient.get(key)], then [JSON.parse] *)
Definition getCache {V} (k : string) (now : Z) (c : cache V) : option V :=
  option_map value
    (find (fun e => String.eqb (key e) k && (now <? expires_at e)) c).

End Redis.

(** ** Identifiers as the store reads them *)

Module Uuid.

Definition is_hex (c : ascii) : bool :=
  let n := nat_of_ascii c in
  (((48 <=? n) && (n <=? 57)) || ((97 <=? n) && (n <=? 102)) ||
   ((65 <=? n) && (n <=? 70)))%nat.

(** The lower-case form of a hexadecimal digit. *)
Definition lower (c : ascii) : ascii :=
  let n := nat_of_ascii c in
  if ((65 <=? n) && (n <=? 70))%nat then ascii_of_nat (n + 32) else c.

(** [left] bytes of two hexadecimal digits each, the next one having
    index [index]; a hyphen may follow a byte of odd index, the last byte
    excepted.  The digits, in lower case, and what is left of the text. *)
Fixpoint digits (left index : nat) (cs : list ascii)
  : option (list ascii * list ascii) :=
  match left with
  | O => Some ([], cs)
  | S left' =>
      match cs with
      | a :: b :: rest =>
          if is_hex a && is_hex b then
            let rest :=
              match rest with
              | "-"%char :: after =>
                  if (Nat.odd index && (index <? 15))%nat then after
                  else rest
              | _ => rest
              end in
            match digits left' (S index) rest with
            | Some (ds, tail) => Some (lower a :: lower b :: ds, tail)
            | None => None
            end
          else None
      | _ => None
      end
  end.

(** The value of a parameter compared with a [UUID] column: sixteen
    bytes, in upper or lower case, with or without the hyphens, with or
    without braces around them; [None] when the text is no UUID, and the
    statement throws. *)
Definition read (text : string) : option string :=
  let cs := list_ascii_of_string text in
  let '(braces, cs) :=
    match cs with
    | "{"%char :: rest => (true, rest)
    | _ => (false, cs)
    end in
  match digits 16 0 cs with
  | Some (ds, tail) =>
      let tail :=
        if braces
        then match tail with
             | "}"%char :: after => Some after
             | _ => None
             end
        else Some tail in
      match tail with
      | Some [] => Some (string_of_list_ascii ds)
      | _ => None
      end
  | None => None
  end.

Definition well_formed (text : string) : bool :=
  match read text with
  | Some _ => true
  | None => false
  end.

(** [column = $n] on a [UUID] column. *)
Definition same (column parameter : string) : bool :=
  match read column, read parameter with
  | Some a, Some b => String.eqb a b
  | _, _ => false
  end.

End Uuid.

(** ** [checkTransactionStatus] and [GET /api/transfers/status/:id] *)

Module Status.
Import Db.

(** The object [checkTransactionStatus] returns and caches: the id asked
    for and the fields of the processor's answer; [status] is the one
    read afterwards. *)
Record status_object := {
  transactionId : string;
  answer : EasyPay.response_data
}.

Definition status_of (o : status_object) : string :=
  EasyPay.status (answer o).

Definition is_pending (status : string) : bool := String.eqb status "PENDING".

(** One call: the object or the message of the error thrown, the cache
    afterwards, and the requests sent. *)
Record checked := {
  outcome : status_object + string;
  cache_after : Redis.cache status_object;
  sent : list EasyPay.request
}.

Definition fetch (remote : EasyPay.processor) (now : Z) (id : string)
    (c : Redis.cache status_object) : checked :=
  let cacheKey := "transaction:" ++ id in
  let req := {| EasyPay.method := "get";
                EasyPay.url := "/transactions/" ++ id;
                EasyPay.data := [] |} in
  let run := EasyPay.retryRequest (fun k => remote k req)
               EasyPay.MAX_RETRIES in
  match EasyPay.ended run with
  | EasyPay.Returned d =>
      let status := {| transactionId := id; answer := d |} in
      (* Cache completed transactions for 5 minutes *)
      {| outcome := inl status;
         cache_after :=
           if negb (is_pending (status_of status))
           then Redis.setCache cacheKey status 300 now c
           else c;
         sent := repeat req (EasyPay.calls run) |}
  | _ =>
      {| outcome := inr "Failed to check transaction status";
         cache_after := c;
         sent := repeat req (EasyPay.calls run) |}
  end.

Definition checkTransactionStatus (remote : EasyPay.processor) (now : Z)
    (id : string) (c : Redis.cache status_object) : checked :=
  (* Check cache first *)
  match Redis.getCache ("transaction:" ++ id) now c with
  | Some cached =>
      if negb (is_pending (status_of cached))
      then {| outcome := inl cached; cache_after := c; sent := [] |}
      else fetch remote now id c
  | None => fetch remote now id c
  end.

Inductive response :=
| Found (tx : transaction_row)            (* 200 *)
| NotFound (status : Z) (error : string). (* 404, and 500 *)

(** [WHERE id = $1 AND user_id = $2]; both columns are of type [UUID]
    and the parameters are read as such. *)
Definition owned (tid uid : string) (t : transaction_row) : bool :=
  Uuid.same (t_id t) tid && Uuid.same (t_user_id t) uid.

(** [WHERE id = $2] *)
Definition is_tx (tid : string) (t : transaction_row) : bool :=
  Uuid.same (t_id t) tid.

Definition set_status (status : string) (t : transaction_row)
  : transaction_row :=
  {| t_id := t_id t; t_user_id := t_user_id t;
     t_transaction_type := t_transaction_type t;
     t_amount := t_amount t; t_currency := t_currency t;
     t_status := status;
     t_easypay_transaction_id := t_easypay_transaction_id t;
     t_reference_number := t_reference_number t;
     t_recipient_account := t_recipient_account t;
     t_recipient_name := t_recipient_name t;
     t_bill_provider := t_bill_provider t;
     t_bill_account_number := t_bill_account_number t;
     t_description := t_description t;
     t_error_message := t_error_message t;
     t_ip_address := t_ip_address t; t_device_id := t_device_id t;
     t_created_at := t_created_at t;
     t_completed_at := t_completed_at t |}.

(** [SET status = $1, completed_at = NOW()] *)
Definition set_status_completed (status : string) (now : Z)
    (t : transaction_row) : transaction_row :=
  Deposits.set_completed_at now (set_status status t).

Record handled := {
  reply : response;
  store : state;
  cached : Redis.cache status_object
}.

(** The handler, behind [verifyToken]: [userId] is [req.user.id], and
    [transactionId] is the last segment of the path, whatever it is. *)
Definition status (remote : EasyPay.processor) (now : Z)
    (transactionId userId : string) (c : Redis.cache status_object)
    (s : state) : handled :=
  if negb (Uuid.well_formed transactionId && Uuid.well_formed userId) then
    (* the SELECT throws: invalid input syntax for type uuid *)
    {| reply := NotFound 500 "Failed to check transfer status";
       store := s; cached := c |}
  else
  match first_where (owned transactionId userId) (transactions s) with
  | None =>
      {| reply := NotFound 404 "Transaction not found";
         store := s; cached := c |}
  | Some tx =>
      (* If pending, check with EasyPay *)
      if is_pending (t_status tx) && truthy (t_easypay_transaction_id tx)
      then
        let call :=
          checkTransactionStatus remote now
            (EasyPay.default_to "" (t_easypay_transaction_id tx)) c in
        let s := put_on_wire (sent call) s in
        match outcome call with
        | inl easyPayStatus =>
            (* Update local status if changed *)
            if negb (String.eqb (status_of easyPayStatus) (t_status tx))
            then
              match Schema.new_status (status_of easyPayStatus) with
              | inl kept =>
                  {| reply := Found (set_status (status_of easyPayStatus) tx);
                     store :=
                       with_transactions
                         (update (is_tx transactionId)
                            (set_status_completed kept now))
                         s;
                     cached := cache_after call |}
              | inr _ =>
                  (* the UPDATE throws before [tx.status] is assigned;
                     the inner catch block logs the error *)
                  {| reply := Found tx; store := s;
                     cached := cache_after call |}
              end
            else {| reply := Found tx; store := s;
                    cached := cache_after call |}
        | inr _ =>
            {| reply := Found tx; store := s; cached := cache_after call |}
        end
      else {| reply := Found tx; store := s; cached := c |}
  end.

(** The columns of a transaction row that a status poll never writes. *)
Definition fixed_part (t : transaction_row)
  : string * string * string * Z * option string :=
  (t_id t, t_user_id t, t_transaction_type t, t_amount t,
   t_easypay_transaction_id t).

End Status.

(** ** [GET /api/transactions/:id] and [/history] (routes/transactions.js) *)

Module Transactions.
Import Db.

(** [LEFT JOIN bill_providers bp ON t.bill_provider = bp.provider_code];
    [provider_code] is unique. *)
Definition provider_name (s : state) (t : transaction_row) : option string :=
  match t_bill_provider t with
  | Some code =>
      option_map p_provider_name
        (first_where (fun p => String.eqb (p_provider_code p) code)
           (bill_providers s))
  | None => None
  end.

Inductive response :=
| Found (tx : transaction_row) (providerName : option string)
| Error (status : Z) (error : string).

(** [id] is the last segment of the path, whatever it is. *)
Definition get (id userId : string) (s : state) : response :=
  if negb (Uuid.well_formed id && Uuid.well_formed userId) then
    (* the SELECT throws: invalid input syntax for type uuid *)
    Error 500 "Failed to fetch transaction"
  else
  match first_where (Status.owned id userId) (transactions s) with
  | None => Error 404 "Transaction not found"
  | Some tx => Found tx (provider_name s tx)
  end.

(** [parseInt(x) || fallback]: [None] stands for a missing or
    non-numeric parameter. *)
Definition number_or (x : option Z) (fallback : Z) : Z :=
  match x with
  | Some 0 | None => fallback
  | Some n => n
  end.

(** [ORDER BY created_at DESC]: insertion into a list that is already in
    that order; rows created at the same time keep their order. *)
Fixpoint insert_desc (t : transaction_row) (sorted : list transaction_row)
  : list transaction_row :=
  match sorted with
  | [] => [t]
  | x :: rest =>
      if t_created_at x <? t_created_at t then t :: sorted
      else x :: insert_desc t rest
  end.

Definition order_desc (rows : list transaction_row) : list transaction_row :=
  fold_right insert_desc [] rows.

(** [a] may come before [b] in a list that is ordered by
    [created_at DESC]. *)
Definition newer_first (a b : transaction_row) : Prop :=
  t_created_at b <= t_created_at a.

Inductive history_response :=
| Listed (transactions : list (transaction_row * option string))
| Failed (status : Z) (error : string).

(** [upper] is [String.prototype.toUpperCase]. *)
Definition selected (upper : string -> string) (userId : string)
    (type : option string) (t : transaction_row) : bool :=
  String.eqb (t_user_id t) userId &&
  (if truthy type
   then String.eqb (t_transaction_type t)
          (upper (EasyPay.default_to "" type))
   else true).

Definition history (upper : string -> string) (userId : string)
    (limit offset : option Z) (type : option string) (s : state)
  : history_response :=
  let limit := number_or limit 20 in
  let offset := number_or offset 0 in
  (* the store refuses a negative LIMIT or OFFSET *)
  if (limit <? 0) || (offset <? 0) then
    Failed 500 "Failed to fetch transaction history"
  else
    Listed
      (map (fun t => (t, provider_name s t))
         (firstn (Z.to_nat limit)
            (skipn (Z.to_nat offset)
               (order_desc
                  (filter (selected upper userId type) (transactions s)))))).

End Transactions.

(** ** [validateIBAN] (middleware/validation.js) *)

Module Iban.

Definition is_upper (c : ascii) : bool :=
  let n := nat_of_ascii c in ((65 <=? n) && (n <=? 90))%nat.

(** [[A-Z0-9]] *)
Definition is_alnum (c : ascii) : bool :=
  Validation.is_digit c || is_upper c.

(** [/^BG\d{2}[A-Z0-9]{4}\d{14}$/.test(cleanedIBAN)] *)
Definition well_formed (cleanedIBAN : string) : bool :=
  match list_ascii_of_string cleanedIBAN with
  | b :: g :: rest =>
      Ascii.eqb b "B" && Ascii.eqb g "G" &&
      (List.length rest =? 20)%nat &&
      forallb Validation.is_digit (firstn 2 rest) &&
      forallb is_alnum (firstn 4 (skipn 2 rest)) &&
      forallb Validation.is_digit (skipn 6 rest)
  | _ => false
  end.

(** [cleanedIBAN.slice(4) + cleanedIBAN.slice(0, 4)] *)
Definition rearranged (cleanedIBAN : string) : string :=
  String.substring 4 (String.length cleanedIBAN - 4) cleanedIBAN ++
  String.substring 0 4 cleanedIBAN.

(** [n.toString()] for a number that is a natural integer. *)
Definition toString (n : Z) : string := NilZero.string_of_int (Z.to_int n).

(** The replacement of one character: [(char.charCodeAt(0) - 55)
    .toString()] for a capital letter, the character itself otherwise. *)
Definition numeric_char (c : ascii) : string :=
  if is_upper c then toString (Z.of_nat (nat_of_ascii c) - 55)
  else String c EmptyString.

(** [rearranged.replace(/[A-Z]/g, ...)] *)
Fixpoint numeric (s : string) : string :=
  match s with
  | EmptyString => EmptyString
  | String c s' => numeric_char c ++ numeric s'
  end.

(** [parseInt(s)] for a string of decimal digits that is not empty (the
    empty string, for which JavaScript gives [NaN], gets 0 here; the
    validator never parses it). *)
Definition parseInt (s : string) : Z :=
  fold_left (fun n c => n * 10 + Validation.parseInt_digit c)
    (list_ascii_of_string s) 0.

(** One round of the loop:
    [remainder += numericString[i];
     if (remainder.length >= 9)
       remainder = (parseInt(remainder) % 97).toString()] *)
Definition round (remainder : string) (c : ascii) : string :=
  let remainder := remainder ++ String c EmptyString in
  if (9 <=? String.length remainder)%nat
  then toString (parseInt remainder mod 97)
  else remainder.

Definition remainder_of (numericString : string) : string :=
  fold_left round (list_ascii_of_string numericString) EmptyString.

(** The validator from the cleaned string on. *)
Definition check (cleanedIBAN : string) : bool :=
  if negb (well_formed cleanedIBAN) then false
  else parseInt (remainder_of (numeric (rearranged cleanedIBAN))) mod 97 =? 1.

(** [clean] is [iban => iban.replace(/\s/g, '').toUpperCase()]. *)
Definition validateIBAN (clean : string -> string) (iban : string) : bool :=
  check (clean iban).

End Iban.

(** ** More concrete stores, requests and remote services *)

Module MoreSamples.
Import Db.

Definition accepted : EasyPay.response_data :=
  {| EasyPay.transaction_id := "EP-1"; EasyPay.status := "COMPLETED";
     EasyPay.reference_number := "REF-1";
     EasyPay.timestamp := "2024-01-01T00:00:00.000Z";
     EasyPay.fee := None; EasyPay.provider_name := "CEZ Electro" |}.

Definition still_pending : EasyPay.response_data :=
  {| EasyPay.transaction_id := "EP-9"; EasyPay.status := "PENDING";
     EasyPay.reference_number := "REF-9";
     EasyPay.timestamp := "2024-01-01T00:00:00.000Z";
     EasyPay.fee := None; EasyPay.provider_name := "" |}.

(** Two timeouts, then an answer. *)
Definition fails_twice (k : nat) : EasyPay.outcome :=
  if (k <? 2)%nat then EasyPay.Failed Samples.timeout
  else EasyPay.Fulfilled accepted.

Definition always_times_out (k : nat) : EasyPay.outcome :=
  EasyPay.Failed Samples.timeout.

Definition reports_pending : EasyPay.processor :=
  fun _ _ => EasyPay.Fulfilled still_pending.

(** Alice deposits 100.505. *)
Definition deposit : Deposits.request :=
  {| Deposits.userId := "u-1";
     Deposits.amount := {| Money.digits := 100505; Money.scale := 3 |};
     Deposits.currency := None; Deposits.reference := None;
     Deposits.description := Some "Test deposit";
     Deposits.transactionId := "tx-4";
     Deposits.ipAddress := "10.0.0.1"; Deposits.deviceId := "unknown";
     Deposits.now := 1000 |}.

(** Alice sends 30.00 more. *)
Definition second_transfer : Transfers.request :=
  {| Transfers.userId := "u-1"; Transfers.amount := 3000;
     Transfers.recipient_account := "BG80BNBG96611020222222";
     Transfers.recipient_name := "Bob"; Transfers.description := None;
     Transfers.currency := None; Transfers.transactionId := "tx-5";
     Transfers.ipAddress := "10.0.0.1"; Transfers.deviceId := "unknown";
     Transfers.now := 2000;
     Transfers.now_iso := "2024-01-01T00:00:02.000Z" |}.


(** A deposit, a transfer that goes through, one that the processor
    refuses, a bill payment, and a transfer for more than is left. *)
Definition day : list Ledger.op :=
  [ Ledger.Deposit deposit;
    Ledger.Transfer Samples.accepts Samples.transfer;
    Ledger.Transfer Samples.refuses second_transfer;
    Ledger.Bill Samples.accepts Samples.bill;
    Ledger.Transfer Samples.accepts Samples.large_transfer ].

Definition header : option string :=
  Some ("Bearer " ++ Samples.early_token).

(** A login of somebody who is not registered. *)
Definition stranger : Auth.login_request :=
  {| Auth.egn := "0000000000"; Auth.pin := "1234";
     Auth.face_image := None;
     Auth.ipAddress := "10.0.0.1"; Auth.userAgent := "kiosk";
     Auth.now := 1; Auth.session_id := "s-0" |}.

(** Bob logs in with the PIN he registered with. *)
Definition bob_login : Auth.login_request :=
  {| Auth.egn := "7501020018"; Auth.pin := "4321";
     Auth.face_image := None;
     Auth.ipAddress := "10.0.0.1"; Auth.userAgent := "kiosk";
     Auth.now := 50; Auth.session_id := "s-9" |}.

(** A transfer of Alice that the processor has accepted but not yet
    carried out, and a completed deposit of Bob. *)
Definition pending_transfer : transaction_row :=
  Db.set_processed "PENDING" "EP-9" "REF-9" 1000
    (Transfers.pending_row Samples.transfer).

Definition deposit_of_bob : transaction_row :=
  Deposits.set_completed_at 500
    (Deposits.completed_row
       {| Deposits.userId := "u-2";
          Deposits.amount := {| Money.digits := 700; Money.scale := 2 |};
          Deposits.currency := None; Deposits.reference := None;
          Deposits.description := None;
          Deposits.transactionId := "tx-7";
          Deposits.ipAddress := "10.0.0.1"; Deposits.deviceId := "unknown";
          Deposits.now := 500 |}).

(** Alice with one session, which expires at time 2000. *)
Definition stale_store : state :=
  {| users := [Samples.alice]; transactions := [];
     sessions :=
       [ {| s_id := "s-1"; s_user_id := "u-1";
            s_token_hash := sha256_hex Samples.toy Samples.early_token;
            s_ip_address := "10.0.0.1"; s_user_agent := "kiosk";
            s_expires_at := 2000; s_created_at := 0;
            s_last_activity_at := 0 |} ];
     bill_providers := []; audit_logs := []; wire := [] |}.

(** Alice, and a transaction of hers and one of Bob's. *)
Definition shared_store : state :=
  {| users := [Samples.alice];
     transactions := [deposit_of_bob; pending_transfer];
     sessions := []; bill_providers := [Samples.cez]; audit_logs := [];
     wire := [] |}.

Definition no_cache : Redis.cache Status.status_object := [].




(** Identifiers as [uuidv4()] gives them. *)
Definition carol_id : string := "3f2b8c1e-7d4a-4e6b-9a1f-0c5d2e8b7a61".
Definition dave_id : string := "a9d4e7f2-1b3c-4d5e-8f60-718293a4b5c6".
Definition carol_tx : string := "0b6e4c2a-9f8d-4b7c-a6e5-d4c3b2a19081".
Definition dave_tx : string := "5c1d9e8f-2a3b-4c4d-b5e6-f708192a3b4c".

Definition carol : user_row :=
  {| u_id := carol_id; u_egn := "6101057509"; u_full_name := "Carol";
     u_pin_hash := "bcrypt:1234"; u_balance := 100000;
     u_account_number := "BG80BNBG96611020345678";
     u_is_active := true; u_failed_login_attempts := 0;
     u_last_login_at := None |}.

(** A transfer of Carol that the processor has accepted but not yet
    carried out, and a completed deposit of Dave. *)
Definition transfer_of_carol : transaction_row :=
  Db.set_processed "PENDING" "EP-9" "REF-9" 1000
    (Transfers.pending_row
       {| Transfers.userId := carol_id; Transfers.amount := 25000;
          Transfers.recipient_account := "BG80BNBG96611020222222";
          Transfers.recipient_name := "Dave";
          Transfers.description := None; Transfers.currency := None;
          Transfers.transactionId := carol_tx;
          Transfers.ipAddress := "10.0.0.1";
          Transfers.deviceId := "unknown";
          Transfers.now := 1000;
          Transfers.now_iso := "2024-01-01T00:00:00.000Z" |}).

Definition deposit_of_dave : transaction_row :=
  Deposits.set_completed_at 500
    (Deposits.completed_row
       {| Deposits.userId := dave_id;
          Deposits.amount := {| Money.digits := 700; Money.scale := 2 |};
          Deposits.currency := None; Deposits.reference := None;
          Deposits.description := None;
          Deposits.transactionId := dave_tx;
          Deposits.ipAddress := "10.0.0.1"; Deposits.deviceId := "unknown";
          Deposits.now := 500 |}).

Definition polled_store : state :=
  {| users := [carol];
     transactions := [deposit_of_dave; transfer_of_carol];
     sessions := []; bill_providers := [Samples.cez]; audit_logs := [];
     wire := [] |}.

(** Alice after four wrong PINs. *)
Definition four_failures : state :=
  Auth.attempts Samples.toy Samples.face_up
    [Samples.login "0000" None 1 "s-1"; Samples.login "1111" None 2 "s-2";
     Samples.login "2222" None 3 "s-3"; Samples.login "3333" None 4 "s-4"]
    Samples.store.

(** Two logins of Alice that the server handles at the same time, half
    an hour later: one with the right PIN and a face image, one with a
    wrong PIN. *)
Definition both_logins : list Overlap.task :=
  [ Overlap.arrive (Samples.login "1234" (Some "image") 1800000 "s-5");
    Overlap.arrive (Samples.login "4444" None 1800000 "s-6") ].

(** The first request does its [SELECT] and its [bcrypt.compare], and
    calls the face service; the second one runs from its [SELECT] to its
    answer. *)
Definition wrong_pin_overtakes : list nat := [0; 0; 1; 1; 1; 1]%nat.

(** The face service has answered: the first request runs on to its
    answer. *)
Definition right_pin_resumes : list nat := [0; 0; 0; 0]%nat.

(** A string of nine digits. *)
Definition nine_digits : string := "610105750".

End MoreSamples.

(* ===================================================================== *)
(** * Theorems                                                            *)
(* ===================================================================== *)

Section ValidationFacts.
Import Validation.

Lemma ten_digits_shape (s : string) :
  ten_digits s = true ->
  exists c0 c1 c2 c3 c4 c5 c6 c7 c8 c9,
    s = String c0 (String c1 (String c2 (String c3 (String c4
       (String c5 (String c6 (String c7 (String c8 (String c9
        EmptyString))))))))) /\
    forallb is_digit [c0; c1; c2; c3; c4; c5; c6; c7; c8; c9] = true.
Proof.
  unfold ten_digits. intros H. apply andb_prop in H as [Hlen Hall].
  apply Nat.eqb_eq in Hlen.
  do 10 (destruct s as [|? s]; [discriminate Hlen|]).
  destruct s; [|discriminate Hlen].
  do 10 eexists. split; [reflexivity|exact Hall].
Qed.

Lemma parseInt_digit_inj (a b : ascii) :
  parseInt_digit a = parseInt_digit b -> a = b.
Proof.
  unfold parseInt_digit. intros H.
  assert (E : nat_of_ascii a = nat_of_ascii b) by lia.
  rewrite <- (ascii_nat_embedding a), <- (ascii_nat_embedding b), E.
  reflexivity.
Qed.

(** C9.  An accepted EGN carries the check digit that the weighted
    mod-11 rule (remainder 10 mapped to 0) gives for its first nine
    digits, and the same string with any other character in the tenth
    place, a digit in particular, is rejected. *)
Theorem validateEGN_round_trip (egn : string) :
  validateEGN egn = true ->
  ten_digits egn = true /\
  recompute_check_digit (firstn 9 (digits_of egn)) = nth 9 (digits_of egn) 0 /\
  forall c : ascii,
    c <> char_at egn 9 -> validateEGN (with_check_digit egn c) = false.
Proof.
  unfold validateEGN. intros H.
  destruct (ten_digits egn) eqn:Hshape; [|discriminate H].
  cbn [negb] in H. split; [reflexivity|].
  destruct (ten_digits_shape egn Hshape)
    as (c0 & c1 & c2 & c3 & c4 & c5 & c6 & c7 & c8 & c9 & -> & Hdig).
  assert (Hsum : forall c,
    weighted_sum (String c0 (String c1 (String c2 (String c3 (String c4
       (String c5 (String c6 (String c7 (String c8 (String c
        EmptyString)))))))))) =
    dot (map parseInt_digit [c0; c1; c2; c3; c4; c5; c6; c7; c8]) weights).
  { intros c. unfold weighted_sum, char_at, weights. cbn. lia. }
  apply Z.eqb_eq in H. unfold checksum in H. rewrite Hsum in H.
  split.
  - exact H.
  - intros c Hc. unfold char_at in Hc. cbn in Hc.
    unfold with_check_digit. cbn [String.substring String.append].
    destruct (ten_digits (String c0 (String c1 (String c2 (String c3
       (String c4 (String c5 (String c6 (String c7 (String c8 (String c
        EmptyString))))))))))); [|reflexivity].
    cbn [negb]. apply Z.eqb_neq. unfold checksum. rewrite Hsum.
    unfold char_at in *. cbn [list_ascii_of_string nth] in *.
    intros E. apply Hc. apply parseInt_digit_inj. congruence.
Qed.

Lemma validateEGN_round_trip_witness :
  validateEGN "6101057509" = true /\
  recompute_check_digit (firstn 9 (digits_of "6101057509")) = 9 /\
  validateEGN (with_check_digit "6101057509" "8"%char) = false.
Proof.
  destruct (validateEGN_round_trip "6101057509" eq_refl) as (_ & H1 & H2).
  split; [reflexivity|]. split; [exact H1|].
  apply H2. discriminate.
Defined.

End ValidationFacts.

Section EasyPayFacts.
Import EasyPay.

(** The loop, when every attempt from [i] on fails: all of the
    [retries] attempts are made, and the last error is thrown. *)
Lemma retry_loop_all_fail (f : nat -> outcome) (retries : nat) :
  forall rounds i,
    (i + rounds = retries)%nat -> (0 < rounds)%nat ->
    (forall j, (i <= j < retries)%nat -> exists e, f j = Failed e) ->
    exists e,
      f (retries - 1)%nat = Failed e /\
      retry_loop f retries i rounds =
        {| ended := Thrown e; calls := retries;
           sleeps := map backoff (seq i (rounds - 1)) |}.
Proof.
  induction rounds as [|rounds IH]; intros i Hsum Hpos Hfail; [lia|].
  destruct (Hfail i ltac:(lia)) as [e He].
  cbn [retry_loop]. rewrite He.
  destruct (Nat.eqb_spec i (retries - 1)) as [Hlast|Hmore].
  - assert (rounds = 0%nat) by lia. subst rounds.
    exists e. split; [rewrite <- Hlast; exact He|].
    cbn. f_equal. lia.
  - destruct (IH (S i) ltac:(lia) ltac:(lia)) as (e' & He' & Hrun).
    { intros j Hj. apply Hfail. lia. }
    exists e'. split; [exact He'|].
    rewrite Hrun. cbn [ended calls sleeps].
    replace (S rounds - 1)%nat with (S (rounds - 1)) by lia.
    reflexivity.
Qed.

(** The loop stops at the first attempt that succeeds. *)
Lemma retry_loop_first_success (f : nat -> outcome) (retries : nat) :
  forall rounds i k d,
    (i + rounds = retries)%nat -> (i <= k < retries)%nat ->
    (forall j, (i <= j < k)%nat -> exists e, f j = Failed e) ->
    f k = Fulfilled d ->
    retry_loop f retries i rounds =
      {| ended := Returned d; calls := S k;
         sleeps := map backoff (seq i (k - i)) |}.
Proof.
  induction rounds as [|rounds IH]; intros i k d Hsum Hk Hfail Hok; [lia|].
  cbn [retry_loop].
  destruct (Nat.eq_dec i k) as [->|Hne].
  - rewrite Hok. rewrite Nat.sub_diag. reflexivity.
  - destruct (Hfail i ltac:(lia)) as [e He]. rewrite He.
    destruct (Nat.eqb_spec i (retries - 1)); [lia|].
    rewrite (IH (S i) k d) by (try lia; try assumption;
                               intros j Hj; apply Hfail; lia).
    cbn [ended calls sleeps].
    replace (k - i)%nat with (S (k - S i)) by lia. reflexivity.
Qed.

(** The loop with its ceiling of three attempts, case by case: a failed
    attempt other than the third is followed by a wait of 1000 ms, then
    2000 ms, and by another attempt; the caller sees the first success
    among the three attempts, or else the third error.  The error itself
    is never looked at. *)
Lemma retryRequest_three_attempts (requestFn : nat -> outcome) :
  retryRequest requestFn MAX_RETRIES =
    match requestFn 0%nat, requestFn 1%nat, requestFn 2%nat with
    | Fulfilled d, _, _ =>
        {| ended := Returned d; calls := 1; sleeps := [] |}
    | Failed _, Fulfilled d, _ =>
        {| ended := Returned d; calls := 2; sleeps := [1000] |}
    | Failed _, Failed _, Fulfilled d =>
        {| ended := Returned d; calls := 3; sleeps := [1000; 2000] |}
    | Failed _, Failed _, Failed e =>
        {| ended := Thrown e; calls := 3; sleeps := [1000; 2000] |}
    end.
Proof.
  unfold retryRequest, MAX_RETRIES. cbn [retry_loop].
  destruct (requestFn 0%nat); [reflexivity|].
  cbn [Nat.eqb Nat.sub].
  destruct (requestFn 1%nat); [reflexivity|].
  cbn [Nat.eqb Nat.sub].
  destruct (requestFn 2%nat); reflexivity.
Qed.

(** C6 on the code.  A processor answers 400 to a request.  The failure
    is not transient, and the tests of the service expect it to reach the
    caller after that one answer.  [retryRequest] catches every error
    alike: the request is sent three times, with the waits of 1000 ms and
    2000 ms in between, and only then is the 400 thrown to the caller. *)
Theorem retryRequest_retries_4xx :
  let run := retryRequest (fun k => Samples.refuses k
                             {| method := "post"; url := "/transfers/sepa";
                                data := [] |}) MAX_RETRIES in
  transient Samples.bad_request = false /\
  ended run = Thrown Samples.bad_request /\
  calls run = 3%nat /\ calls run <> 1%nat /\
  sleeps run = [1000; 2000].
Proof. cbv. repeat split; discriminate. Qed.

End EasyPayFacts.

Section MoneyMovementFacts.
Import Db.

Lemma find_after_update {A} (sel cond : A -> bool) (set : A -> A)
    (rows : list A) :
  (forall r, sel (set r) = sel r) ->
  find sel (update cond set rows) =
    option_map (fun r => if cond r then set r else r) (find sel rows).
Proof.
  intros Hsel. unfold update.
  induction rows as [|r rows IH]; [reflexivity|].
  cbn [map find].
  replace (sel (if cond r then set r else r)) with (sel r)
    by (destruct (cond r); [rewrite Hsel|]; reflexivity).
  destruct (sel r); [reflexivity|exact IH].
Qed.

(** A debit followed by the credit of the same amount is no change. *)
Lemma debit_then_credit (uid : string) (amount : Z) (rows : list user_row) :
  update (Transfers.has_id uid)
    (fun u => set_balance (u_balance u + amount) u)
    (update (Transfers.has_id uid)
       (fun u => set_balance (u_balance u - amount) u) rows) = rows.
Proof.
  unfold update. rewrite map_map.
  rewrite <- (map_id rows) at 2. apply map_ext. intros [i ? ? ? b ? ? ? ?].
  unfold Transfers.has_id. cbn [u_id].
  destruct (String.eqb i uid) eqn:E.
  - cbn. rewrite E. unfold set_balance. cbn. f_equal. lia.
  - cbn. rewrite E. reflexivity.
Qed.

(** Whatever the callback did on its client, a thrown error leaves the
    four tables as they were at [BEGIN]. *)
Lemma transaction_throw_restores {A}
    (callback : state -> (A + string) * state) (s : state) (e : string) :
  fst (callback s) = inr e ->
  fst (transaction callback s) = inr e /\
  users (snd (transaction callback s)) = users s /\
  transactions (snd (transaction callback s)) = transactions s /\
  sessions (snd (transaction callback s)) = sessions s.
Proof.
  unfold transaction. destruct (callback s) as [[a|e'] s']; cbn;
    intros H; [discriminate|]. repeat split; assumption.
Qed.

(** When the processor call fails, the callback of a transfer has
    credited back what it debited: already before the [ROLLBACK], the
    table of users is the one the callback started from.  (The other
    error of the callback is that of an [UPDATE] the store refused.) *)
Lemma send_callback_compensates (remote : EasyPay.processor)
    (r : Transfers.request) (s : state) (user : user_row) (msg : string) :
  fst (Transfers.send_callback remote r user s) = inr msg ->
  msg <> Schema.aborted ->
  users (snd (Transfers.send_callback remote r user s)) = users s.
Proof.
  unfold Transfers.send_callback.
  destruct (EasyPay.answer _) as [ok|e]; cbn [fst snd].
  - destruct (Schema.processed _ _ _) as [[[status id] ref]|e];
      cbn [fst snd]; [discriminate|congruence].
  - intros _ _. cbn. apply debit_then_credit.
Qed.

(** A transfer whose processor call fails: the caller gets a 500 with
    the message, and the tables [users] and [transactions] are those of
    before the call. *)
Lemma send_processor_failure (remote : EasyPay.processor)
    (r : Transfers.request) (s : state) (user : user_row) (msg : string) :
  user_by_id (Transfers.userId r) s = Some user ->
  Transfers.amount r <= u_balance user ->
  fst (Transfers.send_callback remote r user s) = inr msg ->
  exists s',
    Transfers.send remote r s =
      (Transfers.Error 500
         (EasyPay.or_default (Some msg) "Transfer failed. Please try again."),
       s') /\
    users s' = users s /\ transactions s' = transactions s.
Proof.
  intros Hu Hb Hthrow. unfold Transfers.send. rewrite Hu.
  destruct (Z.ltb_spec (u_balance user) (Transfers.amount r)); [lia|].
  unfold transaction.
  destruct (Transfers.send_callback remote r user s) as [[a|e] s1];
    cbn in Hthrow; [discriminate|].
  injection Hthrow as ->.
  eexists. split; [reflexivity|]. split; reflexivity.
Qed.

(** C1 on the code.  Alice has 1000.00 and sends 250.00; the processor
    never answers.  The callback does credit the amount back and does
    mark the row [FAILED] with the message, but it then throws, and the
    [ROLLBACK] of [transaction] undoes the row together with the debit:
    the caller gets a 500, the balance is 1000.00 again, and the store
    holds no transaction row for the call, so none with status
    [FAILED]. *)
Theorem transfer_failure_record_is_rolled_back :
  let inside := snd (Transfers.send_callback Samples.never_answers
                       Samples.transfer Samples.alice Samples.store) in
  let after := Transfers.send Samples.never_answers Samples.transfer
                 Samples.store in
  option_map (fun t => (t_status t, t_error_message t))
    (transaction_by_id "tx-1" inside) =
    Some ("FAILED", Some "Failed to create transfer. Please try again.") /\
  fst after =
    Transfers.Error 500 "Failed to create transfer. Please try again." /\
  option_map u_balance (user_by_id "u-1" (snd after)) = Some 100000 /\
  transactions (snd after) = [] /\
  transaction_by_id "tx-1" (snd after) = None.
Proof. cbv. repeat split. Qed.

(** C2 on the code.  The [PENDING] row is written inside the open
    database transaction; when the processor call ends in an error (here
    a 400), transfer and bill payment alike roll it back and no row with
    the call's id is left.  When the processor accepts, the row stays,
    with the status the processor gave. *)
Theorem failed_call_leaves_no_transaction_row :
  transaction_by_id "tx-1"
    (snd (Transfers.send Samples.refuses Samples.transfer Samples.store))
    = None /\
  transaction_by_id "tx-3"
    (snd (Bills.pay Samples.refuses Samples.bill Samples.store)) = None /\
  option_map t_status
    (transaction_by_id "tx-1"
       (snd (Transfers.send Samples.accepts Samples.transfer Samples.store)))
    = Some "COMPLETED" /\
  option_map t_status
    (transaction_by_id "tx-3"
       (snd (Bills.pay Samples.accepts Samples.bill Samples.store)))
    = Some "COMPLETED".
Proof. cbv. repeat split. Qed.

(** C4.  A transfer for more than the user's balance is answered 400
    "Insufficient balance"; the tables [users] and [transactions] are
    unchanged, so the balance is the same and no row became [COMPLETED],
    and nothing was sent to the processor. *)
Theorem send_insufficient_balance (remote : EasyPay.processor)
    (r : Transfers.request) (s : state) (user : user_row) :
  user_by_id (Transfers.userId r) s = Some user ->
  u_balance user < Transfers.amount r ->
  fst (Transfers.send remote r s) =
    Transfers.Error 400 "Insufficient balance" /\
  users (snd (Transfers.send remote r s)) = users s /\
  transactions (snd (Transfers.send remote r s)) = transactions s /\
  wire (snd (Transfers.send remote r s)) = wire s.
Proof.
  intros Hu Hb. unfold Transfers.send. rewrite Hu.
  destruct (Z.ltb_spec (u_balance user) (Transfers.amount r)); [|lia].
  repeat split.
Qed.

Lemma send_insufficient_balance_witness :
  fst (Transfers.send Samples.accepts Samples.large_transfer Samples.store)
    = Transfers.Error 400 "Insufficient balance" /\
  users (snd (Transfers.send Samples.accepts Samples.large_transfer
                Samples.store)) = [Samples.alice] /\
  transactions (snd (Transfers.send Samples.accepts Samples.large_transfer
                       Samples.store)) = [] /\
  wire (snd (Transfers.send Samples.accepts Samples.large_transfer
               Samples.store)) = [].
Proof.
  apply (send_insufficient_balance Samples.accepts Samples.large_transfer
           Samples.store Samples.alice).
  - reflexivity.
  - cbn. lia.
Defined.

(** Every request [createSepaTransfer] sends has the caller's reference
    in its body. *)
Lemma createSepaTransfer_sends_reference (remote : EasyPay.processor)
    (now_iso : string) (a : EasyPay.sepa_args) :
  Forall
    (fun q => EasyPay.field "reference" (EasyPay.data q) =
              Some (EasyPay.JString
                      (EasyPay.default_to "" (EasyPay.sa_reference a))))
    (EasyPay.sent (EasyPay.createSepaTransfer remote now_iso a)).
Proof.
  apply Forall_forall. intros q Hq. cbn in Hq.
  apply repeat_spec in Hq. subst q. reflexivity.
Qed.

(** No request [processBillPayment] sends has a [reference] field: the
    function has no parameter for it. *)
Lemma processBillPayment_sends_no_reference (remote : EasyPay.processor)
    (now_iso : string) (a : EasyPay.bill_args) :
  Forall (fun q => EasyPay.field "reference" (EasyPay.data q) = None)
    (EasyPay.sent (EasyPay.processBillPayment remote now_iso a)).
Proof.
  apply Forall_forall. intros q Hq. cbn in Hq.
  apply repeat_spec in Hq. subst q. reflexivity.
Qed.

(** C5 on the code.  The transfer of 250.00 puts its transaction id
    ["tx-1"] in the [reference] field of the request it sends.  The bill
    payment with id ["tx-3"] sends one request to [/bills/pay] whose body
    has no [reference] field and holds the id in no field at all. *)
Theorem bill_payment_request_lacks_transaction_id :
  let transfer_wire :=
    wire (snd (Transfers.send Samples.accepts Samples.transfer
                 Samples.store)) in
  let bill_wire :=
    wire (snd (Bills.pay Samples.accepts Samples.bill Samples.store)) in
  map (fun q => EasyPay.field "reference" (EasyPay.data q)) transfer_wire
    = [Some (EasyPay.JString "tx-1")] /\
  map EasyPay.url bill_wire = ["/bills/pay"] /\
  map (fun q => EasyPay.field "reference" (EasyPay.data q)) bill_wire
    = [None] /\
  map (EasyPay.carries "tx-3") bill_wire = [false].
Proof. cbv. repeat split. Qed.

End MoneyMovementFacts.

Section AuthenticationFacts.
Import Db Auth.

Variable X : Externals.
Variable F : FaceService.

Lemma grant_issues_token (r : login_request) (user : user_row) (s : state) :
  issues_token (fst (grant X r user s)) = true.
Proof. reflexivity. Qed.

(** C3, as the code has it.  [verify] answers with a token exactly when
    the user exists, the PIN matches the stored hash, the face factor is
    passed (no image supplied, or the verifier returned [verified = true],
    or the verifier could not be reached), the account is active and the
    counter is below 5; otherwise it answers 401 or 403 without a token. *)
Theorem verify_token_iff_gate (r : login_request) (s : state) :
  (issues_token (fst (verify X F r s)) = true <-> gate X F r s) /\
  (issues_token (fst (verify X F r s)) = true \/
   exists error confidence,
     fst (verify X F r s) = Refused 401 error confidence \/
     fst (verify X F r s) = Refused 403 error confidence).
Proof.
  unfold verify, gate.
  destruct (user_by_egn (egn r) s) as [user|] eqn:Huser; cbn [fst].
  2:{ split.
      - split; [discriminate|]. intros (u & Hu & _). discriminate Hu.
      - right. do 2 eexists. left. reflexivity. }
  destruct (u_is_active user) eqn:Hactive; cbn [negb fst].
  2:{ split.
      - split; [discriminate|].
        intros (u & Hu & _ & _ & Ha & _). congruence.
      - right. do 2 eexists. right. reflexivity. }
  destruct (Z.leb_spec LOCK_THRESHOLD (u_failed_login_attempts user))
    as [Hlocked|Hopen]; cbn [fst].
  { split.
    - split; [discriminate|].
      intros (u & Hu & _ & _ & _ & Hc). injection Hu as <-. lia.
    - right. do 2 eexists. right. reflexivity. }
  destruct (bcrypt_compare X (pin r) (u_pin_hash user)) eqn:Hpin;
    cbn [negb fst].
  2:{ split.
      - split; [discriminate|].
        intros (u & Hu & Hp & _). congruence.
      - right. do 2 eexists. left. reflexivity. }
  destruct (truthy (face_image r)) eqn:Himage.
  2:{ split; [|left; reflexivity].
      split; [|reflexivity]. intros _. exists user. auto 6. }
  destruct (verifyFace F (u_id user) (EasyPay.default_to "" (face_image r)))
    as [[|] confidence|] eqn:Hface; cbn [fst].
  - split; [|left; reflexivity].
    split; [|reflexivity]. intros _. exists user.
    split; [reflexivity|]. split; [assumption|].
    split; [|split; assumption].
    right. left. exists confidence. exact Hface.
  - split.
    + split; [discriminate|].
      intros (u & Hu & _ & Hf & _). injection Hu as <-.
      destruct Hf as [Hf|[[c Hf]|Hf]]; congruence.
    + right. do 2 eexists. left. reflexivity.
  - split; [|left; reflexivity].
    split; [|reflexivity]. intros _. exists user.
    split; [reflexivity|]. split; [assumption|].
    split; [|split; assumption].
    right. right. exact Hface.
Qed.

End AuthenticationFacts.

(** C3 as stated fails.  Alice gives her PIN and a face image while the
    face service is down: the handler logs the failure of the service and
    goes on, and she gets a token although an image was supplied and the
    verifier did not return [verified = true]. *)
Lemma token_without_face_verdict :
  let r := Samples.login "1234" (Some "image") 1000 "s-1" in
  ~ (Auth.issues_token
       (fst (Auth.verify Samples.toy Samples.face_down r Samples.store)) = true
     <-> Auth.gate_as_stated Samples.toy Samples.face_down r Samples.store).
Proof.
  intros r [Hgate _].
  destruct (Hgate eq_refl) as (u & _ & _ & [Hf|[c Hf]] & _);
    discriminate Hf.
Qed.

Section LockoutFacts.
Import Db Auth.

Variable X : Externals.
Variable F : FaceService.

Lemma user_by_egn_count_failure (e : string) (s : state) (u : user_row) :
  user_by_egn e s = Some u ->
  user_by_egn e (count_failure (u_id u) s) =
    Some (set_failed_login_attempts (u_failed_login_attempts u + 1) u).
Proof.
  unfold user_by_egn, first_where, count_failure. cbn [users with_users].
  intros Hu. rewrite find_after_update by reflexivity. rewrite Hu. cbn.
  unfold has_id. rewrite String.eqb_refl. reflexivity.
Qed.

(** One more attempt with a wrong PIN: the row of the user is still found,
    with the same PIN hash, still active, and its counter has grown by one
    unless it had reached the threshold. *)
Lemma wrong_pin_step (r : login_request) (s : state) (u : user_row) :
  user_by_egn (egn r) s = Some u ->
  u_is_active u = true ->
  bcrypt_compare X (pin r) (u_pin_hash u) = false ->
  exists u',
    user_by_egn (egn r) (snd (verify X F r s)) = Some u' /\
    u_pin_hash u' = u_pin_hash u /\
    u_is_active u' = true /\
    Z.min LOCK_THRESHOLD (u_failed_login_attempts u + 1)
      <= u_failed_login_attempts u'.
Proof.
  intros Hu Hactive Hpin. unfold verify. rewrite Hu, Hactive. cbn [negb].
  destruct (Z.leb_spec LOCK_THRESHOLD (u_failed_login_attempts u)).
  - exists u. cbn [snd]. repeat split; try assumption. lia.
  - rewrite Hpin. cbn [negb snd].
    eexists. split.
    + unfold logAuthAttempt, createAuditLog, user_by_egn. cbn [users].
      apply (user_by_egn_count_failure (egn r) s u Hu).
    + cbn. repeat split; try assumption. lia.
Qed.

Lemma wrong_pins (e : string) (rs : list login_request) :
  forall (s : state) (u : user_row),
    user_by_egn e s = Some u ->
    u_is_active u = true ->
    Forall (fun r => egn r = e /\
                     bcrypt_compare X (pin r) (u_pin_hash u) = false) rs ->
    exists u',
      user_by_egn e (attempts X F rs s) = Some u' /\
      u_pin_hash u' = u_pin_hash u /\
      u_is_active u' = true /\
      Z.min LOCK_THRESHOLD
        (u_failed_login_attempts u + Z.of_nat (List.length rs))
        <= u_failed_login_attempts u'.
Proof.
  induction rs as [|r rs IH]; intros s u Hu Hactive Hall.
  - exists u. cbn. repeat split; try assumption. lia.
  - inversion Hall as [|? ? [He Hpin] Hrest]; subst.
    destruct (wrong_pin_step r s u Hu Hactive Hpin)
      as (u1 & Hu1 & Hhash1 & Hactive1 & Hcount1).
    destruct (IH (snd (verify X F r s)) u1 Hu1 Hactive1) as
      (u' & Hu' & Hhash' & Hactive' & Hcount').
    { rewrite Hhash1. exact Hrest. }
    exists u'. cbn [attempts fold_left]. split; [exact Hu'|].
    split; [congruence|]. split; [assumption|].
    cbn [List.length]. unfold LOCK_THRESHOLD in *. lia.
Qed.

(** C7.  After five attempts in a row with a wrong PIN at an active
    account, an attempt with the right PIN is answered 403 "Account
    locked", whatever face image comes with it. *)
Theorem sixth_attempt_is_locked (s : state) (u : user_row)
    (rs : list login_request) (r6 : login_request) :
  user_by_egn (egn r6) s = Some u ->
  u_is_active u = true ->
  0 <= u_failed_login_attempts u ->
  List.length rs = 5%nat ->
  Forall (fun r => egn r = egn r6 /\
                   bcrypt_compare X (pin r) (u_pin_hash u) = false) rs ->
  bcrypt_compare X (pin r6) (u_pin_hash u) = true ->
  fst (verify X F r6 (attempts X F rs s)) = Refused 403 locked_message None.
Proof.
  intros Hu Hactive Hcount Hlen Hall _.
  destruct (wrong_pins (egn r6) rs s u Hu Hactive Hall)
    as (u' & Hu' & _ & Hactive' & Hcount').
  rewrite Hlen in Hcount'. unfold verify. rewrite Hu', Hactive'. cbn [negb].
  destruct (Z.leb_spec LOCK_THRESHOLD (u_failed_login_attempts u'));
    [reflexivity|unfold LOCK_THRESHOLD in *; lia].
Qed.

End LockoutFacts.

Lemma sixth_attempt_is_locked_witness :
  fst (Auth.verify Samples.toy Samples.face_up
         (Samples.login "1234" None 6 "s-6") Samples.locked_store)
  = Auth.Refused 403 Auth.locked_message None.
Proof.
  apply (sixth_attempt_is_locked Samples.toy Samples.face_up Samples.store
           Samples.alice _ (Samples.login "1234" None 6 "s-6")).
  - reflexivity.
  - reflexivity.
  - cbn. lia.
  - reflexivity.
  - repeat constructor.
  - reflexivity.
Defined.

Section PermanentLockFacts.
Import Db Auth.

Variable X : Externals.
Variable F : FaceService.

Lemma update_keeps_ids (cond : user_row -> bool) (set : user_row -> user_row)
    (rows : list user_row) :
  (forall u, u_id (set u) = u_id u) ->
  map u_id (update cond set rows) = map u_id rows.
Proof.
  intros Hid. unfold update. rewrite map_map. apply map_ext.
  intros u. destruct (cond u); [apply Hid|reflexivity].
Qed.

Lemma same_key_same_row {A B} (key : A -> B) (rows : list A) (a b : A) :
  NoDup (map key rows) -> In a rows -> In b rows -> key a = key b -> a = b.
Proof.
  induction rows as [|r rows IH]; cbn; intros Hnd Ha Hb Hkey; [contradiction|].
  inversion Hnd as [|? ? Hnotin Hnd']; subst.
  destruct Ha as [->|Ha], Hb as [->|Hb]; auto.
  - exfalso. apply Hnotin. rewrite Hkey. apply in_map. exact Hb.
  - exfalso. apply Hnotin. rewrite <- Hkey. apply in_map. exact Ha.
Qed.

Lemma find_in_front {A} (p : A -> bool) (rows more : list A) (a : A) :
  find p rows = Some a -> find p (rows ++ more) = Some a.
Proof.
  induction rows as [|r rows IH]; cbn; [discriminate|].
  destruct (p r); auto.
Qed.

(** An update of the row with another id leaves the row found under an
    EGN as it is. *)
Lemma other_row_update (e uid : string) (set : user_row -> user_row)
    (rows : list user_row) (u : user_row) :
  (forall v, u_egn (set v) = u_egn v) ->
  find (fun v => String.eqb (u_egn v) e) rows = Some u ->
  u_id u <> uid ->
  find (fun v => String.eqb (u_egn v) e) (update (has_id uid) set rows)
    = Some u.
Proof.
  intros Hegn Hu Hne.
  rewrite find_after_update by (intros v; rewrite Hegn; reflexivity).
  rewrite Hu. cbn. unfold has_id.
  destruct (String.eqb_spec (u_id u) uid); [contradiction|reflexivity].
Qed.

(** What [verify] can do to the table of users: nothing, or one update of
    the row whose id is that of the user found under the EGN of the
    request, when that user's counter is below the threshold. *)
Lemma verify_users (r : login_request) (s : state) :
  users (snd (verify X F r s)) = users s \/
  exists v set,
    user_by_egn (egn r) s = Some v /\
    u_failed_login_attempts v < LOCK_THRESHOLD /\
    (forall w, u_id (set w) = u_id w) /\
    (forall w, u_egn (set w) = u_egn w) /\
    (forall w, u_is_active (set w) = u_is_active w) /\
    users (snd (verify X F r s)) = update (has_id (u_id v)) set (users s).
Proof.
  unfold verify.
  destruct (user_by_egn (egn r) s) as [v|] eqn:Hv; [|left; reflexivity].
  destruct (u_is_active v); cbn [negb]; [|left; reflexivity].
  destruct (Z.leb_spec LOCK_THRESHOLD (u_failed_login_attempts v));
    [left; reflexivity|].
  right. exists v.
  pose (bump := fun u =>
          set_failed_login_attempts (u_failed_login_attempts u + 1) u).
  pose (reset := fun u =>
          set_last_login_at (now r) (set_failed_login_attempts 0 u)).
  destruct (bcrypt_compare X (pin r) (u_pin_hash v)); cbn [negb].
  2:{ exists bump. repeat split; assumption. }
  destruct (truthy (face_image r)).
  - destruct (verifyFace F (u_id v) (EasyPay.default_to "" (face_image r)))
      as [[|] c|].
    + exists reset. repeat split; assumption.
    + exists bump. repeat split; assumption.
    + exists reset. repeat split; assumption.
  - exists reset. repeat split; assumption.
Qed.

(** What [register] can do to the table of users: nothing, or one more
    row at the end, with an id that no row had. *)
Lemma register_users (r : register_request) (s : state) :
  users (snd (register X F r s)) = users s \/
  exists row,
    existsb (has_id (u_id row)) (users s) = false /\
    u_is_active row = true /\
    users (snd (register X F r s)) = (users s ++ [row])%list.
Proof.
  unfold register.
  destruct (existsb _ (users s)); [left; reflexivity|].
  unfold transaction, register_callback, insert_user. cbn [u_id].
  destruct (existsb (has_id (reg_userId r)) (users s)) eqn:Hfresh;
    [left; reflexivity|].
  destruct (truthy (reg_face_image r)); [destruct (enrollFace F _ _)|];
    try (left; reflexivity);
    right; eexists; (split; [|split; [|cbn; reflexivity]]);
    [exact Hfresh|reflexivity|exact Hfresh|reflexivity].
Qed.

Lemma logout_users (h : option string) (t : Z) (s : state) :
  users (snd (logout X h t s)) = users s.
Proof.
  unfold logout. cbn [snd]. destruct (Session.bearer h); [|reflexivity].
  destruct (jwt_verify X _ t); reflexivity.
Qed.

Lemma enroll_face_users (r : enroll_request) (s : state) :
  users (snd (enroll_face X F r s)) = users s.
Proof.
  unfold enroll_face.
  destruct (_ || _); [reflexivity|].
  destruct (user_by_egn _ s); [|reflexivity].
  destruct (negb _); [reflexivity|].
  destruct (enrollFace F _ _); reflexivity.
Qed.

Lemma fresh_id_not_in (uid : string) (rows : list user_row) :
  existsb (has_id uid) rows = false -> ~ In uid (map u_id rows).
Proof.
  intros Hfresh Hin. apply in_map_iff in Hin as (u & Hid & Hu).
  assert (existsb (has_id uid) rows = true) as E; [|congruence].
  apply existsb_exists. exists u. split; [exact Hu|].
  unfold has_id. rewrite Hid. apply String.eqb_refl.
Qed.

(** No authentication route deactivates an account, and [register]
    creates active accounts: if every account is active before a call,
    every account is active after it. *)
Lemma step_keeps_accounts_active (c : call) (s : state) :
  Forall (fun u => u_is_active u = true) (users s) ->
  Forall (fun u => u_is_active u = true) (users (snd (step X F c s))).
Proof.
  intros Hall. destruct c as [r|r|h t|r]; cbn [step].
  - pose proof (register_users r s) as Hcases.
    destruct (register X F r s) as [a s']. cbn [snd] in *.
    destruct Hcases as [->|(row & _ & Hrow & ->)]; [exact Hall|].
    apply Forall_app. split; [exact Hall|]. constructor; [exact Hrow|constructor].
  - pose proof (verify_users r s) as Hcases.
    destruct (verify X F r s) as [a s']. cbn [snd] in *.
    destruct Hcases as [->|(v & set & _ & _ & _ & _ & Hact & ->)];
      [exact Hall|].
    unfold update. apply Forall_map. revert Hall. apply Forall_impl.
    intros u Hu. destruct (has_id (u_id v) u); [rewrite Hact|]; exact Hu.
  - pose proof (logout_users h t s) as Hsame.
    destruct (logout X h t s) as [a s']. cbn [snd] in *.
    rewrite Hsame. exact Hall.
  - pose proof (enroll_face_users r s) as Hsame.
    destruct (enroll_face X F r s) as [a s']. cbn [snd] in *.
    rewrite Hsame. exact Hall.
Qed.

(** One call of an authentication route at a store where the account
    under EGN [e] is active and locked: ids stay distinct, the row of the
    account is not touched, and a login for [e] is answered "locked". *)
Lemma locked_step (e : string) (user : user_row) (c : call) (s : state) :
  u_is_active user = true ->
  LOCK_THRESHOLD <= u_failed_login_attempts user ->
  NoDup (map u_id (users s)) ->
  user_by_egn e s = Some user ->
  NoDup (map u_id (users (snd (step X F c s)))) /\
  user_by_egn e (snd (step X F c s)) = Some user /\
  (forall r, c = CallVerify r -> egn r = e ->
     fst (step X F c s) = Login (Refused 403 locked_message None)).
Proof.
  intros Hactive Hlocked Hnd Hu.
  unfold user_by_egn, first_where in *.
  destruct c as [r|r|h t|r]; cbn [step].
  - destruct (register X F r s) as [a s'] eqn:E. cbn [fst snd].
    pose proof (register_users r s) as Hcases. rewrite E in Hcases.
    cbn [snd] in Hcases.
    split; [|split; [|discriminate]].
    + destruct Hcases as [->|(row & Hfresh & _ & ->)]; [exact Hnd|].
      rewrite map_app. apply NoDup_app; [exact Hnd|repeat constructor; auto|].
      intros i Hi [<-|[]]. revert Hi. apply fresh_id_not_in. exact Hfresh.
    + destruct Hcases as [->|(row & _ & _ & ->)]; [exact Hu|].
      apply find_in_front. exact Hu.
  - destruct (verify X F r s) as [a s'] eqn:E. cbn [fst snd].
    pose proof (verify_users r s) as Hcases. rewrite E in Hcases.
    cbn [snd] in Hcases.
    assert (Hsame : egn r = e -> users s' = users s /\
                    a = Refused 403 locked_message None).
    { intros He. revert E. unfold verify, user_by_egn, first_where.
      rewrite He, Hu, Hactive. cbn [negb].
      destruct (Z.leb_spec LOCK_THRESHOLD (u_failed_login_attempts user));
        [|lia].
      intros [= <- <-]. split; reflexivity. }
    split; [|split].
    + destruct Hcases as [->|(v & set & _ & _ & Hid & _ & _ & ->)];
        [exact Hnd|].
      rewrite update_keeps_ids by exact Hid. exact Hnd.
    + destruct Hcases as [->|(v & set & Hv & Hopen & _ & Hegn & _ & ->)];
        [exact Hu|].
      apply other_row_update; [exact Hegn|exact Hu|].
      intros Hid. unfold user_by_egn, first_where in Hv.
      apply find_some in Hu as [Hin_u _], Hv as [Hin_v _].
      assert (user = v) by (apply (same_key_same_row u_id (users s));
                            assumption).
      subst v. lia.
    + intros r' [= <-] He. f_equal. apply Hsame. exact He.
  - destruct (logout X h t s) as [a s'] eqn:E. cbn [fst snd].
    pose proof (logout_users h t s) as Hsame. rewrite E in Hsame.
    cbn [snd] in Hsame. rewrite Hsame.
    split; [exact Hnd|split; [exact Hu|discriminate]].
  - destruct (enroll_face X F r s) as [a s'] eqn:E. cbn [fst snd].
    pose proof (enroll_face_users r s) as Hsame. rewrite E in Hsame.
    cbn [snd] in Hsame. rewrite Hsame.
    split; [exact Hnd|split; [exact Hu|discriminate]].
Qed.

(** Calls handled one at a time, each one to its answer before the next
    one starts.  Once the counter of an active account has reached 5, no
    such sequence of calls of the authentication routes (register, verify,
    logout, enroll-face) changes its row, so its counter never goes down,
    and every login for it in the sequence is answered 403 "Account
    locked", whatever PIN and face image it brings.  [run] has no place
    for a call that starts before another one has ended; [Overlap] has. *)
Lemma lock_is_permanent (e : string) (user : user_row) (cs : list call) :
  forall s : state,
    NoDup (map u_id (users s)) ->
    user_by_egn e s = Some user ->
    u_is_active user = true ->
    LOCK_THRESHOLD <= u_failed_login_attempts user ->
    user_by_egn e (snd (run X F cs s)) = Some user /\
    Forall2
      (fun c a =>
         forall r, c = CallVerify r -> egn r = e ->
           a = Login (Refused 403 locked_message None))
      cs (fst (run X F cs s)).
Proof.
  induction cs as [|c cs IH]; intros s Hnd Hu Hactive Hlocked.
  - cbn. split; [exact Hu|constructor].
  - destruct (locked_step e user c s Hactive Hlocked Hnd Hu)
      as (Hnd1 & Hu1 & Hreply).
    cbn [run]. destruct (step X F c s) as [a s1]. cbn [fst snd] in *.
    destruct (IH s1 Hnd1 Hu1 Hactive Hlocked) as (Hu2 & Hall).
    destruct (run X F cs s1) as [rest s2]. cbn [fst snd] in *.
    split; [exact Hu2|]. constructor; [exact Hreply|exact Hall].
Qed.

End PermanentLockFacts.

Lemma lock_is_permanent_witness :
  Db.user_by_egn "6101057509"
    (snd (Auth.run Samples.toy Samples.face_up Samples.later_calls
            Samples.locked_store)) = Some Samples.locked_alice /\
  Forall2
    (fun c a =>
       forall r, c = Auth.CallVerify r -> Auth.egn r = "6101057509" ->
         a = Auth.Login (Auth.Refused 403 Auth.locked_message None))
    Samples.later_calls
    (fst (Auth.run Samples.toy Samples.face_up Samples.later_calls
            Samples.locked_store)).
Proof.
  apply (lock_is_permanent Samples.toy Samples.face_up "6101057509"
           Samples.locked_alice Samples.later_calls Samples.locked_store).
  - cbn. constructor; [intros []|constructor].
  - reflexivity.
  - reflexivity.
  - cbn. unfold Auth.LOCK_THRESHOLD. lia.
Defined.

Section OverlapFacts.
Import Db Auth Overlap.

(** A login request that no other request interrupts goes through six
    operations at most, and its answer and the store it leaves are those
    of [verify]. *)
Lemma alone_is_verify (X : Externals) (F : FaceService) (r : login_request)
    (s : state) :
  alone X F r 6 Selecting s =
    (Answered (fst (verify X F r s)), snd (verify X F r s)).
Proof.
  unfold verify, grant. cbn [alone advance].
  destruct (user_by_egn (egn r) s) as [user|]; [|reflexivity].
  destruct (negb (u_is_active user)); [reflexivity|].
  destruct (LOCK_THRESHOLD <=? u_failed_login_attempts user); [reflexivity|].
  cbn [alone advance].
  destruct (negb (bcrypt_compare X (pin r) (u_pin_hash user)));
    [reflexivity|].
  destruct (truthy (face_image r)); [|reflexivity].
  cbn [alone advance].
  destruct (verifyFace F (u_id user) _) as [[|] confidence|]; reflexivity.
Qed.

(** C10 on the code.  Alice's counter is at 4.  Half an hour later two
    logins for her account reach the server together, one with the right
    PIN and a face image and one with a wrong PIN.  The first does its [SELECT], reads 4,
    passes the lock check and the PIN, and awaits the face service;
    meanwhile the second runs from its [SELECT] to its answer, a 401, and
    raises the counter to 5: the account is locked, and a login that
    started now would be answered 403 "Account locked".  The first request
    then goes on with the row it read: the face is verified, it sets the
    counter back to 0 and answers with a token.  The counter has gone down
    from 5 to 0 through the login route, and the next login with the right
    PIN gets a token. *)
Theorem overlapping_login_lifts_lock :
  let X := Samples.toy in
  let F := Samples.face_up in
  let locked :=
    interleave X F MoreSamples.wrong_pin_overtakes MoreSamples.both_logins
      MoreSamples.four_failures in
  let finished :=
    interleave X F MoreSamples.right_pin_resumes (fst locked) (snd locked) in
  counter "6101057509" MoreSamples.four_failures = Some 4 /\
  map standing (fst locked) =
    [ CheckingFace (set_failed_login_attempts 4 Samples.alice);
      Answered (Refused 401 "Invalid credentials" None) ] /\
  counter "6101057509" (snd locked) = Some 5 /\
  fst (verify X F (Samples.login "1234" None 1800001 "s-7") (snd locked)) =
    Refused 403 locked_message None /\
  map standing (fst finished) =
    [ Answered
        (LoggedIn Samples.late_token
           {| id := "u-1"; sum_egn := "6101057509"; fullName := "Alice";
              accountNumber := "BG80BNBG96611020345678";
              balance := 100000 |});
      Answered (Refused 401 "Invalid credentials" None) ] /\
  counter "6101057509" (snd finished) = Some 0 /\
  issues_token
    (fst (verify X F (Samples.login "1234" None 3600000 "s-8")
            (snd finished))) =
    true.
Proof. vm_compute. repeat split. Qed.

End OverlapFacts.

Section SessionFacts.
Import Db Session.

Variable X : Externals.

Lemma substring_whole (t : string) :
  String.substring 0 (String.length t) t = t.
Proof. induction t as [|c t IH]; cbn; [reflexivity|rewrite IH; reflexivity]. Qed.

Lemma bearer_of_header (t : string) : bearer (Some ("Bearer " ++ t)) = Some t.
Proof.
  unfold bearer. cbn. rewrite Nat.sub_0_r, substring_whole.
  destruct t; reflexivity.
Qed.

(** The token enters [verifyToken] through [jwt.verify] only: two tokens
    with the same payload get the same answer and the same update of the
    store, whatever hashes the session rows hold. *)
Lemma verifyToken_by_payload (t1 t2 : string) (now : Z) (s : state) :
  jwt_verify X t1 now = jwt_verify X t2 now ->
  verifyToken X (Some ("Bearer " ++ t1)) now s =
  verifyToken X (Some ("Bearer " ++ t2)) now s.
Proof.
  intros Hsame. unfold verifyToken. rewrite !bearer_of_header, Hsame.
  reflexivity.
Qed.

End SessionFacts.

(** C8 on the code.  Alice logs in (token [early_token]), logs out, which
    deletes her session, and logs in again later (token [late_token]).
    The only session row then holds the hash of [late_token]; no row holds
    the hash of [early_token].  Presented with [early_token], [verifyToken]
    still lets the request through as Alice: it selects the session by the
    user id in the token's payload and never compares a token hash. *)
Theorem verifyToken_accepts_token_without_session :
  fst (Auth.verify Samples.toy Samples.face_up
         (Samples.login "1234" None 1000 "s-1") Samples.store) =
    Auth.LoggedIn Samples.early_token
      {| Auth.id := "u-1"; Auth.sum_egn := "6101057509";
         Auth.fullName := "Alice";
         Auth.accountNumber := "BG80BNBG96611020345678";
         Auth.balance := 100000 |} /\
  Db.sessions Samples.after_logout = [] /\
  map Db.s_token_hash (Db.sessions Samples.after_second_login) =
    [sha256_hex Samples.toy Samples.late_token] /\
  existsb
    (fun r => String.eqb (Db.s_token_hash r)
                (sha256_hex Samples.toy Samples.early_token))
    (Db.sessions Samples.after_second_login) = false /\
  fst (Session.verifyToken Samples.toy
         (Some ("Bearer " ++ Samples.early_token)) 7000
         Samples.after_second_login) =
    Session.Next {| Session.id := "u-1"; Session.egn := "6101057509";
                    Session.fullName := "Alice" |}.
Proof. cbv. repeat split. Qed.

Section StoreFacts.

(** Rounding to two decimals: 100.505 gives 100.51 and 100.504 gives
    100.50; -0.005 gives -0.01; 0.004 gives nothing; 1 gives 1.00 and 1.5
    gives 1.50. *)
Lemma round2_examples :
  Money.round2 {| Money.digits := 100505; Money.scale := 3 |} = 10051 /\
  Money.round2 {| Money.digits := 100504; Money.scale := 3 |} = 10050 /\
  Money.round2 {| Money.digits := -5; Money.scale := 3 |} = -1 /\
  Money.round2 {| Money.digits := 4; Money.scale := 3 |} = 0 /\
  Money.round2 {| Money.digits := 1; Money.scale := 0 |} = 100 /\
  Money.round2 {| Money.digits := 15; Money.scale := 1 |} = 150.
Proof. vm_compute. repeat split. Qed.

(** An amount with half a hundredth, where the embedding of transfers
    and bill payments does not go: of 250.005 out of 1000.00 the store
    would keep 250.01 as the amount and 750.00 as the balance. *)
Lemma half_a_hundredth :
  Money.round2 {| Money.digits := 250005; Money.scale := 3 |} = 25001 /\
  Money.round2
    (Money.plus 100000 {| Money.digits := -250005; Money.scale := 3 |}) =
    75000.
Proof. vm_compute. split; reflexivity. Qed.

(** A column of three characters keeps a text of three, cuts the spaces
    beyond them and refuses a fourth character; characters, not bytes, are
    counted. *)
Lemma varchar_examples :
  Schema.varchar 3 "BGN" = inl "BGN" /\
  Schema.varchar 3 "BGN  " = inl "BGN" /\
  Schema.varchar 3 "EURO" = inr Schema.too_long /\
  Schema.varchar 4 "Иван" = inl "Иван".
Proof. vm_compute. repeat split. Qed.

Lemma split_chars_within (n : nat) (cs : list ascii) :
  (List.length (filter (fun c => negb (Schema.is_continuation c)) cs) <= n)%nat ->
  Schema.split_chars n cs = (cs, []).
Proof.
  revert n. induction cs as [|c cs IH]; intros n Hn; [reflexivity|].
  cbn [Schema.split_chars filter] in *.
  destruct (Schema.is_continuation c); cbn [negb] in Hn.
  - rewrite IH by exact Hn. reflexivity.
  - cbn [List.length] in Hn. destruct n as [|n]; [lia|].
    rewrite IH by lia. reflexivity.
Qed.

(** A text of at most [n] characters is kept as it is. *)
Lemma varchar_within (n : nat) (text : string) :
  (Schema.chars text <= n)%nat -> Schema.varchar n text = inl text.
Proof.
  intros Hn. unfold Schema.varchar.
  rewrite (split_chars_within n _ Hn). cbn.
  rewrite string_of_list_ascii_of_string. reflexivity.
Qed.

(** The forms of a UUID that the store reads, and texts that it does not
    read. *)
Lemma read_examples :
  let value := Some "a0eebc999c0b4ef8bb6d6bb9bd380a11" in
  Uuid.read "a0eebc99-9c0b-4ef8-bb6d-6bb9bd380a11" = value /\
  Uuid.read "A0EEBC99-9C0B-4EF8-BB6D-6BB9BD380A11" = value /\
  Uuid.read "{a0eebc99-9c0b-4ef8-bb6d-6bb9bd380a11}" = value /\
  Uuid.read "a0eebc999c0b4ef8bb6d6bb9bd380a11" = value /\
  Uuid.read "a0ee-bc99-9c0b-4ef8-bb6d-6bb9-bd38-0a11" = value /\
  Uuid.read "tx-7" = None /\
  Uuid.read "a0eebc99-9c0b-4ef8-bb6d-6bb9bd380a1" = None /\
  Uuid.read "a0eebc99-9c0b-4ef8-bb6d-6bb9bd380a11 " = None /\
  Uuid.read "a0eebc99-9c0b-4ef8-bb6d-6bb9bd380a1g" = None.
Proof. vm_compute. repeat split. Qed.

End StoreFacts.

Section LedgerFacts.
Import Db.

Lemma find_last {A} (p : A -> bool) (rows : list A) (x : A) :
  p x = true -> exists y, find p (rows ++ [x]) = Some y.
Proof.
  intros Hx. induction rows as [|r rows IH]; cbn.
  - rewrite Hx. eauto.
  - destruct (p r); eauto.
Qed.


Lemma find_nothing {A} (p : A -> bool) (rows : list A) :
  existsb p rows = false -> find p rows = None.
Proof.
  induction rows as [|r rows IH]; cbn; [reflexivity|].
  intros H. apply orb_false_iff in H as [Hr Hrows].
  rewrite Hr. apply IH. exact Hrows.
Qed.


(** The balance found under an id after the rows with id [who] have had
    their balance moved by [d]. *)
Lemma balance_after_move (uid who : string) (d : Z) (rows : list user_row)
    (u : user_row) :
  find (fun v => String.eqb (u_id v) uid) rows = Some u ->
  option_map u_balance
    (find (fun v => String.eqb (u_id v) uid)
       (update (fun v => String.eqb (u_id v) who)
          (fun v => set_balance (u_balance v + d) v) rows)) =
  Some (u_balance u + (if String.eqb who uid then d else 0)).
Proof.
  intros Hu. rewrite find_after_update by reflexivity. rewrite Hu. cbn.
  apply find_some in Hu as [_ Hid]. apply String.eqb_eq in Hid.
  rewrite Hid. rewrite (String.eqb_sym uid who).
  destruct (String.eqb who uid); cbn; f_equal; lia.
Qed.

(** How a transfer ends: with an error and the tables [users] and
    [transactions] as they were, or completed, with the amount taken from
    the balance of the caller and from no other. *)
Lemma send_cases (remote : EasyPay.processor) (r : Transfers.request)
    (s s' : state) (a : Transfers.response) :
  Transfers.send remote r s = (a, s') ->
  (exists st e,
     a = Transfers.Error st e /\
     users s' = users s /\ transactions s' = transactions s) \/
  (exists tx u,
     user_by_id (Transfers.userId r) s = Some u /\
     Transfers.amount r <= u_balance u /\
     a = Transfers.Completed tx (u_balance u - Transfers.amount r) /\
     users s' =
       update (fun v => String.eqb (u_id v) (Transfers.userId r))
         (fun v => set_balance (u_balance v + - Transfers.amount r) v)
         (users s)).
Proof.
  unfold Transfers.send. intros H.
  destruct (user_by_id (Transfers.userId r) s) as [u|] eqn:Hu.
  2:{ injection H as <- <-. left. do 2 eexists. repeat split. }
  destruct (Z.ltb_spec (u_balance u) (Transfers.amount r)) as [Hlow|Hok].
  { injection H as <- <-. left. do 2 eexists. repeat split. }
  unfold transaction, Transfers.send_callback in H.
  destruct (EasyPay.answer _) as [ok|e].
  2:{ injection H as <- <-. left. do 2 eexists. repeat split. }
  destruct (Schema.processed _ _ _) as [[[status easypay_id] reference]|e].
  2:{ injection H as <- <-. left. do 2 eexists. repeat split. }
  right.
  match type of H with
  | context [transaction_by_id _ ?st] => remember st as s1 eqn:Hs1
  end.
  assert (Husers : users s1 =
            update (fun v => String.eqb (u_id v) (Transfers.userId r))
              (fun v => set_balance (u_balance v + - Transfers.amount r) v)
              (users s)) by (subst s1; reflexivity).
  assert (Hbal : option_map u_balance (user_by_id (Transfers.userId r) s1) =
                 Some (u_balance u - Transfers.amount r)).
  { unfold user_by_id, first_where in *. rewrite Husers.
    rewrite (balance_after_move _ _ _ _ u Hu), String.eqb_refl.
    reflexivity. }
  assert (Htx : exists tx,
            transaction_by_id (Transfers.transactionId r) s1 = Some tx).
  { subst s1. unfold transaction_by_id, first_where.
    cbn [transactions with_users with_transactions put_on_wire
         logTransaction createAuditLog].
    unfold Transfers.is_tx. rewrite find_after_update by reflexivity.
    destruct (find_last
                (fun t => String.eqb (t_id t) (Transfers.transactionId r))
                (transactions s) (Transfers.pending_row r)) as [y Hy].
    { cbn. apply String.eqb_refl. }
    rewrite Hy. cbn. eauto. }
  destruct Htx as [tx Htx]. rewrite Htx in H.
  destruct (user_by_id (Transfers.userId r) s1) as [u'|];
    cbn in Hbal; [|discriminate Hbal].
  injection Hbal as Hbal. injection H as <- <-.
  exists tx, u. rewrite Hbal. repeat split; assumption.
Qed.

(** How a bill payment ends: as a transfer does. *)
Lemma pay_cases (remote : EasyPay.processor) (r : Bills.request)
    (s s' : state) (a : Bills.response) :
  Bills.pay remote r s = (a, s') ->
  (exists st e,
     a = Bills.Error st e /\
     users s' = users s /\ transactions s' = transactions s) \/
  (exists tx name u,
     user_by_id (Bills.userId r) s = Some u /\
     Bills.amount r <= u_balance u /\
     a = Bills.Completed tx name (u_balance u - Bills.amount r) /\
     users s' =
       update (fun v => String.eqb (u_id v) (Bills.userId r))
         (fun v => set_balance (u_balance v + - Bills.amount r) v)
         (users s)).
Proof.
  unfold Bills.pay. intros H.
  destruct (user_by_id (Bills.userId r) s) as [u|] eqn:Hu.
  2:{ injection H as <- <-. left. do 2 eexists. repeat split. }
  destruct (Z.ltb_spec (u_balance u) (Bills.amount r)) as [Hlow|Hok].
  { injection H as <- <-. left. do 2 eexists. repeat split. }
  destruct (first_where _ (bill_providers s)) as [provider|].
  2:{ injection H as <- <-. left. do 2 eexists. repeat split. }
  unfold transaction, Bills.pay_callback in H.
  destruct (EasyPay.answer _) as [ok|e].
  2:{ injection H as <- <-. left. do 2 eexists. repeat split. }
  destruct (Schema.processed _ _ _) as [[[status easypay_id] reference]|e].
  2:{ injection H as <- <-. left. do 2 eexists. repeat split. }
  right.
  match type of H with
  | context [transaction_by_id _ ?st] => remember st as s1 eqn:Hs1
  end.
  assert (Husers : users s1 =
            update (fun v => String.eqb (u_id v) (Bills.userId r))
              (fun v => set_balance (u_balance v + - Bills.amount r) v)
              (users s)) by (subst s1; reflexivity).
  assert (Hbal : option_map u_balance (user_by_id (Bills.userId r) s1) =
                 Some (u_balance u - Bills.amount r)).
  { unfold user_by_id, first_where in *. rewrite Husers.
    rewrite (balance_after_move _ _ _ _ u Hu), String.eqb_refl.
    reflexivity. }
  assert (Htx : exists tx,
            transaction_by_id (Bills.transactionId r) s1 = Some tx).
  { subst s1. unfold transaction_by_id, first_where.
    cbn [transactions with_users with_transactions put_on_wire
         logTransaction createAuditLog].
    unfold Bills.is_tx. rewrite find_after_update by reflexivity.
    destruct (find_last
                (fun t => String.eqb (t_id t) (Bills.transactionId r))
                (transactions s) (Bills.pending_row r)) as [y Hy].
    { cbn. apply String.eqb_refl. }
    rewrite Hy. cbn. eauto. }
  destruct Htx as [tx Htx]. rewrite Htx in H.
  destruct (user_by_id (Bills.userId r) s1) as [u'|];
    cbn in Hbal; [|discriminate Hbal].
  injection Hbal as Hbal. injection H as <- <-.
  exists tx, (p_provider_name provider), u. rewrite Hbal.
  repeat split; assumption.
Qed.

(** Adding a number that is not negative to a balance that is not
    negative, then rounding, adds the rounded number. *)
Lemma round2_plus (b : Z) (a : Money.decimal) :
  0 <= b -> 0 <= Money.digits a ->
  Money.round2 (Money.plus b a) = b + Money.round2 a.
Proof.
  intros Hb Ha. unfold Money.round2, Money.plus.
  destruct (Nat.leb_spec (Money.scale a) 2) as [Hs|Hs];
    cbn [Money.scale Money.digits].
  - cbn. lia.
  - destruct (Nat.leb_spec (Money.scale a) 2) as [Hs'|_]; [lia|].
    set (d := Money.pow10 (Money.scale a - 2)).
    assert (Hd : 0 < d)
      by (subst d; unfold Money.pow10; apply Z.pow_pos_nonneg; lia).
    set (m := Money.digits a) in *.
    assert (Hm : Z.sgn m * ((2 * Z.abs m + d) / (2 * d)) =
                 (2 * m + d) / (2 * d)).
    { destruct (Z.eq_dec m 0) as [Hz|Hne].
      - rewrite Hz. change (Z.sgn 0) with 0. rewrite Z.mul_0_l.
        symmetry. apply Z.div_small. lia.
      - rewrite Z.sgn_pos, Z.abs_eq by lia. lia. }
    assert (Hx : Z.sgn (b * d + m) * ((2 * Z.abs (b * d + m) + d) / (2 * d)) =
                 (2 * (b * d + m) + d) / (2 * d)).
    { destruct (Z.eq_dec (b * d + m) 0) as [Hz|Hne].
      - rewrite Hz. change (Z.sgn 0) with 0. rewrite Z.mul_0_l.
        symmetry. apply Z.div_small. lia.
      - rewrite Z.sgn_pos, Z.abs_eq by nia. lia. }
    rewrite Hm, Hx.
    replace (2 * (b * d + m) + d) with (b * (2 * d) + (2 * m + d)) by lia.
    rewrite Z.div_add_l by lia. reflexivity.
Qed.

(** A row that fits its columns keeps its identifiers and its amount. *)
Lemma fit_keeps (t row : transaction_row) :
  Schema.fit t = inl row ->
  t_id row = t_id t /\ t_user_id row = t_user_id t /\
  t_amount row = t_amount t.
Proof.
  unfold Schema.fit, Schema.and_then, Schema.numeric.
  destruct (Money.fits (t_amount t)).
  2:{ destruct (Schema.varchar 50 _); intro; discriminate. }
  repeat match goal with
         | |- context [match ?x with inl _ => _ | inr _ => _ end] =>
             destruct x; try (intro; discriminate)
         end.
  intros [= <-]. repeat split.
Qed.

Lemma find_of_existsb {A} (p : A -> bool) (rows : list A) :
  existsb p rows = true -> exists x, find p rows = Some x.
Proof.
  induction rows as [|r rows IH]; cbn; [discriminate|].
  destruct (p r); [eauto|exact IH].
Qed.

(** What [INSERT INTO transactions] does when it is not refused. *)
Lemma insert_transaction_done (t : transaction_row) (s s1 : state) :
  Schema.insert_transaction t s = inl s1 ->
  exists row,
    Schema.fit t = inl row /\ 0 < t_amount t /\
    existsb (fun x => String.eqb (t_id x) (t_id t)) (transactions s) = false /\
    existsb (fun u => String.eqb (u_id u) (t_user_id t)) (users s) = true /\
    s1 = with_transactions (fun ts => (ts ++ [row])%list) s.
Proof.
  unfold Schema.insert_transaction, Schema.and_then.
  destruct (Schema.fit t) as [row|e] eqn:Hfit; [|discriminate].
  destruct (fit_keeps t row Hfit) as (Hid & Huid & Hamount).
  unfold Schema.check. rewrite Hamount, Hid, Huid.
  destruct (Z.leb_spec (t_amount t) 0); [discriminate|].
  destruct (negb (Schema.valid_status _)); [discriminate|].
  destruct (negb (Schema.valid_transaction_type _)); [discriminate|].
  destruct (existsb _ (transactions s)); [discriminate|].
  destruct (existsb _ (users s)); cbn; [|discriminate].
  intros [= <-]. exists row. repeat split; assumption.
Qed.

(** What [UPDATE users SET balance = balance + $1] does when it is not
    refused. *)
Lemma add_to_balance_done (uid : string) (a : Money.decimal)
    (s s1 : state) :
  Schema.add_to_balance uid a s = inl s1 ->
  s1 = with_users
         (update (fun u => String.eqb (u_id u) uid)
            (fun u => set_balance (Schema.new_balance a u) u)) s.
Proof.
  unfold Schema.add_to_balance.
  destruct (negb (forallb _ _)); [discriminate|].
  destruct (negb (forallb _ _)); [discriminate|].
  intros [= <-]. reflexivity.
Qed.

(** How a deposit ends: with an error and the tables [users] and
    [transactions] as they were, or recorded, for an amount that rounds to
    more than nothing, with the balance of the caller, and of no other,
    the stored sum of the old balance and the amount. *)
Lemma record_cases (r : Deposits.request) (s s' : state)
    (a : Deposits.response) :
  Deposits.record r s = (a, s') ->
  (exists st e,
     a = Deposits.Error st e /\
     users s' = users s /\ transactions s' = transactions s) \/
  (exists u,
     user_by_id (Deposits.userId r) s = Some u /\
     0 < Money.round2 (Deposits.amount r) /\
     a = Deposits.Recorded (Deposits.transactionId r) (Deposits.amount r)
           (EasyPay.default_to "BGN" (Deposits.currency r))
           (Schema.new_balance (Deposits.amount r) u) /\
     users s' =
       update (fun v => String.eqb (u_id v) (Deposits.userId r))
         (fun v => set_balance (Schema.new_balance (Deposits.amount r) v) v)
         (users s)).
Proof.
  assert (Hlog : forall tid st e x,
            users (Deposits.log r tid st e x) = users x /\
            transactions (Deposits.log r tid st e x) = transactions x).
  { intros. unfold Deposits.log. destruct (existsb _ _); split; reflexivity. }
  unfold Deposits.record, transaction, Deposits.record_callback. intros H.
  destruct (Schema.insert_transaction _ s) as [s1|e] eqn:Hins.
  2:{ injection H as <- <-. left. do 2 eexists.
      split; [reflexivity|]. rewrite (proj1 (Hlog _ _ _ _)),
        (proj2 (Hlog _ _ _ _)). split; reflexivity. }
  destruct (Schema.add_to_balance _ _ s1) as [s2|e] eqn:Hadd.
  2:{ injection H as <- <-. left. do 2 eexists.
      split; [reflexivity|]. rewrite (proj1 (Hlog _ _ _ _)),
        (proj2 (Hlog _ _ _ _)). split; reflexivity. }
  apply insert_transaction_done in Hins
    as (row & Hfit & Hpos & _ & Huser & ->).
  apply add_to_balance_done in Hadd. subst s2.
  cbn [Deposits.completed_row t_amount t_user_id] in Hpos, Huser.
  destruct (find_of_existsb _ _ Huser) as [u Hu].
  match type of H with
  | context [user_by_id _ ?st] => remember st as s3 eqn:Hs3
  end.
  assert (Husers : users s3 =
            update (fun v => String.eqb (u_id v) (Deposits.userId r))
              (fun v =>
                 set_balance (Schema.new_balance (Deposits.amount r) v) v)
              (users s)).
  { subst s3. rewrite (proj1 (Hlog _ _ _ _)). reflexivity. }
  assert (Hfind : user_by_id (Deposits.userId r) s3 =
            Some (set_balance (Schema.new_balance (Deposits.amount r) u) u)).
  { unfold user_by_id, first_where. rewrite Husers.
    rewrite find_after_update by reflexivity. rewrite Hu. cbn.
    apply find_some in Hu as [_ Hid]. rewrite Hid. reflexivity. }
  rewrite Hfind in H. injection H as <- <-.
  right. exists u. repeat split; assumption.
Qed.

(** The balance found under an id after a deposit for the rows with id
    [who]. *)
Lemma balance_after_deposit (uid who : string) (a : Money.decimal)
    (rows : list user_row) (u : user_row) :
  find (fun v => String.eqb (u_id v) uid) rows = Some u ->
  0 <= u_balance u -> 0 <= Money.digits a ->
  option_map u_balance
    (find (fun v => String.eqb (u_id v) uid)
       (update (fun v => String.eqb (u_id v) who)
          (fun v => set_balance (Schema.new_balance a v) v) rows)) =
  Some (u_balance u + (if String.eqb who uid then Money.round2 a else 0)).
Proof.
  intros Hu Hb Ha. rewrite find_after_update by reflexivity. rewrite Hu. cbn.
  apply find_some in Hu as [_ Hid]. apply String.eqb_eq in Hid.
  rewrite Hid. rewrite (String.eqb_sym uid who).
  destruct (String.eqb who uid); cbn; f_equal; [|lia].
  unfold Schema.new_balance. apply round2_plus; assumption.
Qed.

(** A number that rounds to more than nothing is more than nothing. *)
Lemma round2_positive (a : Money.decimal) :
  0 < Money.round2 a -> 0 <= Money.digits a.
Proof.
  unfold Money.round2.
  destruct (Nat.leb_spec (Money.scale a) 2).
  - assert (0 < Money.pow10 (2 - Money.scale a))
      by (apply Z.pow_pos_nonneg; lia). nia.
  - destruct (Z.sgn_spec (Money.digits a)) as [[? ->]|[[? ->]|[? ->]]];
      [lia|lia|].
    set (d := Money.pow10 (Money.scale a - 2)).
    assert (Hd : 0 < d)
      by (subst d; unfold Money.pow10; apply Z.pow_pos_nonneg; lia).
    assert (0 <= (2 * Z.abs (Money.digits a) + d) / (2 * d))
      by (apply Z.div_pos; lia).
    lia.
Qed.

(** One call moves a balance that is not negative by what the call is
    worth to the account. *)
Lemma step_balance (uid : string) (o : Ledger.op) (s : state) (b : Z) :
  Ledger.balance_of uid s = Some b -> 0 <= b ->
  Ledger.balance_of uid (snd (Ledger.step o s)) =
    Some (b + Ledger.worth uid o (fst (Ledger.step o s))).
Proof.
  unfold Ledger.balance_of, user_by_id, first_where. intros Hb Hpos.
  destruct (find _ (users s)) as [u|] eqn:Hu; [|discriminate Hb].
  injection Hb as <-.
  destruct o as [r|remote r|remote r]; cbn [Ledger.step].
  - destruct (Deposits.record r s) as [a s'] eqn:E. cbn [fst snd].
    destruct (record_cases r s s' a E)
      as [(st & e & -> & -> & _)|(v & _ & Hround & -> & ->)].
    + rewrite Hu. cbn. f_equal. lia.
    + rewrite (balance_after_deposit _ _ _ _ u Hu Hpos
                 (round2_positive _ Hround)).
      reflexivity.
  - destruct (Transfers.send remote r s) as [a s'] eqn:E. cbn [fst snd].
    destruct (send_cases remote r s s' a E)
      as [(st & e & -> & -> & _)|(tx & v & _ & _ & -> & ->)].
    + rewrite Hu. cbn. f_equal. lia.
    + rewrite (balance_after_move _ _ _ _ u Hu). reflexivity.
  - destruct (Bills.pay remote r s) as [a s'] eqn:E. cbn [fst snd].
    destruct (pay_cases remote r s s' a E)
      as [(st & e & -> & -> & _)|(tx & name & v & _ & _ & -> & ->)].
    + rewrite Hu. cbn. f_equal. lia.
    + rewrite (balance_after_move _ _ _ _ u Hu). reflexivity.
Qed.

(** One call keeps a balance that is not negative so. *)
Lemma step_keeps_balance_nonnegative (uid : string) (o : Ledger.op)
    (s : state) (b : Z) :
  Ledger.balance_of uid s = Some b -> 0 <= b ->
  0 <= b + Ledger.worth uid o (fst (Ledger.step o s)).
Proof.
  unfold Ledger.balance_of. intros Hb Hpos.
  destruct o as [r|remote r|remote r]; cbn [Ledger.step].
  - destruct (Deposits.record r s) as [a s'] eqn:E. cbn [fst].
    destruct (record_cases r s s' a E)
      as [(st & e & -> & _)|(v & _ & Hround & -> & _)]; cbn; [lia|].
    destruct (String.eqb _ uid); lia.
  - destruct (Transfers.send remote r s) as [a s'] eqn:E. cbn [fst].
    destruct (send_cases remote r s s' a E)
      as [(st & e & -> & _)|(tx & v & Hv & Hle & -> & _)]; cbn; [lia|].
    destruct (String.eqb_spec (Transfers.userId r) uid) as [He|]; [|lia].
    rewrite He in Hv. rewrite Hv in Hb. cbn in Hb. injection Hb as <-. lia.
  - destruct (Bills.pay remote r s) as [a s'] eqn:E. cbn [fst].
    destruct (pay_cases remote r s s' a E)
      as [(st & e & -> & _)|(tx & name & v & Hv & Hle & -> & _)]; cbn; [lia|].
    destruct (String.eqb_spec (Bills.userId r) uid) as [He|]; [|lia].
    rewrite He in Hv. rewrite Hv in Hb. cbn in Hb. injection Hb as <-. lia.
Qed.

(** Calls one after the other: the balance moves by what the calls are
    worth, and is never negative. *)
Lemma run_balance (uid : string) (os : list Ledger.op) :
  forall (s : state) (b : Z),
    Ledger.balance_of uid s = Some b -> 0 <= b ->
    Ledger.balance_of uid (snd (Ledger.run os s)) =
      Some (b + Ledger.total_worth uid os (fst (Ledger.run os s))) /\
    0 <= b + Ledger.total_worth uid os (fst (Ledger.run os s)).
Proof.
  induction os as [|o os IH]; intros s b Hb Hpos.
  - cbn. rewrite Hb. split; [f_equal|]; lia.
  - pose proof (step_balance uid o s b Hb Hpos) as Hstep.
    pose proof (step_keeps_balance_nonnegative uid o s b Hb Hpos) as Hnn.
    cbn [Ledger.run]. destruct (Ledger.step o s) as [a s1].
    cbn [fst snd] in Hstep, Hnn. specialize (IH s1 _ Hstep Hnn).
    destruct (Ledger.run os s1) as [rest s2]. cbn [fst snd] in *.
    destruct IH as [IH1 IH2]. rewrite IH1. cbn [Ledger.total_worth].
    split; [f_equal|]; lia.
Qed.

(** Conservation.  The calls are handled one after the other and their
    ids are new.  The amount of a transfer or of a bill payment is a whole
    number of hundredths, more than nothing, in a row that fits its
    columns; the amount of a deposit is any number, and counts as the
    store rounds it to two decimals.  After any sequence of such deposits,
    transfers and bill payments, by any callers, the balance of an account
    that was not negative is its balance before, plus its recorded
    deposits, minus its completed transfers and bill payments; a call
    that ended in an error, one that the store refused included, has
    moved nothing. *)
Theorem balance_is_conserved (uid : string) (os : list Ledger.op)
    (s : state) (b : Z) :
  Ledger.balance_of uid s = Some b -> 0 <= b ->
  Forall Ledger.row_ok os ->
  Ledger.fresh_ids os s ->
  Ledger.balance_of uid (snd (Ledger.run os s)) =
    Some (b + Ledger.total_worth uid os (fst (Ledger.run os s))).
Proof. intros Hb Hpos _ _. apply (run_balance uid os s b Hb Hpos). Qed.

(** No overdraft.  When calls run one at a time and no deposit has a
    negative amount, a balance that is not negative stays so, whatever the
    processor answers: a transfer or bill payment is completed only for an
    amount that the balance covers. *)
Theorem balance_never_negative (uid : string) (os : list Ledger.op) :
  forall (s : state) (b : Z),
    Ledger.balance_of uid s = Some b -> 0 <= b ->
    Forall Ledger.deposit_amount_ok os ->
    exists b',
      Ledger.balance_of uid (snd (Ledger.run os s)) = Some b' /\ 0 <= b'.
Proof.
  intros s b Hb Hpos _.
  destruct (run_balance uid os s b Hb Hpos) as [Hrun Hnn].
  eexists. split; [exact Hrun|exact Hnn].
Qed.

End LedgerFacts.

Section RetryFacts.
Import EasyPay.

(** [1000 + 2000 + ... + 1000 * 2^(k-1) = 1000 * (2^k - 1)] *)
Lemma backoff_total (k : nat) :
  fold_right Z.add 0 (map backoff (seq 0 k)) =
    RETRY_DELAY * (2 ^ Z.of_nat k - 1).
Proof.
  induction k as [|k IH]; [reflexivity|].
  rewrite seq_S, map_app, fold_right_app. cbn [map fold_right Nat.add].
  assert (Hshift : forall l a,
            fold_right Z.add a l = fold_right Z.add 0 l + a).
  { induction l as [|x l IHl]; intros a; cbn; [lia|]. rewrite IHl. lia. }
  rewrite Hshift, IH. unfold backoff, RETRY_DELAY.
  rewrite Nat2Z.inj_succ, Z.pow_succ_r by lia. lia.
Qed.

(** For any ceiling [retries >= 1]: when each of the first [retries]
    attempts fails, [retryRequest] makes exactly [retries] calls, waits
    1000, 2000, 4000, ... ms between them (no wait after the last), and
    throws the error of the last attempt. *)
Theorem retryRequest_exhausted (requestFn : nat -> outcome) (retries : nat) :
  (0 < retries)%nat ->
  (forall j, (j < retries)%nat -> exists e, requestFn j = Failed e) ->
  exists e,
    requestFn (retries - 1)%nat = Failed e /\
    retryRequest requestFn retries =
      {| ended := Thrown e; calls := retries;
         sleeps := map backoff (seq 0 (retries - 1)) |}.
Proof.
  intros Hpos Hfail. unfold retryRequest.
  apply retry_loop_all_fail; [lia|exact Hpos|].
  intros j Hj. apply Hfail. lia.
Qed.

(** For any ceiling: when attempt [k] (from 0, below the ceiling) is the
    first to succeed, [retryRequest] returns its answer after [k + 1]
    calls and no more, having waited [1000 * (2^k - 1)] ms in all. *)
Theorem retryRequest_first_success (requestFn : nat -> outcome)
    (retries k : nat) (d : response_data) :
  (k < retries)%nat ->
  (forall j, (j < k)%nat -> exists e, requestFn j = Failed e) ->
  requestFn k = Fulfilled d ->
  retryRequest requestFn retries =
    {| ended := Returned d; calls := S k;
       sleeps := map backoff (seq 0 k) |} /\
  fold_right Z.add 0 (sleeps (retryRequest requestFn retries)) =
    RETRY_DELAY * (2 ^ Z.of_nat k - 1).
Proof.
  intros Hk Hfail Hok.
  assert (Hrun : retryRequest requestFn retries =
                 {| ended := Returned d; calls := S k;
                    sleeps := map backoff (seq 0 k) |}).
  { unfold retryRequest.
    rewrite (retry_loop_first_success requestFn retries retries 0 k d);
      try assumption; try lia.
    - rewrite Nat.sub_0_r. reflexivity.
    - intros j Hj. apply Hfail. lia. }
  split; [exact Hrun|]. rewrite Hrun. apply backoff_total.
Qed.

Lemma retry_loop_bounds (f : nat -> outcome) (retries : nat) :
  forall rounds i,
    (i + rounds = retries)%nat ->
    let run := retry_loop f retries i rounds in
    (calls run <= retries)%nat /\
    (i + List.length (sleeps run) + Nat.min 1 rounds = calls run)%nat /\
    (ended run = ReturnedUndefined -> rounds = 0%nat).
Proof.
  induction rounds as [|rounds IH]; intros i Hsum; cbn [retry_loop].
  - cbn. repeat split; lia.
  - destruct (f i) as [d|e].
    + cbn. repeat split; try lia. discriminate.
    + destruct (Nat.eqb_spec i (retries - 1)).
      * cbn. repeat split; try lia. discriminate.
      * destruct (IH (S i) ltac:(lia)) as (Hle & Hlen & Hundef).
        cbn [ended calls sleeps List.length].
        destruct rounds as [|rounds]; [lia|].
        repeat split; try lia. intros H. apply Hundef in H. discriminate.
Qed.

(** Whatever the attempts give, [retryRequest] calls at most [retries]
    times and at least once when [retries >= 1], waits exactly once
    between two calls, and ends without a value only when [retries] is 0
    (it then calls nothing). *)
Theorem retryRequest_bounds (requestFn : nat -> outcome) (retries : nat) :
  let run := retryRequest requestFn retries in
  (calls run <= retries)%nat /\
  (Nat.min 1 retries <= calls run)%nat /\
  List.length (sleeps run) = Nat.pred (calls run) /\
  (ended run = ReturnedUndefined <-> retries = 0%nat).
Proof.
  unfold retryRequest.
  destruct (retry_loop_bounds requestFn retries retries 0 eq_refl)
    as (Hle & Hlen & Hundef).
  cbn zeta in *. split; [exact Hle|]. split; [lia|]. split; [lia|].
  split; [exact Hundef|].
  intros ->. reflexivity.
Qed.

End RetryFacts.

Section TransferFacts.
Import Db.












End TransferFacts.

Section LoginEffects.
Import Db Auth.

Variable X : Externals.
Variable F : FaceService.

Lemma grant_effects (r : login_request) (u : user_row) (s : state) :
  user_by_egn (egn r) s = Some u ->
  fst (grant X r u s) =
    LoggedIn (jwt_sign X (u_id u) (u_egn u) (now r))
      {| id := u_id u; sum_egn := u_egn u; fullName := u_full_name u;
         accountNumber := u_account_number u; balance := u_balance u |} /\
  user_by_egn (egn r) (snd (grant X r u s)) =
    Some (set_last_login_at (now r) (set_failed_login_attempts 0 u)) /\
  users (snd (grant X r u s)) =
    update (has_id (u_id u))
      (fun v => set_last_login_at (now r) (set_failed_login_attempts 0 v))
      (users s) /\
  sessions (snd (grant X r u s)) = (sessions s ++ [AuthEffects.session_of X r u])%list /\
  transactions (snd (grant X r u s)) = transactions s.
Proof.
  intros Hu. split; [reflexivity|]. split; [|repeat split].
  unfold grant, user_by_egn, first_where in *.
  cbn [snd users logAuthAttempt createAuditLog Session.createSession
       with_sessions reset_failures with_users].
  rewrite find_after_update by reflexivity. rewrite Hu. cbn.
  unfold has_id. rewrite String.eqb_refl. reflexivity.
Qed.

(** A login that passes the gate: the token is the one signed for the
    user at the time of the call, the summary shows the balance, the
    counter of failed attempts is back to 0 and the time of the login is
    recorded, and one session is added, with the hash of the token and an
    expiry one hour later; no transaction row is touched. *)
Theorem verify_grant_effects (r : login_request) (s : state) :
  gate X F r s ->
  exists u,
    user_by_egn (egn r) s = Some u /\
    fst (verify X F r s) =
      LoggedIn (jwt_sign X (u_id u) (u_egn u) (now r))
        {| id := u_id u; sum_egn := u_egn u; fullName := u_full_name u;
           accountNumber := u_account_number u; balance := u_balance u |} /\
    user_by_egn (egn r) (snd (verify X F r s)) =
      Some (set_last_login_at (now r) (set_failed_login_attempts 0 u)) /\
    sessions (snd (verify X F r s)) = (sessions s ++ [AuthEffects.session_of X r u])%list /\
    transactions (snd (verify X F r s)) = transactions s.
Proof.
  intros (u & Hu & Hpin & Hface & Hactive & Hopen). exists u.
  split; [exact Hu|].
  destruct (grant_effects r u s Hu) as (Hreply & Hrow & _ & Hsess & Htx).
  assert (Hsame : verify X F r s = grant X r u s).
  { unfold verify. rewrite Hu, Hactive, Hpin. cbn [negb].
    destruct (Z.leb_spec LOCK_THRESHOLD (u_failed_login_attempts u)); [lia|].
    destruct Hface as [Himage|[[c Hc]|Hdown]].
    - rewrite Himage. reflexivity.
    - rewrite Hc. destruct (truthy (face_image r)); reflexivity.
    - rewrite Hdown. destruct (truthy (face_image r)); reflexivity. }
  rewrite Hsame. repeat split; assumption.
Qed.

(** An attempt with a wrong PIN at an active account whose counter is
    below the threshold: 401 "Invalid credentials"; the counter grows by
    exactly one and nothing else of the row changes; no session is
    created and no transaction row is touched. *)
Theorem verify_wrong_pin_effects (r : login_request) (s : state)
    (u : user_row) :
  user_by_egn (egn r) s = Some u ->
  u_is_active u = true ->
  u_failed_login_attempts u < LOCK_THRESHOLD ->
  bcrypt_compare X (pin r) (u_pin_hash u) = false ->
  fst (verify X F r s) = Refused 401 "Invalid credentials" None /\
  user_by_egn (egn r) (snd (verify X F r s)) =
    Some (set_failed_login_attempts (u_failed_login_attempts u + 1) u) /\
  sessions (snd (verify X F r s)) = sessions s /\
  transactions (snd (verify X F r s)) = transactions s.
Proof.
  intros Hu Hactive Hopen Hpin. unfold verify. rewrite Hu, Hactive, Hpin.
  cbn [negb].
  destruct (Z.leb_spec LOCK_THRESHOLD (u_failed_login_attempts u)); [lia|].
  cbn [fst snd]. split; [reflexivity|]. split; [|split; reflexivity].
  apply (user_by_egn_count_failure (egn r) s u Hu).
Qed.

(** An unknown identity number and a wrong PIN get the same answer, so
    the answer does not tell whether the number is registered. *)
Theorem verify_does_not_tell_unknown_from_wrong_pin
    (r r' : login_request) (s : state) (u : user_row) :
  user_by_egn (egn r) s = None ->
  user_by_egn (egn r') s = Some u ->
  u_is_active u = true ->
  u_failed_login_attempts u < LOCK_THRESHOLD ->
  bcrypt_compare X (pin r') (u_pin_hash u) = false ->
  fst (verify X F r s) = fst (verify X F r' s).
Proof.
  intros Hnone Hu Hactive Hopen Hpin.
  unfold verify. rewrite Hnone, Hu, Hactive, Hpin. cbn [negb].
  destruct (Z.leb_spec LOCK_THRESHOLD (u_failed_login_attempts u)); [lia|].
  reflexivity.
Qed.

End LoginEffects.

Section SessionLifecycle.
Import Db.

Variable X : Externals.
Variable F : FaceService.

Lemma find_by_id_of_member (rows : list user_row) (u : user_row) :
  NoDup (map u_id rows) -> In u rows ->
  find (fun v => String.eqb (u_id v) (u_id u)) rows = Some u.
Proof.
  induction rows as [|r rows IH]; cbn; intros Hnd Hin; [contradiction|].
  inversion Hnd as [|? ? Hfresh Hnd']; subst.
  destruct Hin as [->|Hin]; [rewrite String.eqb_refl; reflexivity|].
  destruct (String.eqb_spec (u_id r) (u_id u)) as [Heq|_]; [|auto].
  exfalso. apply Hfresh. rewrite Heq. apply in_map. exact Hin.
Qed.

Lemma newest_last (rows : list session_row) (x : session_row) :
  exists y, Session.newest (rows ++ [x]) = Some y.
Proof.
  induction rows as [|r rows [y Hy]]; cbn; [eauto|].
  rewrite Hy. destruct (s_created_at r <? s_created_at y); eauto.
Qed.

Lemma filter_none {A} (p : A -> bool) (rows : list A) :
  Forall (fun x => p x = false) rows -> filter p rows = [].
Proof.
  induction 1 as [|x rows Hx _ IH]; cbn; [reflexivity|].
  rewrite Hx. exact IH.
Qed.

Lemma verify_is_grant (r : Auth.login_request) (s : state) :
  Auth.gate X F r s ->
  exists u,
    user_by_egn (Auth.egn r) s = Some u /\ u_is_active u = true /\
    Auth.verify X F r s = Auth.grant X r u s.
Proof.
  intros (u & Hu & Hpin & Hface & Hactive & Hopen). exists u.
  split; [exact Hu|]. split; [exact Hactive|].
  unfold Auth.verify. rewrite Hu, Hactive, Hpin. cbn [negb].
  destruct (Z.leb_spec Auth.LOCK_THRESHOLD (u_failed_login_attempts u));
    [lia|].
  destruct Hface as [Himage|[[c Hc]|Hdown]].
  - rewrite Himage. reflexivity.
  - rewrite Hc. destruct (truthy (Auth.face_image r)); reflexivity.
  - rewrite Hdown. destruct (truthy (Auth.face_image r)); reflexivity.
Qed.

(** Round trip of a login.  The token that a successful login returns is
    accepted by [verifyToken] for the hour that follows, as long as the
    JWT library verifies what it signed, and the request goes on as the
    user who logged in. *)
Theorem login_then_verifyToken (r : Auth.login_request) (s : state) (t : Z) :
  Auth.gate X F r s ->
  NoDup (map u_id (users s)) ->
  (forall u, user_by_egn (Auth.egn r) s = Some u ->
     jwt_verify X (jwt_sign X (u_id u) (u_egn u) (Auth.now r)) t =
       Decoded (u_id u) (u_egn u)) ->
  t < Auth.now r + Session.hour ->
  exists u token,
    user_by_egn (Auth.egn r) s = Some u /\
    Auth.issues_token (fst (Auth.verify X F r s)) = true /\
    token = jwt_sign X (u_id u) (u_egn u) (Auth.now r) /\
    fst (Session.verifyToken X (Some ("Bearer " ++ token)) t
           (snd (Auth.verify X F r s))) =
      Session.Next {| Session.id := u_id u; Session.egn := u_egn u;
                      Session.fullName := u_full_name u |}.
Proof.
  intros Hgate Hnd Hjwt Hlive.
  destruct (verify_is_grant r s Hgate) as (u & Hu & Hactive & Hsame).
  exists u, (jwt_sign X (u_id u) (u_egn u) (Auth.now r)).
  split; [exact Hu|]. rewrite Hsame. split; [reflexivity|].
  split; [reflexivity|].
  destruct (grant_effects X r u s Hu) as (_ & _ & Husers & Hsess & _).
  unfold Session.verifyToken.
  rewrite bearer_of_header, (Hjwt u Hu).
  unfold user_by_id, first_where. rewrite Husers, Hsess.
  unfold Auth.has_id. rewrite find_after_update by reflexivity.
  unfold user_by_egn, first_where in Hu.
  rewrite (find_by_id_of_member (users s) u Hnd
             (proj1 (find_some _ _ Hu))).
  cbn [option_map]. rewrite String.eqb_refl.
  rewrite filter_app. cbn [filter].
  replace (Session.live_for (u_id u) t (AuthEffects.session_of X r u))
    with true.
  2:{ unfold Session.live_for. cbn. rewrite String.eqb_refl.
      symmetry. apply Z.ltb_lt. exact Hlive. }
  destruct (newest_last
              (filter (Session.live_for (u_id u) t) (sessions s))
              (AuthEffects.session_of X r u)) as [y Hy].
  rewrite Hy. cbn. rewrite Hactive. reflexivity.
Qed.

(** Logout revokes.  After a logout with a token of a user, no token of
    that user is accepted, valid JWT or not, until the user logs in
    again. *)
Theorem logout_then_verifyToken (tok tok' : string) (t0 t : Z)
    (uid e e' : string) (s : state) :
  jwt_verify X tok t0 = Decoded uid e ->
  jwt_verify X tok' t = Decoded uid e' ->
  fst (Session.verifyToken X (Some ("Bearer " ++ tok')) t
         (snd (Auth.logout X (Some ("Bearer " ++ tok)) t0 s))) =
    Session.Rejected 401 "Session expired or invalid".
Proof.
  intros Hout Hin. unfold Auth.logout, Session.verifyToken.
  rewrite !bearer_of_header, Hout, Hin. cbn [snd].
  unfold Session.logout. cbn [sessions with_sessions].
  rewrite filter_none.
  - cbn [Session.newest].
    match goal with
    | |- context [user_by_id uid ?st] => destruct (user_by_id uid st)
    end; reflexivity.
  - apply Forall_forall. intros row Hrow.
    apply filter_In in Hrow as [_ Hother].
    unfold Session.live_for.
    destruct (String.eqb (s_user_id row) uid); [discriminate|reflexivity].
Qed.

(** A token is refused, and the store is left as it is, when the user
    has no session that expires after the time of the request; a session
    that expires at that very instant does not count. *)
Theorem verifyToken_needs_live_session (tok : string) (t : Z)
    (uid e : string) (s : state) :
  jwt_verify X tok t = Decoded uid e ->
  Forall (fun row => s_user_id row = uid -> s_expires_at row <= t)
    (sessions s) ->
  Session.verifyToken X (Some ("Bearer " ++ tok)) t s =
    (Session.Rejected 401 "Session expired or invalid", s).
Proof.
  intros Hjwt Hall. unfold Session.verifyToken.
  rewrite bearer_of_header, Hjwt. rewrite filter_none.
  - cbn [Session.newest]. destruct (user_by_id uid s); reflexivity.
  - revert Hall. apply Forall_impl. intros row Hrow.
    unfold Session.live_for.
    destruct (String.eqb_spec (s_user_id row) uid) as [Hid|]; [|reflexivity].
    cbn. apply Z.ltb_ge. auto.
Qed.

Lemma verifyToken_keeps (h : option string) (t : Z) (s : state) :
  let out := Session.verifyToken X h t s in
  users (snd out) = users s /\
  transactions (snd out) = transactions s /\
  audit_logs (snd out) = audit_logs s /\
  wire (snd out) = wire s /\
  map AuthEffects.fixed_part (sessions (snd out)) =
    map AuthEffects.fixed_part (sessions s) /\
  (forall st e, fst out = Session.Rejected st e -> snd out = s).
Proof.
  assert (Hsame : forall a : Session.response,
            users (snd (a, s)) = users s /\
            transactions (snd (a, s)) = transactions s /\
            audit_logs (snd (a, s)) = audit_logs s /\
            wire (snd (a, s)) = wire s /\
            map AuthEffects.fixed_part (sessions (snd (a, s))) =
              map AuthEffects.fixed_part (sessions s) /\
            (forall st e, fst (a, s) = Session.Rejected st e ->
                          snd (a, s) = s))
    by (intros a; cbn; repeat split).
  unfold Session.verifyToken.
  destruct (Session.bearer h) as [token|]; [|apply Hsame].
  destruct (jwt_verify X token t) as [uid e| |]; try apply Hsame.
  destruct (user_by_id uid s) as [u|]; [|apply Hsame].
  destruct (Session.newest _) as [session|]; [|apply Hsame].
  destruct (u_is_active u); cbn [negb]; [|apply Hsame].
  cbn [fst snd users transactions audit_logs wire sessions with_sessions].
  do 4 (split; [reflexivity|]). split; [|discriminate].
  unfold update. rewrite map_map. apply map_ext.
  intros row. destruct (String.eqb _ _); reflexivity.
Qed.

(** [verifyToken] writes nothing but the last-activity time of sessions:
    the other tables, the other columns of the sessions and their number
    and order stay, and a refusal leaves the whole store as it is. *)
Theorem verifyToken_frame (h : option string) (t : Z) (s : state) :
  let out := Session.verifyToken X h t s in
  users (snd out) = users s /\
  transactions (snd out) = transactions s /\
  audit_logs (snd out) = audit_logs s /\
  wire (snd out) = wire s /\
  map AuthEffects.fixed_part (sessions (snd out)) =
    map AuthEffects.fixed_part (sessions s) /\
  (forall st e, fst out = Session.Rejected st e -> snd out = s).
Proof. exact (verifyToken_keeps h t s). Qed.

End SessionLifecycle.

Section RegistrationFacts.
Import Db Auth.

Variable X : Externals.
Variable F : FaceService.

Lemma find_none_appended {A} (p : A -> bool) (rows : list A) (x : A) :
  find p rows = None -> p x = true -> find p (rows ++ [x]) = Some x.
Proof.
  intros Hrows Hx. induction rows as [|r rows IH]; cbn in *.
  - rewrite Hx. reflexivity.
  - destruct (p r); [discriminate|auto].
Qed.

Lemma register_cases (r : register_request) (s : state) :
  (fst (register X F r s) = Sent 201 true "User registered successfully" /\
   users (snd (register X F r s)) =
     (users s ++ [AuthEffects.user_of X r])%list /\
   user_by_egn (reg_egn r) s = None) \/
  (exists st msg,
     fst (register X F r s) = Sent st false msg /\
     (st = 400 \/ st = 500) /\
     users (snd (register X F r s)) = users s).
Proof.
  unfold register.
  destruct (existsb _ (users s)) eqn:Hdup.
  { right. do 2 eexists. repeat split. left. reflexivity. }
  assert (Hnone : user_by_egn (reg_egn r) s = None).
  { unfold user_by_egn, first_where. apply find_nothing.
    destruct (existsb (fun u => String.eqb (u_egn u) (reg_egn r)) (users s))
      eqn:E; [|reflexivity].
    apply existsb_exists in E as (u & Hin & Hu).
    assert (existsb
              (fun u => String.eqb (u_egn u) (reg_egn r)
                        || String.eqb (u_account_number u)
                             (reg_account_number r)) (users s) = true)
      as Hyes; [|congruence].
    apply existsb_exists. exists u. rewrite Hu. auto. }
  unfold transaction, register_callback, insert_user. cbn [u_id].
  destruct (existsb (has_id (reg_userId r)) (users s)).
  { right. do 2 eexists. repeat split. right. reflexivity. }
  destruct (truthy (reg_face_image r)); [destruct (enrollFace F _ _)|].
  - left. repeat split. exact Hnone.
  - right. do 2 eexists. repeat split. right. reflexivity.
  - left. repeat split. exact Hnone.
Qed.

(** How a registration ends: with a 201 and one new row at the end of
    [users] (active, balance 0, counter 0, the PIN stored as its bcrypt
    hash) under an identity number that no row had; or with a 400 or a 500
    and the table [users] as it was, in particular when the enrolment of
    the face fails after the row was inserted. *)
Theorem register_outcomes (r : register_request) (s : state) :
  (fst (register X F r s) = Sent 201 true "User registered successfully" /\
   users (snd (register X F r s)) =
     (users s ++ [AuthEffects.user_of X r])%list /\
   user_by_egn (reg_egn r) s = None) \/
  (exists st msg,
     fst (register X F r s) = Sent st false msg /\
     (st = 400 \/ st = 500) /\
     users (snd (register X F r s)) = users s).
Proof. exact (register_cases r s). Qed.

(** Round trip of a registration.  After a registration answered 201, a
    login with the same identity number and PIN and no face image gets a
    token for the new user, whose balance is 0, as long as bcrypt accepts
    the PIN against the hash it made of it. *)
Theorem register_then_login (rr : register_request) (r : login_request)
    (s : state) (msg : string) :
  fst (register X F rr s) = Sent 201 true msg ->
  bcrypt_compare X (reg_pin rr) (bcrypt_hash X (reg_pin rr) (reg_salt rr))
    = true ->
  egn r = reg_egn rr -> pin r = reg_pin rr ->
  truthy (face_image r) = false ->
  fst (verify X F r (snd (register X F rr s))) =
    LoggedIn (jwt_sign X (reg_userId rr) (reg_egn rr) (now r))
      {| id := reg_userId rr; sum_egn := reg_egn rr;
         fullName := reg_full_name rr;
         accountNumber := reg_account_number rr; balance := 0 |}.
Proof.
  intros Hok Hbcrypt Hegn Hpin Himage.
  destruct (register_cases rr s)
    as [(_ & Husers & Hnone)|(st & m & Hreply & _)]; [|congruence].
  unfold verify, user_by_egn, first_where in *. rewrite Husers, Hegn.
  rewrite (find_none_appended _ _ _ Hnone)
    by (cbn; apply String.eqb_refl).
  cbn [AuthEffects.user_of u_is_active u_failed_login_attempts u_pin_hash
       negb].
  rewrite Hpin, Hbcrypt, Himage. reflexivity.
Qed.

End RegistrationFacts.

Section AdminFacts.
Import Db.

Variable X : Externals.
Variable F : FaceService.

Lemma verifyToken_users (h : option string) (t : Z) (s : state) :
  users (snd (Session.verifyToken X h t s)) = users s.
Proof. apply (verifyToken_keeps X h t s). Qed.

(** Unlocking.  Any caller with a live session passes [isAdmin]; after
    such a caller has activated an account, locked or deactivated as it
    may have been, a login with the right PIN and no face image gets a
    token: the activation is what the permanent lock yields to. *)
Theorem activate_then_login (h : option string) (t : Z)
    (caller : Session.user_context) (r : Auth.login_request) (s : state)
    (target : user_row) :
  fst (Session.verifyToken X h t s) = Session.Next caller ->
  user_by_egn (Auth.egn r) s = Some target ->
  bcrypt_compare X (Auth.pin r) (u_pin_hash target) = true ->
  truthy (Auth.face_image r) = false ->
  fst (Admin.activate X h t (u_id target) s) =
    Auth.Sent 200 true "User activated successfully" /\
  Auth.issues_token
    (fst (Auth.verify X F r (snd (Admin.activate X h t (u_id target) s))))
    = true.
Proof.
  intros Hcaller Hu Hpin Himage. unfold Admin.activate.
  pose proof (verifyToken_users h t s) as Husers.
  destruct (Session.verifyToken X h t s) as [a s1]. cbn [fst snd] in *.
  subst a. cbn [fst snd]. split; [reflexivity|].
  unfold Auth.verify, user_by_egn, first_where in *.
  cbn [users Admin.logAdminAction createAuditLog with_users].
  rewrite Husers. unfold Admin.has_id.
  rewrite find_after_update by reflexivity. rewrite Hu.
  cbn [option_map]. rewrite String.eqb_refl.
  cbn [Admin.set_active_unlocked u_is_active u_failed_login_attempts
       u_pin_hash negb].
  rewrite Hpin, Himage. reflexivity.
Qed.

(** Deactivating.  After any caller with a live session has deactivated
    an account, every login for it is answered 403 "Account is
    deactivated", right PIN or not. *)
Theorem deactivate_then_login (h : option string) (t : Z)
    (caller : Session.user_context) (r : Auth.login_request) (s : state)
    (target : user_row) :
  fst (Session.verifyToken X h t s) = Session.Next caller ->
  user_by_egn (Auth.egn r) s = Some target ->
  fst (Auth.verify X F r (snd (Admin.deactivate X h t (u_id target) s))) =
    Auth.Refused 403 "Account is deactivated" None.
Proof.
  intros Hcaller Hu. unfold Admin.deactivate.
  pose proof (verifyToken_users h t s) as Husers.
  destruct (Session.verifyToken X h t s) as [a s1]. cbn [fst snd] in *.
  subst a. cbn [fst snd].
  unfold Auth.verify, user_by_egn, first_where in *.
  cbn [users Admin.logAdminAction createAuditLog with_users].
  rewrite Husers. unfold Admin.has_id.
  rewrite find_after_update by reflexivity. rewrite Hu.
  cbn [option_map]. rewrite String.eqb_refl. reflexivity.
Qed.

End AdminFacts.

Section StatusFacts.
Import Db Status.

Lemma getCache_setCache {V} (k : string) (v : V) (ttl now t : Z)
    (c : Redis.cache V) :
  t < now + ttl * 1000 ->
  Redis.getCache k t (Redis.setCache k v ttl now c) = Some v.
Proof.
  intros Hlive. unfold Redis.getCache, Redis.setCache. cbn.
  rewrite String.eqb_refl. cbn.
  destruct (Z.ltb_spec t (now + ttl * 1000)); [reflexivity|lia].
Qed.

(** A [PENDING] answer is handed on but never cached: the cache after
    the call is the cache before it. *)
Theorem pending_status_is_not_cached (remote : EasyPay.processor) (now : Z)
    (id : string) (c : Redis.cache status_object) (o : status_object) :
  outcome (checkTransactionStatus remote now id c) = inl o ->
  status_of o = "PENDING" ->
  cache_after (checkTransactionStatus remote now id c) = c.
Proof.
  unfold checkTransactionStatus. intros Hout Hpending.
  assert (Hfetch : outcome (fetch remote now id c) = inl o ->
                   cache_after (fetch remote now id c) = c).
  { unfold fetch. destruct (EasyPay.ended _) as [d| |]; cbn;
      try discriminate.
    intros [= <-]. unfold status_of in *. cbn in *. rewrite Hpending.
    reflexivity. }
  destruct (Redis.getCache _ now c) as [cached|]; [|auto].
  destruct (negb (is_pending (status_of cached))); [reflexivity|auto].
Qed.

(** A status that is not [PENDING], once fetched, is served from the
    cache for the next five minutes: a second call within that time
    returns the same object without a request to the processor, whatever
    the processor would answer by then. *)
Theorem terminal_status_is_served_from_cache
    (remote remote' : EasyPay.processor) (now t : Z) (id : string)
    (c : Redis.cache status_object) (o : status_object) :
  Redis.getCache ("transaction:" ++ id) now c = None ->
  outcome (checkTransactionStatus remote now id c) = inl o ->
  status_of o <> "PENDING" ->
  t < now + 300000 ->
  let c' := cache_after (checkTransactionStatus remote now id c) in
  outcome (checkTransactionStatus remote' t id c') = inl o /\
  sent (checkTransactionStatus remote' t id c') = [] /\
  cache_after (checkTransactionStatus remote' t id c') = c'.
Proof.
  intros Hmiss Hout Hterminal Hlive.
  assert (Hnp : is_pending (status_of o) = false).
  { unfold is_pending. apply String.eqb_neq. exact Hterminal. }
  unfold checkTransactionStatus in Hout |- *. rewrite Hmiss in *.
  unfold fetch in Hout |- *.
  destruct (EasyPay.ended _) as [d| |]; cbn in Hout; try discriminate.
  injection Hout as <-. cbn [cache_after].
  cbn zeta. rewrite Hnp. cbn [negb].
  rewrite getCache_setCache by lia.
  rewrite Hnp. cbn. repeat split.
Qed.

Lemma filter_others_after_update {A} (cond : A -> bool) (set : A -> A)
    (rows : list A) :
  (forall r, cond (set r) = cond r) ->
  filter (fun r => negb (cond r)) (update cond set rows) =
  filter (fun r => negb (cond r)) rows.
Proof.
  intros Hcond. unfold update.
  induction rows as [|r rows IH]; [reflexivity|].
  cbn [map filter]. destruct (cond r) eqn:E.
  - rewrite Hcond, E. exact IH.
  - rewrite E. cbn. rewrite IH. reflexivity.
Qed.

(** A status poll never moves money: whatever the processor reports,
    [FAILED] included, the table of users, so every balance, is as
    before; no transaction row is added or removed; and of the rows only
    the status and the completion time can change, and only on rows with
    the polled id. *)
Theorem status_poll_never_moves_money (remote : EasyPay.processor) (now : Z)
    (tid uid : string) (c : Redis.cache status_object) (s : state) :
  let out := status remote now tid uid c s in
  users (store out) = users s /\
  sessions (store out) = sessions s /\
  map fixed_part (transactions (store out)) =
    map fixed_part (transactions s) /\
  filter (fun t => negb (is_tx tid t)) (transactions (store out)) =
    filter (fun t => negb (is_tx tid t)) (transactions s).
Proof.
  assert (Hsame : forall a k sent,
            let out := {| reply := a; store := put_on_wire sent s;
                          cached := k |} in
            users (store out) = users s /\
            sessions (store out) = sessions s /\
            map fixed_part (transactions (store out)) =
              map fixed_part (transactions s) /\
            filter (fun t => negb (is_tx tid t)) (transactions (store out)) =
              filter (fun t => negb (is_tx tid t)) (transactions s))
    by (intros; cbn; repeat split).
  unfold status.
  destruct (negb (Uuid.well_formed tid && Uuid.well_formed uid));
    [cbn; repeat split|].
  destruct (first_where _ (transactions s)) as [tx|];
    [|cbn; repeat split].
  destruct (is_pending (t_status tx) && truthy _); [|cbn; repeat split].
  destruct (outcome _) as [o|e]; [|apply Hsame].
  destruct (negb (String.eqb _ _)); [|apply Hsame].
  destruct (Schema.new_status _) as [kept|e]; [|apply Hsame].
  cbn [store users sessions transactions with_transactions put_on_wire].
  split; [reflexivity|]. split; [reflexivity|]. split.
  - unfold update. rewrite map_map. apply map_ext.
    intros t. destruct (is_tx tid t); reflexivity.
  - apply filter_others_after_update. reflexivity.
Qed.

(** The status of a transaction is shown to its owner only.  The id in
    the path is any text.  When it is no UUID the store cannot read it and
    the answer is a 500.  When it is one, and no row has both that id and
    the caller as its user, the answer is 404, also when the id is that of
    another user's transaction.  In both cases nothing is sent to the
    processor, and the store and the cache are as before. *)
Theorem status_of_foreign_transaction (remote : EasyPay.processor) (now : Z)
    (tid uid : string) (c : Redis.cache status_object) (s : state) :
  Uuid.well_formed uid = true ->
  Forall (fun t => Uuid.same (t_id t) tid = true ->
                   Uuid.same (t_user_id t) uid = false) (transactions s) ->
  status remote now tid uid c s =
    {| reply :=
         if Uuid.well_formed tid
         then NotFound 404 "Transaction not found"
         else NotFound 500 "Failed to check transfer status";
       store := s; cached := c |}.
Proof.
  intros Huid Hforeign. unfold status, first_where. rewrite Huid.
  destruct (Uuid.well_formed tid); [|reflexivity]. cbn [andb negb].
  rewrite find_nothing; [reflexivity|].
  induction Hforeign as [|t ts Ht _ IH]; [reflexivity|].
  cbn. rewrite IH, orb_false_r. unfold owned.
  destruct (Uuid.same (t_id t) tid); [|reflexivity].
  cbn. apply Ht. reflexivity.
Qed.

End StatusFacts.

Section TransactionsFacts.
Import Db Transactions.

(** A transaction is shown to its owner only.  The id in the path is
    any text, read as a UUID.  The row returned is a row of the store
    with the id asked for and the caller as its user; the answer is 500
    exactly when the id or the user id is no UUID, and 404 exactly when
    both are and no row has both. *)
Theorem get_shows_own_transaction_only (id uid : string) (s : state) :
  match get id uid s with
  | Found tx _ =>
      In tx (transactions s) /\
      Uuid.same (t_id tx) id = true /\ Uuid.same (t_user_id tx) uid = true
  | Error status _ =>
      (status = 500 /\
       (Uuid.well_formed id = false \/ Uuid.well_formed uid = false)) \/
      (status = 404 /\
       Uuid.well_formed id = true /\ Uuid.well_formed uid = true /\
       Forall (fun t => Uuid.same (t_id t) id = true ->
                        Uuid.same (t_user_id t) uid = false)
         (transactions s))
  end.
Proof.
  unfold get, first_where.
  destruct (Uuid.well_formed id) eqn:Hid; cbn [andb negb];
    [|left; split; [reflexivity|left; reflexivity]].
  destruct (Uuid.well_formed uid) eqn:Huid; cbn [andb negb];
    [|left; split; [reflexivity|right; reflexivity]].
  destruct (find _ (transactions s)) as [tx|] eqn:Hfind.
  - apply find_some in Hfind as [Hin Hown].
    unfold Status.owned in Hown. apply andb_prop in Hown as [Ht Hu]. auto.
  - right. repeat split. apply Forall_forall. intros t Hin Ht.
    pose proof (find_none _ _ Hfind t Hin) as Hnot.
    unfold Status.owned in Hnot. rewrite Ht in Hnot. exact Hnot.
Qed.

Lemma insert_desc_In (t x : transaction_row) (l : list transaction_row) :
  In x (insert_desc t l) <-> x = t \/ In x l.
Proof.
  induction l as [|y l IH]; cbn; [intuition|].
  destruct (t_created_at y <? t_created_at t); cbn; [intuition|].
  rewrite IH. intuition.
Qed.

Lemma insert_desc_sorted (t : transaction_row) (l : list transaction_row) :
  StronglySorted newer_first l -> StronglySorted newer_first (insert_desc t l).
Proof.
  induction 1 as [|y l Hs IH Hy]; cbn; [repeat constructor|].
  destruct (Z.ltb_spec (t_created_at y) (t_created_at t)).
  - constructor; [constructor; assumption|].
    constructor; [unfold newer_first; lia|].
    revert Hy. apply Forall_impl. unfold newer_first. intros; lia.
  - constructor; [exact IH|]. apply Forall_forall. intros x Hx.
    apply insert_desc_In in Hx as [->|Hx]; [unfold newer_first; lia|].
    revert x Hx. apply Forall_forall. exact Hy.
Qed.

Lemma order_desc_In (x : transaction_row) (l : list transaction_row) :
  In x (order_desc l) <-> In x l.
Proof.
  unfold order_desc. induction l as [|y l IH]; cbn; [reflexivity|].
  rewrite insert_desc_In, IH. intuition.
Qed.

Lemma order_desc_sorted (l : list transaction_row) :
  StronglySorted newer_first (order_desc l).
Proof.
  unfold order_desc. induction l as [|y l IH]; cbn; [constructor|].
  apply insert_desc_sorted. exact IH.
Qed.

Lemma In_firstn {A} (n : nat) (l : list A) (x : A) :
  In x (firstn n l) -> In x l.
Proof.
  revert l; induction n as [|n IH]; intros [|y l]; cbn; intuition.
Qed.

Lemma In_skipn {A} (n : nat) (l : list A) (x : A) :
  In x (skipn n l) -> In x l.
Proof.
  revert l; induction n as [|n IH]; intros [|y l]; cbn; intuition.
Qed.

Lemma sorted_skipn {A} (R : A -> A -> Prop) (n : nat) (l : list A) :
  StronglySorted R l -> StronglySorted R (skipn n l).
Proof.
  revert l; induction n as [|n IH]; intros l Hs; [exact Hs|].
  destruct Hs; cbn; [constructor|auto].
Qed.

Lemma sorted_firstn {A} (R : A -> A -> Prop) (n : nat) (l : list A) :
  StronglySorted R l -> StronglySorted R (firstn n l).
Proof.
  revert l; induction n as [|n IH]; intros l Hs; [constructor|].
  destruct Hs as [|y l Hs Hy]; cbn; [constructor|].
  constructor; [auto|]. apply Forall_forall. intros x Hx.
  apply In_firstn in Hx. revert x Hx. apply Forall_forall. exact Hy.
Qed.

(** The history of a caller lists rows of the store that belong to the
    caller (and have the type asked for, if one is), the newest first, and
    at most [limit] of them, 20 when no limit is given. *)
Theorem history_lists_own_rows (upper : string -> string) (uid : string)
    (limit offset : option Z) (type : option string) (s : state)
    (rows : list (transaction_row * option string)) :
  history upper uid limit offset type s = Listed rows ->
  Forall (fun t => In t (transactions s) /\ t_user_id t = uid /\
                   (truthy type = true ->
                    t_transaction_type t = upper (EasyPay.default_to "" type)))
    (map fst rows) /\
  StronglySorted newer_first (map fst rows) /\
  (List.length rows <= Z.to_nat (number_or limit 20))%nat.
Proof.
  unfold history. destruct (_ || _); [discriminate|].
  intros [= <-]. rewrite map_map. cbn [fst]. rewrite map_id.
  split; [|split].
  - apply Forall_forall. intros t Ht.
    apply In_firstn, In_skipn, order_desc_In, filter_In in Ht
      as [Hin Hsel].
    unfold selected in Hsel. apply andb_prop in Hsel as [Hu Htype].
    apply String.eqb_eq in Hu. repeat split; try assumption.
    intros Htruthy. rewrite Htruthy in Htype.
    apply String.eqb_eq. exact Htype.
  - apply sorted_firstn, sorted_skipn, order_desc_sorted.
  - rewrite length_map. apply firstn_le_length.
Qed.

End TransactionsFacts.

Section IbanFacts.
Import Iban.

Lemma parseInt_snoc (s : string) (c : ascii) :
  parseInt (s ++ String c EmptyString) =
    parseInt s * 10 + Validation.parseInt_digit c.
Proof.
  unfold parseInt.
  assert (H : forall s n,
            fold_left (fun n c => n * 10 + Validation.parseInt_digit c)
              (list_ascii_of_string (s ++ String c EmptyString)) n =
            fold_left (fun n c => n * 10 + Validation.parseInt_digit c)
              (list_ascii_of_string s) n * 10 + Validation.parseInt_digit c).
  { clear s. induction s as [|a s IH]; intros n; cbn; [reflexivity|].
    apply IH. }
  apply H.
Qed.

Lemma parseInt_toString (n : Z) :
  0 <= n < 97 -> parseInt (toString n) = n.
Proof.
  intros Hn. rewrite <- (Z2Nat.id n) by lia.
  assert (Hk : (Z.to_nat n < 97)%nat) by lia.
  generalize dependent (Z.to_nat n). clear n Hn. intros k Hk.
  do 97 (destruct k as [|k]; [vm_compute; reflexivity|]). lia.
Qed.

Lemma length_toString (n : Z) :
  0 <= n < 97 -> (String.length (toString n) <= 2)%nat.
Proof.
  intros Hn. apply Nat.leb_le. rewrite <- (Z2Nat.id n) by lia.
  assert (Hk : (Z.to_nat n < 97)%nat) by lia.
  generalize dependent (Z.to_nat n). clear n Hn. intros k Hk.
  do 97 (destruct k as [|k]; [vm_compute; reflexivity|]). lia.
Qed.

Lemma length_snoc (s : string) (c : ascii) :
  String.length (s ++ String c EmptyString) = S (String.length s).
Proof. induction s as [|a s IH]; cbn; [reflexivity|rewrite IH; reflexivity]. Qed.

(** One round keeps the value of the remainder, read with the digits
    still to come, modulo 97, and keeps the remainder shorter than nine
    characters. *)
Lemma round_spec (r : string) (c : ascii) :
  (String.length r <= 8)%nat ->
  parseInt (round r c) mod 97 =
    (parseInt r * 10 + Validation.parseInt_digit c) mod 97 /\
  (String.length (round r c) <= 8)%nat.
Proof.
  intros Hlen. unfold round. rewrite length_snoc.
  destruct (Nat.leb_spec 9 (S (String.length r))).
  - pose proof (Z.mod_pos_bound (parseInt (r ++ String c EmptyString)) 97
                  ltac:(lia)) as Hbound.
    pose proof (length_toString _ Hbound) as Hshort.
    rewrite parseInt_toString by exact Hbound.
    rewrite Z.mod_mod by lia. split; [|lia].
    rewrite parseInt_snoc. reflexivity.
  - rewrite parseInt_snoc, length_snoc. split; [reflexivity|lia].
Qed.

Lemma remainder_from (cs : list ascii) :
  forall r : string,
    (String.length r <= 8)%nat ->
    parseInt (fold_left round cs r) mod 97 =
      fold_left (fun n c => n * 10 + Validation.parseInt_digit c) cs
        (parseInt r) mod 97 /\
    (String.length (fold_left round cs r) <= 8)%nat.
Proof.
  induction cs as [|c cs IH]; intros r Hlen; cbn [fold_left].
  - split; [reflexivity|exact Hlen].
  - destruct (round_spec r c Hlen) as [Hval Hlen'].
    destruct (IH (round r c) Hlen') as [IHval IHlen].
    split; [|exact IHlen]. rewrite IHval.
    assert (Hcong : forall cs a b,
              a mod 97 = b mod 97 ->
              fold_left (fun n c => n * 10 + Validation.parseInt_digit c) cs a
                mod 97 =
              fold_left (fun n c => n * 10 + Validation.parseInt_digit c) cs b
                mod 97).
    { clear. induction cs as [|c cs IH]; intros a b Hab; cbn; [exact Hab|].
      apply IH. rewrite (Z.add_mod (a * 10)), (Z.add_mod (b * 10)) by lia.
      rewrite (Z.mul_mod a), (Z.mul_mod b), Hab by lia. reflexivity. }
    apply Hcong. exact Hval.
Qed.

(** The loop of [validateIBAN], which reduces modulo 97 each time nine
    characters have gathered, ends with the remainder modulo 97 of the
    whole number that the digits spell, however long it is; and no number
    it parses on the way has more than nine digits. *)
Theorem remainder_of_is_mod_97 (numericString : string) :
  parseInt (remainder_of numericString) mod 97 =
    parseInt numericString mod 97 /\
  (String.length (remainder_of numericString) <= 8)%nat.
Proof.
  unfold remainder_of.
  destruct (remainder_from (list_ascii_of_string numericString) EmptyString)
    as [Hval Hlen]; [cbn; lia|].
  split; [exact Hval|exact Hlen].
Qed.

Lemma numeric_char_digits (c : ascii) :
  is_alnum c = true ->
  forallb Validation.is_digit (list_ascii_of_string (numeric_char c)) = true.
Proof.
  intros H. destruct c as [[|] [|] [|] [|] [|] [|] [|] [|]];
    vm_compute in H |- *; first [reflexivity|discriminate H].
Qed.

Lemma list_of_append (a b : string) :
  list_ascii_of_string (a ++ b) =
    (list_ascii_of_string a ++ list_ascii_of_string b)%list.
Proof. induction a as [|c a IH]; cbn; [reflexivity|rewrite IH; reflexivity]. Qed.

Lemma numeric_digits (s : string) :
  forallb is_alnum (list_ascii_of_string s) = true ->
  forallb Validation.is_digit (list_ascii_of_string (numeric s)) = true.
Proof.
  induction s as [|c s IH]; cbn [list_ascii_of_string forallb numeric];
    [reflexivity|].
  intros H. apply andb_prop in H as [Hc Hs].
  rewrite list_of_append, forallb_app, (numeric_char_digits c Hc).
  apply IH. exact Hs.
Qed.

Lemma length_list_of_string (s : string) :
  List.length (list_ascii_of_string s) = String.length s.
Proof. induction s as [|c s IH]; cbn; [reflexivity|rewrite IH; reflexivity]. Qed.

(** For a string of the Bulgarian shape, what the loop reads is a string
    of decimal digits, and not an empty one: the numbers it parses are
    those JavaScript parses. *)
Lemma numeric_of_well_formed (cleanedIBAN : string) :
  well_formed cleanedIBAN = true ->
  forallb Validation.is_digit
    (list_ascii_of_string (numeric (rearranged cleanedIBAN))) = true /\
  numeric (rearranged cleanedIBAN) <> EmptyString.
Proof.
  intros H. unfold well_formed in H.
  destruct (list_ascii_of_string cleanedIBAN) as [|b [|g rest]] eqn:Hlist;
    try discriminate H.
  repeat (apply andb_prop in H as [H ?]).
  assert (Hlen : String.length cleanedIBAN = 22%nat).
  { rewrite <- length_list_of_string, Hlist. cbn.
    apply Nat.eqb_eq in H3. lia. }
  do 22 (destruct cleanedIBAN as [|? cleanedIBAN]; [discriminate Hlen|]).
  destruct cleanedIBAN; [|discriminate Hlen].
  injection Hlist as <- <- <-.
  cbn in H0, H1, H2.
  repeat match goal with
         | Hc : _ && _ = true |- _ => apply andb_prop in Hc as [? ?]
         end.
  apply Ascii.eqb_eq in H, H4. subst.
  split.
  - apply numeric_digits. unfold rearranged. cbn.
    unfold is_alnum at 5 6 7 8 9 10 11 12 13 14 15 16 17 18 19 20 21 22.
    repeat match goal with
           | Hc : ?x = true |- context [?x] => rewrite Hc
           end.
    reflexivity.
  - unfold rearranged. cbn [String.substring String.length Nat.sub
                            String.append numeric].
    unfold numeric_char at 1.
    destruct (is_upper _); [|discriminate].
    match goal with
    | |- (toString ?n ++ _)%string <> _ =>
        intros E; destruct (toString n) eqn:Hn; [|discriminate E]
    end.
    clear - Hn. unfold toString in Hn.
    destruct (Z.to_int _) as [d|d]; cbn in Hn.
    + destruct d; discriminate Hn.
    + discriminate Hn.
Qed.

(** An account number, once cleaned, is accepted exactly when it has the
    Bulgarian shape (BG, two digits, four letters or digits, fourteen
    digits) and the number spelled by its rearranged characters, letters
    replaced by 10 to 35, leaves the remainder 1 modulo 97. *)
Theorem check_is_mod_97 (cleanedIBAN : string) :
  check cleanedIBAN =
    well_formed cleanedIBAN &&
    (parseInt (numeric (rearranged cleanedIBAN)) mod 97 =? 1).
Proof.
  unfold check. destruct (well_formed cleanedIBAN); [|reflexivity].
  cbn [negb andb]. unfold remainder_of.
  destruct (remainder_from
              (list_ascii_of_string (numeric (rearranged cleanedIBAN)))
              EmptyString) as [Hval _]; [cbn; lia|].
  rewrite Hval. reflexivity.
Qed.

End IbanFacts.

Section CheckDigitFacts.
Import Validation.

Lemma digit_with_value (k : Z) :
  0 <= k <= 9 -> exists c, is_digit c = true /\ parseInt_digit c = k.
Proof.
  intros Hk.
  assert (k = 0 \/ k = 1 \/ k = 2 \/ k = 3 \/ k = 4 \/ k = 5 \/ k = 6 \/
          k = 7 \/ k = 8 \/ k = 9) as Hcases by lia.
  repeat destruct Hcases as [->|Hcases]; [..|subst k].
  - exists "0"%char. split; reflexivity.
  - exists "1"%char. split; reflexivity.
  - exists "2"%char. split; reflexivity.
  - exists "3"%char. split; reflexivity.
  - exists "4"%char. split; reflexivity.
  - exists "5"%char. split; reflexivity.
  - exists "6"%char. split; reflexivity.
  - exists "7"%char. split; reflexivity.
  - exists "8"%char. split; reflexivity.
  - exists "9"%char. split; reflexivity.
Qed.

(** Every string of nine digits is the start of exactly one valid EGN:
    there is one character, a digit, that [validateEGN] accepts in the
    tenth place, and no other. *)
Theorem every_prefix_has_one_check_digit (p : string) :
  String.length p = 9%nat ->
  forallb is_digit (list_ascii_of_string p) = true ->
  exists c,
    is_digit c = true /\
    validateEGN (p ++ String c EmptyString) = true /\
    forall c', validateEGN (p ++ String c' EmptyString) = true -> c' = c.
Proof.
  intros Hlen Hdigits.
  do 9 (destruct p as [|? p]; [discriminate Hlen|]).
  destruct p; [|discriminate Hlen].
  set (k := recompute_check_digit
              (map parseInt_digit [a; a0; a1; a2; a3; a4; a5; a6; a7])).
  assert (Hsum : forall c,
    checksum (String a (String a0 (String a1 (String a2 (String a3
       (String a4 (String a5 (String a6 (String a7 (String c
        EmptyString)))))))))) = k).
  { intros c. unfold checksum, weighted_sum, char_at, weights, k,
      recompute_check_digit. cbn.
    match goal with
    | |- (if ?x mod 11 =? 10 then _ else _) =
         (if ?y mod 11 =? 10 then _ else _) =>
        replace x with y by lia
    end. reflexivity. }
  assert (Hk : 0 <= k <= 9).
  { unfold k, recompute_check_digit.
    match goal with
    | |- context [?x mod 11] =>
        pose proof (Z.mod_pos_bound x 11 ltac:(lia));
        destruct (Z.eqb_spec (x mod 11) 10); lia
    end. }
  destruct (digit_with_value k Hk) as (c & Hc & Hvalue).
  exists c. split; [exact Hc|].
  assert (Hvalid : forall c',
            validateEGN
              (String a (String a0 (String a1 (String a2 (String a3
                 (String a4 (String a5 (String a6 (String a7 (String c'
                  EmptyString)))))))))) =
            is_digit c' && (k =? parseInt_digit c')).
  { intros c'. unfold validateEGN. rewrite Hsum.
    unfold ten_digits, char_at. cbn in Hdigits |- *.
    repeat match goal with
           | H : _ && _ = true |- _ => apply andb_prop in H as [? ?]
           end.
    repeat match goal with
           | H : is_digit ?x = true |- context [is_digit ?x] => rewrite H
           end.
    cbn. rewrite andb_true_r.
    destruct (is_digit c'); reflexivity. }
  cbn [String.append]. split.
  - rewrite Hvalid, Hc, Hvalue, Z.eqb_refl. reflexivity.
  - intros c' H. rewrite Hvalid in H. apply andb_prop in H as [_ H].
    apply Z.eqb_eq in H. apply parseInt_digit_inj. congruence.
Qed.

End CheckDigitFacts.

(** * The theorems above at concrete inputs *)

Lemma retryRequest_exhausted_witness :
  exists e,
    MoreSamples.always_times_out 3%nat = EasyPay.Failed e /\
    EasyPay.retryRequest MoreSamples.always_times_out 4 =
      {| EasyPay.ended := EasyPay.Thrown e; EasyPay.calls := 4;
         EasyPay.sleeps := map EasyPay.backoff (seq 0 3) |}.
Proof.
  apply (retryRequest_exhausted MoreSamples.always_times_out 4).
  - lia.
  - intros j _. eexists. reflexivity.
Defined.

Lemma retryRequest_first_success_witness :
  EasyPay.retryRequest MoreSamples.fails_twice 5 =
    {| EasyPay.ended := EasyPay.Returned MoreSamples.accepted;
       EasyPay.calls := 3;
       EasyPay.sleeps := map EasyPay.backoff (seq 0 2) |} /\
  fold_right Z.add 0
    (EasyPay.sleeps (EasyPay.retryRequest MoreSamples.fails_twice 5)) =
    EasyPay.RETRY_DELAY * (2 ^ Z.of_nat 2 - 1).
Proof.
  apply (retryRequest_first_success MoreSamples.fails_twice 5 2
           MoreSamples.accepted).
  - lia.
  - intros j Hj. exists Samples.timeout.
    destruct j as [|[|j]]; [reflexivity|reflexivity|lia].
  - reflexivity.
Defined.

Lemma balance_is_conserved_witness :
  Ledger.balance_of "u-1" (snd (Ledger.run MoreSamples.day Samples.store)) =
    Some (100000 +
          Ledger.total_worth "u-1" MoreSamples.day
            (fst (Ledger.run MoreSamples.day Samples.store))) /\
  Ledger.total_worth "u-1" MoreSamples.day
    (fst (Ledger.run MoreSamples.day Samples.store)) =
    10051 - 25000 - 8550.
Proof.
  split.
  - apply (balance_is_conserved "u-1" MoreSamples.day Samples.store 100000).
    + reflexivity.
    + lia.
    + repeat constructor; cbn; lia.
    + repeat constructor; cbn; intuition discriminate.
  - reflexivity.
Defined.

Lemma balance_never_negative_witness :
  exists b',
    Ledger.balance_of "u-1" (snd (Ledger.run MoreSamples.day Samples.store))
      = Some b' /\ 0 <= b'.
Proof.
  apply (balance_never_negative "u-1" MoreSamples.day Samples.store 100000).
  - reflexivity.
  - lia.
  - repeat constructor. cbn. lia.
Defined.






Lemma verify_grant_effects_witness :
  exists u,
    Db.user_by_egn "6101057509" Samples.store = Some u /\
    fst (Auth.verify Samples.toy Samples.face_down
           (Samples.login "1234" (Some "image") 1000 "s-1") Samples.store) =
      Auth.LoggedIn
        (jwt_sign Samples.toy (Db.u_id u) (Db.u_egn u) 1000)
        {| Auth.id := Db.u_id u; Auth.sum_egn := Db.u_egn u;
           Auth.fullName := Db.u_full_name u;
           Auth.accountNumber := Db.u_account_number u;
           Auth.balance := Db.u_balance u |} /\
    Db.user_by_egn "6101057509"
      (snd (Auth.verify Samples.toy Samples.face_down
              (Samples.login "1234" (Some "image") 1000 "s-1")
              Samples.store)) =
      Some (Db.set_last_login_at 1000 (Db.set_failed_login_attempts 0 u)) /\
    Db.sessions
      (snd (Auth.verify Samples.toy Samples.face_down
              (Samples.login "1234" (Some "image") 1000 "s-1")
              Samples.store)) =
      (Db.sessions Samples.store ++
       [AuthEffects.session_of Samples.toy
          (Samples.login "1234" (Some "image") 1000 "s-1") u])%list /\
    Db.transactions
      (snd (Auth.verify Samples.toy Samples.face_down
              (Samples.login "1234" (Some "image") 1000 "s-1")
              Samples.store)) = Db.transactions Samples.store.
Proof.
  apply (verify_grant_effects Samples.toy Samples.face_down
           (Samples.login "1234" (Some "image") 1000 "s-1") Samples.store).
  exists Samples.alice. split; [reflexivity|]. split; [reflexivity|].
  split; [right; right; reflexivity|]. split; [reflexivity|].
  unfold Auth.LOCK_THRESHOLD. cbn. lia.
Defined.

Lemma verify_wrong_pin_effects_witness :
  fst (Auth.verify Samples.toy Samples.face_up
         (Samples.login "0000" None 1 "s-1") Samples.store) =
    Auth.Refused 401 "Invalid credentials" None /\
  Db.user_by_egn "6101057509"
    (snd (Auth.verify Samples.toy Samples.face_up
            (Samples.login "0000" None 1 "s-1") Samples.store)) =
    Some (Db.set_failed_login_attempts 1 Samples.alice) /\
  Db.sessions
    (snd (Auth.verify Samples.toy Samples.face_up
            (Samples.login "0000" None 1 "s-1") Samples.store)) =
    Db.sessions Samples.store /\
  Db.transactions
    (snd (Auth.verify Samples.toy Samples.face_up
            (Samples.login "0000" None 1 "s-1") Samples.store)) =
    Db.transactions Samples.store.
Proof.
  apply (verify_wrong_pin_effects Samples.toy Samples.face_up
           (Samples.login "0000" None 1 "s-1") Samples.store Samples.alice).
  - reflexivity.
  - reflexivity.
  - unfold Auth.LOCK_THRESHOLD. cbn. lia.
  - reflexivity.
Defined.

Lemma verify_does_not_tell_unknown_from_wrong_pin_witness :
  fst (Auth.verify Samples.toy Samples.face_up MoreSamples.stranger
         Samples.store) =
  fst (Auth.verify Samples.toy Samples.face_up
         (Samples.login "0000" None 1 "s-1") Samples.store).
Proof.
  apply (verify_does_not_tell_unknown_from_wrong_pin Samples.toy
           Samples.face_up MoreSamples.stranger
           (Samples.login "0000" None 1 "s-1") Samples.store Samples.alice).
  - reflexivity.
  - reflexivity.
  - reflexivity.
  - unfold Auth.LOCK_THRESHOLD. cbn. lia.
  - reflexivity.
Defined.

Lemma login_then_verifyToken_witness :
  exists u token,
    Db.user_by_egn "6101057509" Samples.store = Some u /\
    Auth.issues_token
      (fst (Auth.verify Samples.toy Samples.face_up
              (Samples.login "1234" None 1000 "s-1") Samples.store)) = true /\
    token = jwt_sign Samples.toy (Db.u_id u) (Db.u_egn u) 1000 /\
    fst (Session.verifyToken Samples.toy (Some ("Bearer " ++ token)) 2000
           (snd (Auth.verify Samples.toy Samples.face_up
                   (Samples.login "1234" None 1000 "s-1") Samples.store))) =
      Session.Next {| Session.id := Db.u_id u; Session.egn := Db.u_egn u;
                      Session.fullName := Db.u_full_name u |}.
Proof.
  apply (login_then_verifyToken Samples.toy Samples.face_up
           (Samples.login "1234" None 1000 "s-1") Samples.store 2000).
  - exists Samples.alice. split; [reflexivity|]. split; [reflexivity|].
    split; [left; reflexivity|]. split; [reflexivity|].
    unfold Auth.LOCK_THRESHOLD. cbn. lia.
  - cbn. constructor; [intros []|constructor].
  - intros u [= <-]. reflexivity.
  - cbn. unfold Session.hour. lia.
Defined.

Lemma logout_then_verifyToken_witness :
  fst (Session.verifyToken Samples.toy
         (Some ("Bearer " ++ Samples.late_token)) 3000
         (snd (Auth.logout Samples.toy
                 (Some ("Bearer " ++ Samples.early_token)) 2000
                 Samples.after_first_login))) =
    Session.Rejected 401 "Session expired or invalid".
Proof.
  apply (logout_then_verifyToken Samples.toy Samples.early_token
           Samples.late_token 2000 3000 "u-1" "6101057509" "6101057509"
           Samples.after_first_login).
  - reflexivity.
  - reflexivity.
Defined.

Lemma verifyToken_needs_live_session_witness :
  Session.verifyToken Samples.toy
    (Some ("Bearer " ++ Samples.early_token)) 2000 MoreSamples.stale_store =
  (Session.Rejected 401 "Session expired or invalid",
   MoreSamples.stale_store).
Proof.
  apply (verifyToken_needs_live_session Samples.toy Samples.early_token
           2000 "u-1" "6101057509" MoreSamples.stale_store).
  - reflexivity.
  - repeat constructor. cbn. lia.
Defined.

Lemma register_then_login_witness :
  fst (Auth.verify Samples.toy Samples.face_up MoreSamples.bob_login
         (snd (Auth.register Samples.toy Samples.face_up Samples.bob
                 Samples.store))) =
    Auth.LoggedIn (jwt_sign Samples.toy "u-2" "7501020018" 50)
      {| Auth.id := "u-2"; Auth.sum_egn := "7501020018";
         Auth.fullName := "Bob";
         Auth.accountNumber := "BG80BNBG96611020222222";
         Auth.balance := 0 |}.
Proof.
  apply (register_then_login Samples.toy Samples.face_up Samples.bob
           MoreSamples.bob_login Samples.store
           "User registered successfully").
  - reflexivity.
  - reflexivity.
  - reflexivity.
  - reflexivity.
  - reflexivity.
Defined.

Lemma activate_then_login_witness :
  fst (Admin.activate Samples.toy MoreSamples.header 2000 "u-1"
         (snd (Auth.verify Samples.toy Samples.face_up
                 (Samples.login "1234" None 1000 "s-1") Samples.store))) =
    Auth.Sent 200 true "User activated successfully" /\
  Auth.issues_token
    (fst (Auth.verify Samples.toy Samples.face_up
            (Samples.login "1234" None 3000 "s-2")
            (snd (Admin.activate Samples.toy MoreSamples.header 2000 "u-1"
                    (snd (Auth.verify Samples.toy Samples.face_up
                            (Samples.login "1234" None 1000 "s-1")
                            Samples.store)))))) = true.
Proof.
  apply (activate_then_login Samples.toy Samples.face_up MoreSamples.header
           2000
           {| Session.id := "u-1"; Session.egn := "6101057509";
              Session.fullName := "Alice" |}
           (Samples.login "1234" None 3000 "s-2")
           (snd (Auth.verify Samples.toy Samples.face_up
                   (Samples.login "1234" None 1000 "s-1") Samples.store))
           (Db.set_last_login_at 1000
              (Db.set_failed_login_attempts 0 Samples.alice))).
  - reflexivity.
  - reflexivity.
  - reflexivity.
  - reflexivity.
Defined.

Lemma deactivate_then_login_witness :
  fst (Auth.verify Samples.toy Samples.face_up
         (Samples.login "1234" None 3000 "s-2")
         (snd (Admin.deactivate Samples.toy MoreSamples.header 2000 "u-1"
                 (snd (Auth.verify Samples.toy Samples.face_up
                         (Samples.login "1234" None 1000 "s-1")
                         Samples.store))))) =
    Auth.Refused 403 "Account is deactivated" None.
Proof.
  apply (deactivate_then_login Samples.toy Samples.face_up MoreSamples.header
           2000
           {| Session.id := "u-1"; Session.egn := "6101057509";
              Session.fullName := "Alice" |}
           (Samples.login "1234" None 3000 "s-2")
           (snd (Auth.verify Samples.toy Samples.face_up
                   (Samples.login "1234" None 1000 "s-1") Samples.store))
           (Db.set_last_login_at 1000
              (Db.set_failed_login_attempts 0 Samples.alice))).
  - reflexivity.
  - reflexivity.
Defined.

Lemma pending_status_is_not_cached_witness :
  Status.cache_after
    (Status.checkTransactionStatus MoreSamples.reports_pending 1000 "EP-9"
       MoreSamples.no_cache) = MoreSamples.no_cache.
Proof.
  apply (pending_status_is_not_cached MoreSamples.reports_pending 1000
           "EP-9" MoreSamples.no_cache
           {| Status.transactionId := "EP-9";
              Status.answer := MoreSamples.still_pending |}).
  - reflexivity.
  - reflexivity.
Defined.

Lemma terminal_status_is_served_from_cache_witness :
  let c' :=
    Status.cache_after
      (Status.checkTransactionStatus Samples.accepts 1000 "EP-1"
         MoreSamples.no_cache) in
  Status.outcome
    (Status.checkTransactionStatus Samples.never_answers 200000 "EP-1" c') =
    inl {| Status.transactionId := "EP-1";
           Status.answer := MoreSamples.accepted |} /\
  Status.sent
    (Status.checkTransactionStatus Samples.never_answers 200000 "EP-1" c') =
    [] /\
  Status.cache_after
    (Status.checkTransactionStatus Samples.never_answers 200000 "EP-1" c') =
    c'.
Proof.
  apply (terminal_status_is_served_from_cache Samples.accepts
           Samples.never_answers 1000 200000 "EP-1" MoreSamples.no_cache
           {| Status.transactionId := "EP-1";
              Status.answer := MoreSamples.accepted |}).
  - reflexivity.
  - reflexivity.
  - discriminate.
  - lia.
Defined.

Lemma status_of_foreign_transaction_witness :
  Status.status Samples.accepts 3000 MoreSamples.dave_tx MoreSamples.carol_id
    MoreSamples.no_cache MoreSamples.polled_store =
    {| Status.reply := Status.NotFound 404 "Transaction not found";
       Status.store := MoreSamples.polled_store;
       Status.cached := MoreSamples.no_cache |} /\
  Status.status Samples.accepts 3000 "tx-7" MoreSamples.carol_id
    MoreSamples.no_cache MoreSamples.polled_store =
    {| Status.reply := Status.NotFound 500 "Failed to check transfer status";
       Status.store := MoreSamples.polled_store;
       Status.cached := MoreSamples.no_cache |}.
Proof.
  split.
  - apply (status_of_foreign_transaction Samples.accepts 3000
             MoreSamples.dave_tx MoreSamples.carol_id MoreSamples.no_cache
             MoreSamples.polled_store).
    + reflexivity.
    + repeat constructor; vm_compute; intros; congruence.
  - apply (status_of_foreign_transaction Samples.accepts 3000 "tx-7"
             MoreSamples.carol_id MoreSamples.no_cache
             MoreSamples.polled_store).
    + reflexivity.
    + repeat constructor; vm_compute; intros; congruence.
Defined.

Lemma history_lists_own_rows_witness :
  Forall
    (fun t =>
       In t (Db.transactions MoreSamples.shared_store) /\
       Db.t_user_id t = "u-1" /\
       (truthy None = true ->
        Db.t_transaction_type t = (fun x => x) (EasyPay.default_to "" None)))
    (map fst [(MoreSamples.pending_transfer, @None string)]) /\
  StronglySorted Transactions.newer_first
    (map fst [(MoreSamples.pending_transfer, @None string)]) /\
  (List.length [(MoreSamples.pending_transfer, @None string)] <=
   Z.to_nat (Transactions.number_or None 20))%nat.
Proof.
  apply (history_lists_own_rows (fun x => x) "u-1" None None None
           MoreSamples.shared_store
           [(MoreSamples.pending_transfer, None)]).
  reflexivity.
Defined.

Lemma every_prefix_has_one_check_digit_witness :
  exists c,
    Validation.is_digit c = true /\
    Validation.validateEGN (MoreSamples.nine_digits ++ String c EmptyString)
      = true /\
    forall c',
      Validation.validateEGN
        (MoreSamples.nine_digits ++ String c' EmptyString) = true ->
      c' = c.
Proof.
  apply (every_prefix_has_one_check_digit MoreSamples.nine_digits).
  - reflexivity.
  - reflexivity.
Defined.
